(** * goscriptureapi: embedding chain, vector index and search service

    A shallow embedding of the Go sources

      - [internal/search]      (search.go: SearchService, VectorIndex,
                                QuantizedIndex)
      - [internal/embeddings]  (embeddings.go, simple_embeddings.go and
                                the ONNX-backed provider)
      - [internal/api]         (the request handler's option merging)
      - [internal/config]      (ModelConfig)

    together with the properties of the design document that can be
    stated about them, and further properties read off the code: the
    storage format of embeddings, what a search returns, the cache and
    the states of the service, the payloads, the providers and the
    request handler.

    Conventions.
    - Go's [int] is the 64-bit two's-complement integer of the amd64
      port, a [Z] kept in range by [wrap64]; [uint32] is a [Z] reduced
      modulo [2^32].
    - [float32] and [float64] are IEEE-754 binary32 / binary64 values,
      represented by [spec_float] and computed with the operations of
      [SpecFloat] at precision 24 / 53.  Every operation is rounded on
      its own (no fused multiply-add), as the amd64 port does.
    - A Go [map] is a [gmap]; a slice is a [list].
    - A call either returns, returns a non-nil [error], or panics:
      the three constructors of [outcome].
    - Mutexes are not modelled: every method below runs under the lock
      it takes, so the sequential reading is the method's atomic step. *)

From Stdlib Require Import ZArith Lia Bool List String Ascii.
From Stdlib Require Import Floats.SpecFloat DecimalString.
From Stdlib Require Import Sorting.Permutation Sorting.Sorted.
From stdpp Require Import base option list gmap strings fin_maps.

Set Warnings "-register-all".
#[local] Open Scope string_scope.
#[local] Open Scope list_scope.
#[local] Open Scope Z_scope.

(* ================================================================= *)
(** ** Outcomes of a Go call *)

Inductive outcome (A : Type) : Type :=
  | Ret (a : A)              (* normal return, [err == nil] *)
  | Err (msg : string)       (* a non-nil [error] is returned *)
  | Panic (msg : string).    (* a run-time panic unwinds the call *)

Arguments Ret {A} a.
Arguments Err {A} msg.
Arguments Panic {A} msg.

Definition obind {A B : Type} (m : outcome A) (k : A -> outcome B) : outcome B :=
  match m with
  | Ret a => k a
  | Err e => Err e
  | Panic p => Panic p
  end.

Notation "'let*' x := m 'in' k" := (obind m (fun x => k))
  (at level 10, x name, m at level 100, k at level 200).

Definition is_Ret {A : Type} (o : outcome A) : bool :=
  match o with Ret _ => true | _ => false end.

Definition is_Panic {A : Type} (o : outcome A) : bool :=
  match o with Panic _ => true | _ => false end.

Definition is_Err {A : Type} (o : outcome A) : bool :=
  match o with Err _ => true | _ => false end.

(* ================================================================= *)
(** ** Machine integers *)

Module GoInt.

Definition min_int : Z := - 2 ^ 63.
Definition max_int : Z := 2 ^ 63 - 1.

(** Wrap-around of [int] / [int64] arithmetic. *)
Definition wrap64 (z : Z) : Z := (z + 2 ^ 63) mod 2 ^ 64 - 2 ^ 63.

Definition wrap_u32 (z : Z) : Z := z mod 2 ^ 32.

Definition add (a b : Z) : Z := wrap64 (a + b).
Definition sub (a b : Z) : Z := wrap64 (a - b).
Definition mul (a b : Z) : Z := wrap64 (a * b).

(** [len(x)] of a slice or of a string (bytes). *)
Definition len {A : Type} (l : list A) : Z := Z.of_nat (List.length l).
Definition strlen (s : string) : Z := Z.of_nat (String.length s).

(** [fmt.Sprintf("%d", n)]. *)
Definition itoa (n : Z) : string := NilZero.string_of_int (Z.to_int n).

End GoInt.

(* ================================================================= *)
(** ** IEEE-754 arithmetic *)

Module F32.

Definition prec : Z := 24.
Definition emax : Z := 128.

Definition t : Type := spec_float.

Definition zero : t := S754_zero false.
Definition nan : t := S754_nan.

Definition add : t -> t -> t := SFadd prec emax.
Definition sub : t -> t -> t := SFsub prec emax.
Definition mul : t -> t -> t := SFmul prec emax.
Definition div : t -> t -> t := SFdiv prec emax.

(** Go's [==], [<] and [>] on floats: false as soon as an operand is
    NaN. *)
Definition eqb : t -> t -> bool := SFeqb.
Definition ltb : t -> t -> bool := SFltb.
Definition gtb (x y : t) : bool := SFltb y x.

Definition is_nan (x : t) : bool :=
  match x with S754_nan => true | _ => false end.

(** Conversion of an integer ([float32(n)]), round to nearest even. *)
Definition of_Z (n : Z) : t := binary_normalize prec emax n 0 false.

(** A dyadic literal [m * 2^e], rounded to the format. *)
Definition of_dyadic (m e : Z) : t := binary_normalize prec emax m e false.

(** [float32(x)] for a [float64] (or any wider) value. *)
Definition of_float (x : spec_float) : t :=
  match x with
  | S754_finite s m e => binary_round prec emax s m e
  | _ => x
  end.

End F32.

Module F64.

Definition prec : Z := 53.
Definition emax : Z := 1024.

Definition t : Type := spec_float.

Definition zero : t := S754_zero false.

Definition add : t -> t -> t := SFadd prec emax.
Definition mul : t -> t -> t := SFmul prec emax.
Definition div : t -> t -> t := SFdiv prec emax.
Definition sqrt : t -> t := SFsqrt prec emax.

Definition gtb (x y : t) : bool := SFltb y x.

(** [float64(x)] for a [float32]: exact, re-aligned to the wider
    mantissa. *)
Definition of_f32 (x : F32.t) : t :=
  match x with
  | S754_finite s m e => binary_round prec emax s m e
  | _ => x
  end.

Definition of_Z (n : Z) : t := binary_normalize prec emax n 0 false.

End F64.

(** Conversion of a float to [int].  The fraction is discarded.  For NaN,
    the infinities and values outside the range of [int] the language
    leaves the result to the implementation; amd64 yields the smallest
    [int] ([CVTTSD2SQ]'s integer indefinite). *)
Definition float_to_int (x : spec_float) : Z :=
  match x with
  | S754_zero _ => 0
  | S754_finite s m e =>
      let mag := if 0 <=? e then Z.shiftl (Zpos m) e else Z.shiftr (Zpos m) (- e) in
      let v := if s then - mag else mag in
      if (GoInt.min_int <=? v) && (v <=? GoInt.max_int) then v else GoInt.min_int
  | _ => GoInt.min_int
  end.

(** [int8(n)] for an [int] already clamped or not: the low 8 bits,
    sign-extended. *)
Definition int8_of_int (n : Z) : Z := (n + 128) mod 256 - 128.

(* ================================================================= *)
(** ** Strings *)

(** A Go string is a sequence of bytes; [for _, c := range s] walks its
    UTF-8 encoded code points.  An ill-formed sequence yields U+FFFD and
    consumes one byte. *)
Module Utf8.

Definition RuneError : Z := 65533.

Definition byte_of (c : ascii) : Z := Z.of_N (N_of_ascii c).

Definition is_cont (b : Z) : bool := (128 <=? b) && (b <=? 191).

(** One decoding step: the rune and the number of bytes consumed. *)
Definition decode (bs : list Z) : Z * nat :=
  match bs with
  | [] => (RuneError, 1%nat)
  | b0 :: rest =>
      if b0 <? 128 then (b0, 1%nat)
      else if (192 <=? b0) && (b0 <? 224) then
        match rest with
        | b1 :: _ =>
            let r := Z.lor (Z.shiftl (Z.land b0 31) 6) (Z.land b1 63) in
            if is_cont b1 && (127 <? r) then (r, 2%nat) else (RuneError, 1%nat)
        | _ => (RuneError, 1%nat)
        end
      else if (224 <=? b0) && (b0 <? 240) then
        match rest with
        | b1 :: b2 :: _ =>
            let r := Z.lor (Z.lor (Z.shiftl (Z.land b0 15) 12)
                                  (Z.shiftl (Z.land b1 63) 6))
                           (Z.land b2 63) in
            if is_cont b1 && is_cont b2 && (2047 <? r)
               && negb ((55296 <=? r) && (r <=? 57343))
            then (r, 3%nat) else (RuneError, 1%nat)
        | _ => (RuneError, 1%nat)
        end
      else if (240 <=? b0) && (b0 <? 248) then
        match rest with
        | b1 :: b2 :: b3 :: _ =>
            let r := Z.lor (Z.lor (Z.lor (Z.shiftl (Z.land b0 7) 18)
                                         (Z.shiftl (Z.land b1 63) 12))
                                  (Z.shiftl (Z.land b2 63) 6))
                           (Z.land b3 63) in
            if is_cont b1 && is_cont b2 && is_cont b3
               && (65535 <? r) && (r <=? 1114111)
            then (r, 4%nat) else (RuneError, 1%nat)
        | _ => (RuneError, 1%nat)
        end
      else (RuneError, 1%nat)
  end.

Fixpoint runes_fuel (fuel : nat) (bs : list Z) : list Z :=
  match fuel with
  | O => []
  | S fuel' =>
      match bs with
      | [] => []
      | _ =>
          let '(r, n) := decode bs in
          r :: runes_fuel fuel' (drop n bs)
      end
  end.

Definition bytes (s : string) : list Z :=
  List.map byte_of (list_ascii_of_string s).

(** The runes visited by [range s]; every step consumes at least one
    byte, so the byte count is enough fuel. *)
Definition runes (s : string) : list Z :=
  let bs := bytes s in runes_fuel (List.length bs) bs.

End Utf8.

(** [strings.Contains(s, substr)]. *)
Fixpoint strings_Contains (s substr : string) : bool :=
  String.prefix substr s
  || match s with
     | EmptyString => false
     | String _ s' => strings_Contains s' substr
     end.

(* ================================================================= *)
(** ** Slices *)

Module Slice.

Import GoInt.

(** [make([]T, n)]. *)
Definition make {A : Type} (zero : A) (n : Z) : outcome (list A) :=
  if n <? 0 then Panic "makeslice: len out of range"
  else Ret (replicate (Z.to_nat n) zero).

(** [l[i]], bounds-checked. *)
Definition get {A : Type} (l : list A) (i : Z) : outcome A :=
  if (0 <=? i) && (i <? len l) then
    match l !! Z.to_nat i with
    | Some x => Ret x
    | None => Panic "index out of range"
    end
  else Panic "index out of range".

(** [l[i] = x], bounds-checked. *)
Definition set {A : Type} (l : list A) (i : Z) (x : A) : outcome (list A) :=
  if (0 <=? i) && (i <? len l) then Ret (<[Z.to_nat i := x]> l)
  else Panic "index out of range".

(** [l[:k]] for [k] not above [len(l)] (every use below has clamped or
    checked [k] against the length first); a negative [k] panics. *)
Definition prefix {A : Type} (l : list A) (k : Z) : outcome (list A) :=
  if (0 <=? k) && (k <=? len l) then Ret (take (Z.to_nat k) l)
  else Panic "slice bounds out of range".

(** [for i, x := range l { s = body i x s }], the index starting at
    [i0]. *)
Fixpoint range_from {A S : Type} (body : Z -> A -> S -> outcome S)
    (i0 : Z) (l : list A) (s : S) : outcome S :=
  match l with
  | [] => Ret s
  | x :: l' =>
      let* s' := body i0 x s in
      range_from body (i0 + 1) l' s'
  end.

Definition for_range {A S : Type} (body : Z -> A -> S -> outcome S)
    (l : list A) (s : S) : outcome S :=
  range_from body 0 l s.

End Slice.

(* ================================================================= *)
(** ** What the program takes from outside *)

(** Results of calls into native or remote code: a value or an error. *)
Definition result (A : Type) : Type := (A + string)%type.

Definition of_result {A : Type} (r : result A) : outcome A :=
  match r with
  | inl a => Ret a
  | inr e => Err e
  end.

(** Values of type [interface{}] as [json.Unmarshal] builds them, plus
    the dynamic type [int] that [getIntField] also tests for. *)
Inductive value : Type :=
  | VNil
  | VBool (b : bool)
  | VFloat64 (f : F64.t)
  | VInt (n : Z)
  | VString (s : string)
  | VSlice (l : list value)
  | VMap (m : gmap string value).

(** Functions of Go's standard library that the sources call and whose
    text is not part of the repository. *)
Class GoRuntime : Type := {
(** [sort.Slice]: the element-wise reading of its [less(i, j)]. *)
sort_Slice : forall A : Type, (A -> A -> bool) -> list A -> list A;
strings_EqualFold : string -> string -> bool;
strings_ToLower : string -> string;
strings_Fields : string -> list string;
math_Log : F64.t -> F64.t;
(** [fmt.Sscanf(s, "%d", &n)] on [n == 0]: the value left in [n]. *)
fmt_Sscan_int : string -> Z;
(** The order in which one [range] over a map visits its entries. *)
map_range : forall V : Type, gmap string V -> list (string * V)
}.

(** The native tokenizer and inference session, and the network. *)
Class Environment : Type := {
  tokenizer_Encode : string -> list Z;
(** [session.Run] on [input_ids] and [attention_mask], tensor
    creation included: the data of the output tensor, or an error. *)
session_Run : list Z -> list Z -> result (list F32.t);
(** The [n]-th request of the process: GET, status check, optional
    gunzip and [json.Unmarshal] of the body of [url]. *)
http_fetch : nat -> string -> bool -> result value
}.

(** What [sort.Slice] promises: the slice is rearranged, and when [less]
    is a strict weak ordering of the elements of the slice, no later
    element is [less] than an earlier one.  It does not promise
    stability. *)
Definition strict_weak_on {A : Type} (less : A -> A -> bool) (l : list A) : Prop :=
  (forall x, In x l -> less x x = false)
  /\ (forall x y z, In x l -> In y l -> In z l ->
        less x y = true -> less y z = true -> less x z = true)
  /\ (forall x y z, In x l -> In y l -> In z l ->
        less x y = false -> less y z = false -> less x z = false).

Definition sorted_by {A : Type} (less : A -> A -> bool) (l : list A) : Prop :=
  forall (i j : nat) (x y : A),
    (i < j)%nat -> l !! i = Some x -> l !! j = Some y -> less y x = false.

Class SortContract (R : GoRuntime) : Prop := {
  sort_Slice_perm :
    forall (A : Type) (less : A -> A -> bool) (l : list A),
      Permutation (sort_Slice A less l) l;
  sort_Slice_sorted :
    forall (A : Type) (less : A -> A -> bool) (l : list A),
      strict_weak_on less l -> sorted_by less (sort_Slice A less l)
}.

(* ================================================================= *)
(** ** Binary encoding of [float32] *)

Module Bits.

(** [math.Float32bits].  A [spec_float] carries no NaN payload; every
    NaN is written as the quiet NaN [0x7FC00000]. *)
Definition Float32bits (x : F32.t) : Z :=
  match x with
  | S754_zero s => if s then 2 ^ 31 else 0
  | S754_infinity s => (if s then 2 ^ 31 else 0) + 255 * 2 ^ 23
  | S754_nan => 2143289344
  | S754_finite s m e =>
      (if s then 2 ^ 31 else 0)
      + (if Zpos m <? 2 ^ 23 then Zpos m
         else (e + 150) * 2 ^ 23 + (Zpos m - 2 ^ 23))
  end.

(** [math.Float32frombits]: sign, biased exponent and fraction. *)
Definition Float32frombits (b : Z) : F32.t :=
  let s := Z.odd (Z.shiftr b 31) in
  let E := Z.shiftr b 23 mod 256 in
  let f := b mod 2 ^ 23 in
  if E =? 0 then
    if f =? 0 then S754_zero s else S754_finite s (Z.to_pos f) (-149)
  else if E =? 255 then
    if f =? 0 then S754_infinity s else S754_nan
  else S754_finite s (Z.to_pos (f + 2 ^ 23)) (E - 150).

(** [binary.LittleEndian.PutUint32] and [Uint32]. *)
Definition putUint32 (v : Z) : list Z :=
  [v mod 256; Z.shiftr v 8 mod 256; Z.shiftr v 16 mod 256; Z.shiftr v 24 mod 256].

Definition uint32 (b0 b1 b2 b3 : Z) : Z :=
  Z.lor (Z.lor (Z.lor b0 (Z.shiftl b1 8)) (Z.shiftl b2 16)) (Z.shiftl b3 24).

End Bits.

(* ================================================================= *)
(** ** package config *)

Module config.

Definition Dimensions : Z := 128.
Definition QueryPrefix : string := "task: search result | query: ".
Definition DocumentPrefix : string := "title: none | text: ".

Definition Verses : string :=
  "https://arweave.net/DdKgzVD1zJDlFqcPKnOf620EviiU5LoGDqxrv5wxxUY".
Definition VersesUncompressed : string :=
  "https://arweave.net/uW8W0WE37IsmZuuH5NJxfrDLWjf_vFFK5v4MmzL2Gco".
Definition VerseText : string :=
  "https://arweave.net/daKtqqHpLRnAWCNEWY8Q92NwSyJxWbm7WFDE3ut_BuM".
Definition Chapters : string :=
  "https://arweave.net/RLfnXY9-kD9McjalEhGgcK3ZZH9G_dXcfh6unygV1s8".
Definition ChaptersUncompressed : string :=
  "https://arweave.net/JyOVgeD6IlWnIg8e24cPQgEidAADriGexHbhZ0Hs6Fo".
Definition ChapterText : string :=
  "https://arweave.net/daKtqqHpLRnAWCNEWY8Q92NwSyJxWbm7WFDE3ut_BuM".

End config.

(* ================================================================= *)
(** ** package embeddings *)

Module embeddings.

Import GoInt.

(** *** embeddings.go: the deterministic placeholder *)

(** [normalize]: scale to unit length; the zero vector is returned as
    it is. *)
Definition normalize (vec : list F32.t) : outcome (list F32.t) :=
  let sum := fold_left (fun sum v => F32.add sum (F32.mul v v)) vec F32.zero in
  if F32.eqb sum F32.zero then Ret vec
  else
    let norm := F32.of_float (F64.sqrt (F64.of_f32 sum)) in
    let* normalized := Slice.make F32.zero (len vec) in
    Slice.for_range
      (fun i v normalized => Slice.set normalized i (F32.div v norm))
      vec normalized.

(** The rolling hash of the text: [hash = hash*31 + uint32(char)]. *)
Definition text_hash (text : string) : Z :=
  fold_left (fun hash char => wrap_u32 (hash * 31 + wrap_u32 char))
            (Utf8.runes text) 0.

(** [(float32(seed) / float32(math.MaxUint32)) * 2 - 1]. *)
Definition seed_to_float (seed : Z) : F32.t :=
  F32.sub (F32.mul (F32.div (F32.of_Z seed) (F32.of_Z 4294967295))
                   (F32.of_Z 2))
          (F32.of_Z 1).

Definition placeholder_fill (hash : Z) (embedding : list F32.t)
    : outcome (list F32.t) :=
  Slice.for_range
    (fun i _ embedding =>
       let seed := wrap_u32 (hash + wrap_u32 (wrap_u32 i * 2654435761)) in
       Slice.set embedding i (seed_to_float seed))
    embedding embedding.

Section WithRuntime.

Context {R : GoRuntime} {E : Environment}.

(** *** simple_embeddings.go *)

Record SimpleEmbeddingService : Type := {
  verseEmbeddings : gmap string (list F32.t);
  verseTexts : gmap string string;
  simple_initialized : bool
}.

Definition NewSimpleEmbeddingService : SimpleEmbeddingService :=
  {| verseEmbeddings := ∅; verseTexts := ∅; simple_initialized := false |}.

Definition Simple_Initialize (s : SimpleEmbeddingService)
    (embs : gmap string (list F32.t)) (texts : gmap string string)
    : SimpleEmbeddingService :=
  {| verseEmbeddings := embs; verseTexts := texts; simple_initialized := true |}.

Record match_ : Type := { match_id : string; match_score : F64.t }.

Definition calculateTextSimilarity (queryWords : list string)
    (verseText : string) : F64.t :=
  let verseWords := strings_Fields verseText in
  let verseWordSet : gset string := list_to_set verseWords in
  let matchCount :=
    fold_left
      (fun matchCount queryWord =>
         if bool_decide (queryWord ∈ verseWordSet) then matchCount + 1
         else if existsb
                   (fun verseWord =>
                      strings_Contains verseWord queryWord
                      || strings_Contains queryWord verseWord)
                   (elements verseWordSet)
              then matchCount + 1
              else matchCount)
      queryWords 0 in
  if len queryWords =? 0 then F64.zero
  else
    let similarity := F64.div (F64.of_Z matchCount) (F64.of_Z (len queryWords)) in
    let lengthBonus :=
      F64.div (math_Log (F64.of_Z (len verseWords + 1))) (F64.of_Z 10) in
    F64.add similarity lengthBonus.

Definition findBestTextMatches (s : SimpleEmbeddingService)
    (query : string) (topK : Z) : list string :=
  let queryWords := strings_Fields (strings_ToLower query) in
  let matches :=
    fold_left
      (fun matches (kv : string * string) =>
         let score :=
           calculateTextSimilarity queryWords (strings_ToLower (snd kv)) in
         if F64.gtb score F64.zero
         then matches ++ [{| match_id := fst kv; match_score := score |}]
         else matches)
      (map_range string (verseTexts s)) [] in
  let matches :=
    sort_Slice match_
      (fun mi mj => F64.gtb (match_score mi) (match_score mj)) matches in
  List.map match_id (take (Z.to_nat topK) matches).

(** One pass of [for i, val := range embedding] in
    [averageEmbeddings]. *)
Definition accumulate (embedding result : list F32.t) : outcome (list F32.t) :=
  Slice.for_range
    (fun i val result =>
       if i <? len result then
         let* cur := Slice.get result i in
         Slice.set result i (F32.add cur val)
       else Ret result)
    embedding result.

Fixpoint accumulate_all (s : SimpleEmbeddingService) (verseIDs : list string)
    (result : list F32.t) (count : Z) : outcome (list F32.t * Z) :=
  match verseIDs with
  | [] => Ret (result, count)
  | verseID :: rest =>
      match verseEmbeddings s !! verseID with
      | Some embedding =>
          let* result' := accumulate embedding result in
          accumulate_all s rest result' (count + 1)
      | None => accumulate_all s rest result count
      end
  end.

Definition averageEmbeddings (s : SimpleEmbeddingService)
    (verseIDs : list string) : outcome (list F32.t) :=
  if len verseIDs =? 0 then Slice.make F32.zero config.Dimensions
  else
    let* result := Slice.make F32.zero config.Dimensions in
    let* rc := accumulate_all s verseIDs result 0 in
    let '(result, count) := rc in
    if 0 <? count then
      Slice.for_range
        (fun i _ result =>
           let* cur := Slice.get result i in
           Slice.set result i (F32.div cur (F32.of_Z count)))
        result result
    else Ret result.

Definition Simple_EmbedQuery (s : SimpleEmbeddingService) (text : string)
    : outcome (list F32.t) :=
  if negb (simple_initialized s) then Err "service not initialized"
  else
    let bestMatches := findBestTextMatches s text 5 in
    if len bestMatches =? 0 then Err "no similar verses found"
    else averageEmbeddings s bestMatches.

Definition Simple_EmbedDocument (s : SimpleEmbeddingService) (text : string)
    : outcome (list F32.t) :=
  Simple_EmbedQuery s text.

(** *** The ONNX-backed provider *)

Record RealONNXEmbeddingService : Type := {
  onnx_initialized : bool
}.

Definition NewRealONNXEmbeddingService : RealONNXEmbeddingService :=
  {| onnx_initialized := false |}.

Definition maxLength : Z := 512.

(** [inputIds] and [attentionMask]: the first [copyLen] tokens, the
    rest of the 512 positions left at zero. *)
Definition pad_tokens (tokens : list Z) : list Z * list Z :=
  let copyLen := if len tokens >? maxLength then maxLength else len tokens in
  let n := Z.to_nat copyLen in
  (take n tokens ++ replicate (Z.to_nat maxLength - n) 0,
   replicate n 1 ++ replicate (Z.to_nat maxLength - n) 0).

Definition embed (s : RealONNXEmbeddingService) (text : string)
    : outcome (list F32.t) :=
  if negb (onnx_initialized s) then Err "model not initialized"
  else
    let tokens := tokenizer_Encode text in
    let '(inputIds, attentionMask) := pad_tokens tokens in
    let* embeddingSlice := of_result (session_Run inputIds attentionMask) in
    if len embeddingSlice <? config.Dimensions
    then Err "output embedding size mismatch"
    else Slice.prefix embeddingSlice config.Dimensions.

Definition ONNX_EmbedQuery (s : RealONNXEmbeddingService) (text : string)
    : outcome (list F32.t) :=
  embed s (config.QueryPrefix ++ text)%string.

Definition ONNX_EmbedDocument (s : RealONNXEmbeddingService) (text : string)
    : outcome (list F32.t) :=
  embed s (config.DocumentPrefix ++ text)%string.

(** *** embeddings.go: the service *)

Record EmbeddingService : Type := {
  modelLoaded : bool;
  realOnnxService : option RealONNXEmbeddingService;
  simpleService : option SimpleEmbeddingService;
  usePrecomputed : bool
}.

Definition generatePlaceholderEmbedding (s : EmbeddingService)
    (text : string) : outcome (list F32.t) :=
  let* embedding := Slice.make F32.zero config.Dimensions in
  let hash := text_hash text in
  let* embedding := placeholder_fill hash embedding in
  normalize embedding.

(** [if embedding, err := p(text); err == nil { return embedding, nil }]:
    an error falls through to [next], anything else ends the call. *)
Definition or_else {A : Type} (attempt : outcome A) (next : outcome A)
    : outcome A :=
  match attempt with
  | Err _ => next
  | other => other
  end.

Definition EmbedQuery (s : EmbeddingService) (text : string)
    : outcome (list F32.t) :=
  let fallback :=
    generatePlaceholderEmbedding s (config.QueryPrefix ++ text)%string in
  let simple :=
    match simpleService s with
    | Some simple => or_else (Simple_EmbedQuery simple text) fallback
    | None => fallback
    end in
  match realOnnxService s with
  | Some onnx => or_else (ONNX_EmbedQuery onnx text) simple
  | None => simple
  end.

Definition EmbedDocument (s : EmbeddingService) (text : string)
    : outcome (list F32.t) :=
  let fallback :=
    generatePlaceholderEmbedding s (config.DocumentPrefix ++ text)%string in
  let simple :=
    match simpleService s with
    | Some simple => or_else (Simple_EmbedDocument simple text) fallback
    | None => fallback
    end in
  match realOnnxService s with
  | Some onnx => or_else (ONNX_EmbedDocument onnx text) simple
  | None => simple
  end.

Definition InitializeWithPrecomputedData (s : EmbeddingService)
    (embs : gmap string (list F32.t)) (texts : gmap string string)
    : EmbeddingService :=
  match simpleService s with
  | Some simple =>
      {| modelLoaded := modelLoaded s;
         realOnnxService := realOnnxService s;
         simpleService := Some (Simple_Initialize simple embs texts);
         usePrecomputed := usePrecomputed s |}
  | None => s
  end.

End WithRuntime.

(** *** embeddings.go: storage format *)

(** [SerializeEmbedding]: each value as the four bytes of its bits, low
    byte first ([binary.Write] into a [bytes.Buffer] does not fail). *)
Definition SerializeEmbedding (embedding : list F32.t) : list Z :=
  fold_left (fun buf val => buf ++ Bits.putUint32 (Bits.Float32bits val))
            embedding [].

(** The largest [n] for which [make([]float32, n)] does not panic on
    amd64 (the allocator serves at most [2^48] bytes). *)
Definition maxFloat32s : Z := 2 ^ 46.

(** The loop of [DeserializeEmbedding]: [binary.Read] takes the next four
    bytes of the reader, or fails at its end. *)
Fixpoint readFloats (n : nat) (buf : list Z) (i : Z) (embedding : list F32.t)
    : outcome (list F32.t) :=
  match n with
  | O => Ret embedding
  | S n' =>
      match buf with
      | b0 :: b1 :: b2 :: b3 :: rest =>
          let* embedding :=
            Slice.set embedding i (Bits.Float32frombits (Bits.uint32 b0 b1 b2 b3)) in
          readFloats n' rest (i + 1) embedding
      | [] => Err "EOF"
      | _ => Err "unexpected EOF"
      end
  end.

Definition DeserializeEmbedding (data : list Z) (dimensions : Z)
    : outcome (list F32.t) :=
  if negb (len data =? GoInt.mul dimensions 4)
  then Err "invalid embedding data size"
  else if (dimensions <? 0) || (dimensions >? maxFloat32s)
  then Panic "makeslice: len out of range"
  else
    let* embedding := Slice.make F32.zero dimensions in
    readFloats (List.length embedding) data 0 embedding.

(** [LoadONNXModel]: the simulated load only sets the flag. *)
Definition LoadONNXModel (s : EmbeddingService) (modelPath : string)
    : EmbeddingService * outcome unit :=
  if modelLoaded s then (s, Ret tt)
  else
    ({| modelLoaded := true;
        realOnnxService := realOnnxService s;
        simpleService := simpleService s;
        usePrecomputed := usePrecomputed s |}, Ret tt).

(** [RealONNXEmbeddingService.Close]. *)
Definition ONNX_Close (s : RealONNXEmbeddingService)
    : RealONNXEmbeddingService * outcome unit :=
  ({| onnx_initialized := false |}, Ret tt).

End embeddings.

(* ================================================================= *)
(** ** package search *)

Module search.

Import GoInt.

(** *** Data model *)

Record Metadata : Type := {
  Reference : string;
  Book : string;
  Chapter : Z;
  VerseNum : Z;
  Events : list string;
  Entities : list string
}.

Record TextData : Type := { Text : string; Meta : Metadata }.

Record ChunkData : Type := {
  chunk_ID : string;
  chunk_Text : string;
  chunk_Meta : Metadata
}.

Record SearchResult : Type := {
  ID : string;
  Similarity : F32.t;
  Score : F32.t;
  Chunk : ChunkData
}.

Record SearchOptions : Type := {
  opt_Book : string;
  opt_Chapter : string;
  opt_Verse : string;
  opt_Granularity : string;
  opt_K : Z
}.

Definition zero_Metadata : Metadata :=
  {| Reference := ""; Book := ""; Chapter := 0; VerseNum := 0;
     Events := []; Entities := [] |}.

Definition zero_ChunkData : ChunkData :=
  {| chunk_ID := ""; chunk_Text := ""; chunk_Meta := zero_Metadata |}.

(** *** vector index *)

Record VectorIndex : Type := {
  Vectors : list (list F32.t);
  IDs : list string
}.

Definition NewVectorIndex : VectorIndex := {| Vectors := []; IDs := [] |}.

Definition Add (vi : VectorIndex) (id : string) (vector : list F32.t)
    : VectorIndex :=
  {| Vectors := Vectors vi ++ [vector]; IDs := IDs vi ++ [id] |}.

Definition Size (vi : VectorIndex) : Z := len (Vectors vi).

Definition Clear (vi : VectorIndex) : VectorIndex :=
  {| Vectors := []; IDs := [] |}.

(** [cosineSimilarity]: after the length test [b[i]] is in range for
    every index of [a], so the loop runs over the paired components. *)
Definition cosineSimilarity (a b : list F32.t) : F32.t :=
  if negb (len a =? len b) then F32.zero
  else
    let '(dotProduct, normA, normB) :=
      fold_left
        (fun (acc : F32.t * F32.t * F32.t) (ab : F32.t * F32.t) =>
           let '(dotProduct, normA, normB) := acc in
           let '(ai, bi) := ab in
           (F32.add dotProduct (F32.mul ai bi),
            F32.add normA (F32.mul ai ai),
            F32.add normB (F32.mul bi bi)))
        (combine a b) (F32.zero, F32.zero, F32.zero) in
    let magnitude :=
      F32.of_float (F64.mul (F64.sqrt (F64.of_f32 normA))
                            (F64.sqrt (F64.of_f32 normB))) in
    if F32.eqb magnitude F32.zero then F32.zero
    else F32.div dotProduct magnitude.

Definition mkResult (id : string) (similarity : F32.t) : SearchResult :=
  {| ID := id; Similarity := similarity; Score := similarity;
     Chunk := zero_ChunkData |}.

(** The comparison handed to [sort.Slice]:
    [results[i].Similarity > results[j].Similarity]. *)
Definition bySimilarity (ri rj : SearchResult) : bool :=
  F32.gtb (Similarity ri) (Similarity rj).

(** [if k > len(results) { k = len(results) }; return results[:k]]. *)
Definition topK (results : list SearchResult) (k : Z)
    : outcome (list SearchResult) :=
  let k := if k >? len results then len results else k in
  Slice.prefix results k.

(** *** quantization *)

Record QuantizedVector : Type := {
  qv_ID : string;
  Quantized : list Z;      (* int8 codes *)
  Scale : F32.t
}.

Record QuantizedIndex : Type := { qi_Vectors : list QuantizedVector }.

Definition NewQuantizedIndex : QuantizedIndex := {| qi_Vectors := [] |}.

Definition min_max (vec : list F32.t) (v0 : F32.t) : F32.t * F32.t :=
  fold_left
    (fun (mm : F32.t * F32.t) v =>
       let minVal := if F32.ltb v (fst mm) then v else fst mm in
       let maxVal := if F32.gtb v (snd mm) then v else snd mm in
       (minVal, maxVal))
    vec (v0, v0).

Definition clamp_int8 (val : Z) : Z :=
  if val <? -128 then -128 else if val >? 127 then 127 else val.

Definition quantizeVector (vec : list F32.t) : outcome (list Z * F32.t) :=
  let* v0 := Slice.get vec 0 in
  let '(minVal, maxVal) := min_max vec v0 in
  let scale := F32.div (F32.sub maxVal minVal) (F32.of_Z 255) in
  let scale := if F32.eqb scale F32.zero then F32.of_Z 1 else scale in
  let* quantized := Slice.make 0 (len vec) in
  let* quantized :=
    Slice.for_range
      (fun i v quantized =>
         let normalized := F32.div (F32.sub v minVal) scale in
         let val := clamp_int8 (GoInt.sub (float_to_int normalized) 128) in
         Slice.set quantized i (int8_of_int val))
      vec quantized in
  Ret (quantized, scale).

Definition dequantizeVector (quantized : list Z) (scale : F32.t)
    : outcome (list F32.t) :=
  let* vec := Slice.make F32.zero (len quantized) in
  Slice.for_range
    (fun i q vec =>
       Slice.set vec i (F32.mul (F32.add (F32.of_Z q) (F32.of_Z 128)) scale))
    quantized vec.

Definition Quantized_Add (qi : QuantizedIndex) (id : string)
    (vector : list F32.t) : outcome QuantizedIndex :=
  let* qs := quantizeVector vector in
  Ret {| qi_Vectors :=
           qi_Vectors qi
           ++ [{| qv_ID := id; Quantized := fst qs; Scale := snd qs |}] |}.

(** *** memory estimate *)

Definition GetMemoryUsage (vi : VectorIndex) : outcome Z :=
  let* v0 := Slice.get (Vectors vi) 0 in
  let vectorMemory := GoInt.mul (GoInt.mul (len (Vectors vi)) (len v0)) 4 in
  let idMemory :=
    fold_left (fun idMemory id => GoInt.add idMemory (strlen id)) (IDs vi) 0 in
  Ret (GoInt.add vectorMemory idMemory).

Definition Quantized_GetMemoryUsage (qi : QuantizedIndex) : Z :=
  fold_left
    (fun memory vec =>
       GoInt.add memory
         (GoInt.add (GoInt.add (len (Quantized vec)) 4) (strlen (qv_ID vec))))
    (qi_Vectors qi) 0.

Section WithRuntime.

Context {R : GoRuntime} {E : Environment}.

Definition Search (vi : VectorIndex) (query : list F32.t) (k : Z)
    : outcome (list SearchResult) :=
  if len (Vectors vi) =? 0 then Ret []
  else
    let* results :=
      Slice.for_range
        (fun i vec results =>
           let similarity := cosineSimilarity query vec in
           let* id := Slice.get (IDs vi) i in
           Ret (results ++ [mkResult id similarity]))
        (Vectors vi) [] in
    let results := sort_Slice SearchResult bySimilarity results in
    topK results k.

Definition SearchWithFilter (vi : VectorIndex) (query : list F32.t) (k : Z)
    (filter : string -> bool) : outcome (list SearchResult) :=
  if len (Vectors vi) =? 0 then Ret []
  else
    let* results :=
      Slice.for_range
        (fun i vec results =>
           let* id := Slice.get (IDs vi) i in
           if negb (filter id) then Ret results
           else
             let similarity := cosineSimilarity query vec in
             Ret (results ++ [mkResult id similarity]))
        (Vectors vi) [] in
    let results := sort_Slice SearchResult bySimilarity results in
    topK results k.

Definition Quantized_Search (qi : QuantizedIndex) (query : list F32.t)
    (k : Z) : outcome (list SearchResult) :=
  if len (qi_Vectors qi) =? 0 then Ret []
  else
    let* results :=
      Slice.for_range
        (fun _ qvec results =>
           let* vec := dequantizeVector (Quantized qvec) (Scale qvec) in
           let similarity := cosineSimilarity query vec in
           Ret (results ++ [mkResult (qv_ID qvec) similarity]))
        (qi_Vectors qi) [] in
    let results := sort_Slice SearchResult bySimilarity results in
    topK results k.


(** *** search service *)

Record Config : Type := {
  Port : string;
  ModelPath : string;
  DataDir : string;
  Debug : bool
}.

(** Effects on the world outside the process. *)
Inductive event : Type :=
  | EvMkdirAll (path : list string)
  | EvHttpGet (url : string) (compressed : bool).

Record SearchService : Type := {
  svc_embeddings : embeddings.EmbeddingService;
  svc_config : Config;
  indices : gmap string VectorIndex;
  textLookup : gmap string (gmap string TextData);
  loadedGranularities : gmap string bool;
  cache : gmap string value;
  (** Not a field of the Go struct: the effects performed so far. *)
  trace : list event
}.

Definition NewSearchService (embeddingService : embeddings.EmbeddingService)
    (cfg : Config) : SearchService :=
  {| svc_embeddings := embeddingService;
     svc_config := cfg;
     indices := ∅;
     textLookup := ∅;
     loadedGranularities := ∅;
     cache := ∅;
     trace := [] |}.

Definition with_trace (s : SearchService) (t : list event) : SearchService :=
  {| svc_embeddings := svc_embeddings s; svc_config := svc_config s;
     indices := indices s; textLookup := textLookup s;
     loadedGranularities := loadedGranularities s;
     cache := cache s; trace := t |}.

Definition with_cache (s : SearchService) (c : gmap string value)
    : SearchService :=
  {| svc_embeddings := svc_embeddings s; svc_config := svc_config s;
     indices := indices s; textLookup := textLookup s;
     loadedGranularities := loadedGranularities s;
     cache := c; trace := trace s |}.

(** The map lookup [m[key]] of a [map[string]bool]. *)
Definition isLoaded (s : SearchService) (granularity : string) : bool :=
  default false (loadedGranularities s !! granularity).

Definition loadFromURL (s : SearchService) (url : string) (compressed : bool)
    : SearchService * outcome value :=
  match cache s !! url with
  | Some cached => (s, Ret cached)
  | None =>
      let s1 := with_trace s (trace s ++ [EvHttpGet url compressed]) in
      match http_fetch (List.length (trace s)) url compressed with
      | inr e => (s1, Err e)
      | inl result => (with_cache s1 (<[url := result]> (cache s1)), Ret result)
      end
  end.

Definition loadWithFallback (s : SearchService) (primaryURL fallbackURL : string)
    : SearchService * outcome value :=
  match loadFromURL s primaryURL true with
  | (s1, Err _) => loadFromURL s1 fallbackURL false
  | other => other
  end.

Definition getStringField (m : gmap string value) (key : string) : string :=
  match m !! key with
  | Some (VString val) => val
  | _ => ""
  end.

Definition getIntField (m : gmap string value) (key : string) : Z :=
  match m !! key with
  | Some (VFloat64 val) => float_to_int val
  | Some (VInt val) => val
  | Some (VString val) => fmt_Sscan_int val
  | _ => 0
  end.

Definition interfaceSliceToStringSlice (slice : list value) : list string :=
  omap (fun item => match item with VString str => Some str | _ => None end)
       slice.

Definition possibleIDs (granularity : string) (i : Z) (meta : Metadata)
    : list string :=
  let ref := Reference meta in
  let book := Book meta in
  let chapter := itoa (Chapter meta) in
  let verseNum := itoa (VerseNum meta) in
  [ ref;
    "verse:" +:+ book +:+ ":" +:+ chapter +:+ ":" +:+ verseNum;
    "chapter:" +:+ book +:+ ":" +:+ chapter;
    granularity +:+ "_" +:+ itoa i;
    book +:+ "." +:+ chapter +:+ "." +:+ verseNum;
    book +:+ "_" +:+ chapter +:+ "_" +:+ verseNum;
    itoa i;
    "v" +:+ itoa i ].

Definition textDataOf (verse : gmap string value) : TextData :=
  {| Text := getStringField verse "text";
     Meta :=
       {| Reference := getStringField verse "ref";
          Book := getStringField verse "book";
          Chapter := getIntField verse "chapter";
          VerseNum := getIntField verse "verseNum";
          Events :=
            match verse !! "events" with
            | Some (VSlice events) => interfaceSliceToStringSlice events
            | _ => []
            end;
          Entities :=
            match verse !! "entities" with
            | Some (VSlice entities) => interfaceSliceToStringSlice entities
            | _ => []
            end |} |}.

Fixpoint processVerses (granularity : string) (i : Z) (verses : list value)
    (lookup : gmap string TextData) : gmap string TextData :=
  match verses with
  | [] => lookup
  | item :: rest =>
      match item with
      | VMap verse =>
          let textData := textDataOf verse in
          let lookup' :=
            fold_left
              (fun lookup id =>
                 if negb (String.eqb id "") then <[id := textData]> lookup
                 else lookup)
              (possibleIDs granularity i (Meta textData)) lookup in
          processVerses granularity (i + 1) rest lookup'
      | _ => processVerses granularity (i + 1) rest lookup
      end
  end.

Definition processTextData (data : value) (granularity : string)
    : gmap string TextData :=
  match data with
  | VSlice verses => processVerses granularity 0 verses ∅
  | _ => ∅
  end.

(** [vec[i] = float32(f)] where the element is a number; other
    elements leave the zero of [make]. *)
Definition parseVector (vecData : list value) : list F32.t :=
  List.map
    (fun v => match v with VFloat64 f => F32.of_float f | _ => F32.zero end)
    vecData.

(** The loop over ["embeddings"]; [embedding["id"].(string)] is the
    single-value form of the type assertion and panics on anything
    but a string. *)
Fixpoint parseEmbeddings (items : list value) (index : VectorIndex)
    (embs : gmap string (list F32.t))
    : outcome (VectorIndex * gmap string (list F32.t)) :=
  match items with
  | [] => Ret (index, embs)
  | item :: rest =>
      match item with
      | VMap embedding =>
          match embedding !! "id" with
          | Some (VString id) =>
              match embedding !! "embedding" with
              | Some (VSlice vecData) =>
                  let vec := parseVector vecData in
                  parseEmbeddings rest (Add index id vec) (<[id := vec]> embs)
              | _ => parseEmbeddings rest index embs
              end
          | _ => Panic "interface conversion: interface {} is not string"
          end
      | _ => parseEmbeddings rest index embs
      end
  end.

Definition buildIndex (embeddingData : value)
    : outcome (VectorIndex * gmap string (list F32.t)) :=
  match embeddingData with
  | VMap m =>
      match m !! "embeddings" with
      | Some (VSlice embeddingsList) =>
          parseEmbeddings embeddingsList NewVectorIndex ∅
      | _ => Ret (NewVectorIndex, ∅)
      end
  | _ => Ret (NewVectorIndex, ∅)
  end.

Definition urlsFor (granularity : string) : option (string * string * string) :=
  if String.eqb granularity "verse" then
    Some (config.Verses, config.VersesUncompressed, config.VerseText)
  else if String.eqb granularity "chapter" then
    Some (config.Chapters, config.ChaptersUncompressed, config.ChapterText)
  else None.

(** The assignments at the end of a successful load. *)
Definition install (s : SearchService) (granularity : string)
    (index : VectorIndex) (embs : gmap string (list F32.t))
    (lookup : gmap string TextData) : SearchService :=
  let texts := Text <$> lookup in
  {| svc_embeddings :=
       if String.eqb granularity "verse"
       then embeddings.InitializeWithPrecomputedData (svc_embeddings s) embs texts
       else svc_embeddings s;
     svc_config := svc_config s;
     indices := <[granularity := index]> (indices s);
     textLookup := <[granularity := lookup]> (textLookup s);
     loadedGranularities := <[granularity := true]> (loadedGranularities s);
     cache := cache s;
     trace := trace s |}.

Definition PreloadGranularity (s : SearchService) (granularity : string)
    : SearchService * outcome unit :=
  if isLoaded s granularity then (s, Ret tt)
  else
    match urlsFor granularity with
    | None => (s, Err ("unknown granularity: " +:+ granularity))
    | Some (embeddingURL, fallbackURL, textURL) =>
        let s0 :=
          with_trace s
            (trace s ++ [EvMkdirAll [DataDir (svc_config s); "cache"; granularity]]) in
        match loadWithFallback s0 embeddingURL fallbackURL with
        | (s1, Err e) => (s1, Err ("failed to load embeddings: " +:+ e))
        | (s1, Panic p) => (s1, Panic p)
        | (s1, Ret embeddingData) =>
            match loadFromURL s1 textURL false with
            | (s2, Err e) => (s2, Err ("failed to load text data: " +:+ e))
            | (s2, Panic p) => (s2, Panic p)
            | (s2, Ret textData) =>
                match buildIndex embeddingData with
                | Ret (index, embs) =>
                    (install s2 granularity index embs
                       (processTextData textData granularity),
                     Ret tt)
                | Err e => (s2, Err e)
                | Panic p => (s2, Panic p)
                end
            end
        end
    end.

(** The predicate built from [options.Book] and [options.Chapter]. *)
Definition filterFunc (options : SearchOptions)
    (lookup : gmap string TextData) : string -> bool :=
  if negb (String.eqb (opt_Book options) "")
     || negb (String.eqb (opt_Chapter options) "")
  then
    fun id =>
      match lookup !! id with
      | Some text =>
          if negb (String.eqb (opt_Book options) "")
             && negb (strings_EqualFold (Book (Meta text)) (opt_Book options))
          then false
          else if negb (String.eqb (opt_Chapter options) "")
                  && negb (String.eqb (itoa (Chapter (Meta text)))
                                      (opt_Chapter options))
          then false
          else true
      | None => false
      end
  else fun _ => true.

Definition withDefaults (options : SearchOptions) : SearchOptions :=
  {| opt_Book := opt_Book options;
     opt_Chapter := opt_Chapter options;
     opt_Verse := opt_Verse options;
     opt_Granularity :=
       if String.eqb (opt_Granularity options) "" then "verse"
       else opt_Granularity options;
     opt_K := if opt_K options =? 0 then 10 else opt_K options |}.

(** The join of one index hit with its text. *)
Definition joinText (lookup : gmap string TextData) (sr : SearchResult)
    : SearchResult :=
  let textData :=
    match lookup !! ID sr with
    | Some textData => textData
    | None =>
        {| Text := "[Text not found for ID: " +:+ ID sr +:+ "]";
           Meta := zero_Metadata |}
    end in
  {| ID := ID sr;
     Similarity := Similarity sr;
     Score := Score sr;
     Chunk := {| chunk_ID := ID sr;
                 chunk_Text := Text textData;
                 chunk_Meta := Meta textData |} |}.

Definition Service_Search (s : SearchService) (query : string)
    (options : SearchOptions) : outcome (list SearchResult) :=
  if String.eqb query "" then Ret []
  else
    let options := withDefaults options in
    if negb (isLoaded s (opt_Granularity options)) then
      Err ("granularity " +:+ opt_Granularity options +:+ " not loaded")
    else
      match indices s !! opt_Granularity options with
      | None => Panic "invalid memory address or nil pointer dereference"
      | Some index =>
          let lookup := default ∅ (textLookup s !! opt_Granularity options) in
          match embeddings.EmbedQuery (svc_embeddings s) query with
          | Err e => Err ("failed to generate query embedding: " +:+ e)
          | Panic p => Panic p
          | Ret queryEmbedding =>
              let* searchResults :=
                SearchWithFilter index queryEmbedding (opt_K options)
                  (filterFunc options lookup) in
              Ret (List.map (joinText lookup) searchResults)
          end
      end.

Record IndexStatus : Type := {
  st_loaded : bool;
  st_count : Z;
  st_memoryBytes : Z
}.

Record Status : Type := {
  st_initialized : bool;
  st_indices : gmap string IndexStatus
}.

Fixpoint statusEntries (s : SearchService) (entries : list (string * VectorIndex))
    (acc : gmap string IndexStatus) : outcome (gmap string IndexStatus) :=
  match entries with
  | [] => Ret acc
  | (granularity, index) :: rest =>
      let* memoryBytes := GetMemoryUsage index in
      statusEntries s rest
        (<[granularity := {| st_loaded := isLoaded s granularity;
                             st_count := Size index;
                             st_memoryBytes := memoryBytes |}]> acc)
  end.

Definition GetStatus (s : SearchService) : outcome Status :=
  let* m := statusEntries s (map_range VectorIndex (indices s)) ∅ in
  Ret {| st_initialized := true; st_indices := m |}.

End WithRuntime.

End search.

(* ================================================================= *)
(** ** package api *)

Module api.

Import search.

Record SearchRequest : Type := {
  req_Query : string;
  req_Options : SearchOptions;
  req_Granularity : string;
  req_K : Z;
  req_Book : string;
  req_Chapter : string;
  req_Verse : string
}.

Fixpoint coalesce (values : list string) : string :=
  match values with
  | [] => ""
  | v :: rest => if negb (String.eqb v "") then v else coalesce rest
  end.

Definition maxInt (values : list Z) : Z :=
  fold_left (fun max v => if v >? max then v else max) values 0.

(** [strings.SplitN(part, ":", 2)] on a part that holds a colon: the
    text before the first colon and the text after it. *)
Fixpoint cutColon (part : string) : option (string * string) :=
  match part with
  | EmptyString => None
  | String c rest =>
      if Ascii.eqb c ":"%char then Some (EmptyString, rest)
      else
        match cutColon rest with
        | Some (k, v) => Some (String c k, v)
        | None => None
        end
  end.

(** [strings.Join(parts, sep)]. *)
Fixpoint strings_Join (parts : list string) (sep : string) : string :=
  match parts with
  | [] => ""
  | [p] => p
  | p :: rest => p +:+ sep +:+ strings_Join rest sep
  end.

Definition noFilters : SearchOptions :=
  {| opt_Book := ""; opt_Chapter := ""; opt_Verse := "";
     opt_Granularity := ""; opt_K := 0 |}.

Section WithRuntime.

Context {R : GoRuntime} {E : Environment}.

Definition parsePart (acc : list string * SearchOptions) (part : string)
    : list string * SearchOptions :=
  let '(semanticParts, filters) := acc in
  if strings_Contains part ":" then
    match cutColon part with
    | Some (k, value) =>
        let key := strings_ToLower k in
        if String.eqb key "book" then
          (semanticParts,
           {| opt_Book := value; opt_Chapter := opt_Chapter filters;
              opt_Verse := opt_Verse filters;
              opt_Granularity := opt_Granularity filters;
              opt_K := opt_K filters |})
        else if String.eqb key "chapter" then
          (semanticParts,
           {| opt_Book := opt_Book filters; opt_Chapter := value;
              opt_Verse := opt_Verse filters;
              opt_Granularity := opt_Granularity filters;
              opt_K := opt_K filters |})
        else if String.eqb key "verse" then
          (semanticParts,
           {| opt_Book := opt_Book filters; opt_Chapter := opt_Chapter filters;
              opt_Verse := value;
              opt_Granularity := opt_Granularity filters;
              opt_K := opt_K filters |})
        else (semanticParts ++ [part], filters)
    | None => (semanticParts ++ [part], filters)
    end
  else (semanticParts ++ [part], filters).

Definition parseQuery (query : string) : string * SearchOptions :=
  let parts := strings_Fields query in
  let '(semanticParts, filters) := fold_left parsePart parts ([], noFilters) in
  (strings_Join semanticParts " ", filters).

(** The [search.SearchOptions] literal of [Handler.Search]. *)
Definition mergeOptions (req : SearchRequest) (filters : SearchOptions)
    : SearchOptions :=
  {| opt_Book :=
       coalesce [req_Book req; opt_Book filters; opt_Book (req_Options req)];
     opt_Chapter :=
       coalesce [req_Chapter req; opt_Chapter filters;
                 opt_Chapter (req_Options req)];
     opt_Verse :=
       coalesce [req_Verse req; opt_Verse filters; opt_Verse (req_Options req)];
     opt_Granularity :=
       coalesce [req_Granularity req; opt_Granularity (req_Options req); "verse"];
     opt_K := maxInt [req_K req; opt_K (req_Options req); 10] |}.

(** [Handler.Search] from the bound request to the results of the
    service call; the JSON rendering of either outcome is left out. *)
Definition Handler_Search (h : SearchService) (req : SearchRequest)
    : outcome (list SearchResult) :=
  let '(query, filters) := parseQuery (req_Query req) in
  Service_Search h query (mergeOptions req filters).

End WithRuntime.

End api.

(* ================================================================= *)
(** ** Go's [sort.Slice] *)

(** The algorithm behind [sort.Slice] since Go 1.19 (the project asks for
    Go 1.22): pattern-defeating quicksort over [Less(i, j)] and
    [Swap(i, j)], with insertion sort for ranges of at most 12 elements
    and heap sort once [limit] bad pivots were met.  The slice is a list
    and indices are [Z].  Every function answers in [option]: [None]
    stands for an access outside the slice (a panic in Go) or for a loop
    that was cut by its fuel, so that [Some] is the slice of a run that
    went to its end. *)
Module GoSort.

Section WithLess.

Context {A : Type} (less : A -> A -> bool).

Definition at_ (data : list A) (i : Z) : option A :=
  if i <? 0 then None else data !! Z.to_nat i.

Definition Less (data : list A) (i j : Z) : option bool :=
  x ← at_ data i; y ← at_ data j; Some (less x y).

Definition Swap (data : list A) (i j : Z) : option (list A) :=
  x ← at_ data i; y ← at_ data j;
  Some (<[Z.to_nat i := y]> (<[Z.to_nat j := x]> data)).

(** [for j := i; j > a && Less(j, j-1); j-- { Swap(j, j-1) }] *)
Fixpoint insertDown (fuel : nat) (data : list A) (a j : Z) : option (list A) :=
  match fuel with
  | O => None
  | S fuel' =>
      if j >? a then
        c ← Less data j (j - 1);
        if c : bool then
          data ← Swap data j (j - 1); insertDown fuel' data a (j - 1)
        else Some data
      else Some data
  end.

(** [for i := a + 1; i < b; i++ { ... }], [n] iterations to go. *)
Fixpoint insertionLoop (n : nat) (data : list A) (a i : Z) : option (list A) :=
  match n with
  | O => Some data
  | S n' =>
      data ← insertDown (S (Z.to_nat (i - a))) data a i;
      insertionLoop n' data a (i + 1)
  end.

Definition insertionSort (data : list A) (a b : Z) : option (list A) :=
  insertionLoop (Z.to_nat (b - (a + 1))) data a (a + 1).

Fixpoint siftDown (fuel : nat) (data : list A) (root hi first : Z)
    : option (list A) :=
  match fuel with
  | O => None
  | S fuel' =>
      let child := 2 * root + 1 in
      if child >=? hi then Some data
      else
        c ← (if child + 1 <? hi
             then Less data (first + child) (first + child + 1)
             else Some false);
        let child := if c : bool then child + 1 else child in
        c ← Less data (first + root) (first + child);
        if negb c then Some data
        else
          data ← Swap data (first + root) (first + child);
          siftDown fuel' data child hi first
  end.

(** [for i := (hi - 1) / 2; i >= 0; i-- { siftDown(data, i, hi, first) }] *)
Fixpoint heapBuild (n : nat) (data : list A) (hi first : Z) : option (list A) :=
  match n with
  | O => Some data
  | S i =>
      data ← siftDown (S (Z.to_nat hi)) data (Z.of_nat i) hi first;
      heapBuild i data hi first
  end.

(** [for i := hi - 1; i >= 0; i-- { Swap(first, first+i); siftDown(data, lo, i, first) }] *)
Fixpoint heapPop (n : nat) (data : list A) (first : Z) : option (list A) :=
  match n with
  | O => Some data
  | S i =>
      data ← Swap data first (first + Z.of_nat i);
      data ← siftDown (S (S i)) data 0 (Z.of_nat i) first;
      heapPop i data first
  end.

Definition heapSort (data : list A) (a b : Z) : option (list A) :=
  let first := a in
  let hi := b - a in
  data ← heapBuild (Z.to_nat (Z.quot (hi - 1) 2 + 1)) data hi first;
  heapPop (Z.to_nat hi) data first.

Inductive sortedHint : Type := unknownHint | increasingHint | decreasingHint.

(** [order2]: the pair in order, and the swap counter. *)
Definition order2 (data : list A) (a b : Z) (swaps : Z) : option (Z * Z * Z) :=
  c ← Less data b a;
  Some (if c : bool then (b, a, swaps + 1) else (a, b, swaps)).

Definition median (data : list A) (a b c : Z) (swaps : Z) : option (Z * Z) :=
  '(a, b, swaps) ← order2 data a b swaps;
  '(b, c, swaps) ← order2 data b c swaps;
  '(a, b, swaps) ← order2 data a b swaps;
  Some (b, swaps).

Definition medianAdjacent (data : list A) (a : Z) (swaps : Z) : option (Z * Z) :=
  median data (a - 1) a (a + 1) swaps.

Definition choosePivot (data : list A) (a b : Z) : option (Z * sortedHint) :=
  let l := b - a in
  let i := a + Z.quot l 4 * 1 in
  let j := a + Z.quot l 4 * 2 in
  let k := a + Z.quot l 4 * 3 in
  '(j, swaps) ←
    (if l >=? 8 then
       '(i, j, k, swaps) ←
         (if l >=? 50 then
            '(i, swaps) ← medianAdjacent data i 0;
            '(j, swaps) ← medianAdjacent data j swaps;
            '(k, swaps) ← medianAdjacent data k swaps;
            Some (i, j, k, swaps)
          else Some (i, j, k, 0));
       median data i j k swaps
     else Some (j, 0));
  Some (if swaps =? 0 then (j, increasingHint)
        else if swaps =? 12 then (j, decreasingHint)
        else (j, unknownHint)).

Fixpoint reverseLoop (fuel : nat) (data : list A) (i j : Z) : option (list A) :=
  match fuel with
  | O => None
  | S fuel' =>
      if i <? j then
        data ← Swap data i j; reverseLoop fuel' data (i + 1) (j - 1)
      else Some data
  end.

Definition reverseRange (data : list A) (a b : Z) : option (list A) :=
  reverseLoop (S (Z.to_nat (b - a))) data a (b - 1).

(** [for i < b && !Less(i, i-1) { i++ }] *)
Fixpoint skipOrdered (fuel : nat) (data : list A) (i b : Z) : option Z :=
  match fuel with
  | O => None
  | S fuel' =>
      if i <? b then
        c ← Less data i (i - 1);
        if negb c then skipOrdered fuel' data (i + 1) b else Some i
      else Some i
  end.

(** [for j := i - 1; j >= 1; j-- { if !Less(j, j-1) { break }; Swap(j, j-1) }] *)
Fixpoint shiftLeft (fuel : nat) (data : list A) (j : Z) : option (list A) :=
  match fuel with
  | O => None
  | S fuel' =>
      if j >=? 1 then
        c ← Less data j (j - 1);
        if negb c then Some data
        else data ← Swap data j (j - 1); shiftLeft fuel' data (j - 1)
      else Some data
  end.

(** [for j := i + 1; j < b; j++ { if !Less(j, j-1) { break }; Swap(j, j-1) }] *)
Fixpoint shiftRight (fuel : nat) (data : list A) (j b : Z) : option (list A) :=
  match fuel with
  | O => None
  | S fuel' =>
      if j <? b then
        c ← Less data j (j - 1);
        if negb c then Some data
        else data ← Swap data j (j - 1); shiftRight fuel' data (j + 1) b
      else Some data
  end.

(** The [maxSteps = 5] rounds of [partialInsertionSort]. *)
Fixpoint partialSteps (steps : nat) (data : list A) (a b i : Z)
    : option (list A * bool) :=
  match steps with
  | O => Some (data, false)
  | S steps' =>
      i ← skipOrdered (S (Z.to_nat (b - a))) data i b;
      if i =? b then Some (data, true)
      else if b - a <? 50 then Some (data, false)
      else
        data ← Swap data i (i - 1);
        data ← (if i - a >=? 2 then shiftLeft (S (Z.to_nat i)) data (i - 1)
                else Some data);
        data ← (if b - i >=? 2 then shiftRight (S (Z.to_nat (b - i))) data (i + 1) b
                else Some data);
        partialSteps steps' data a b i
  end.

Definition partialInsertionSort (data : list A) (a b : Z)
    : option (list A * bool) :=
  partialSteps 5 data a b (a + 1).

(** The comparison of position [i] with the pivot at [a]: [Less(i, a)],
    or [Less(a, i)] when [pivotFirst], negated when [neg]. *)
Definition againstPivot (data : list A) (a i : Z) (neg pivotFirst : bool)
    : option bool :=
  c ← (if pivotFirst then Less data a i else Less data i a);
  Some (xorb neg c).

(** [for i <= j && cond(i) { i++ }] *)
Fixpoint scanUp (fuel : nat) (data : list A) (a i j : Z) (neg pivotFirst : bool)
    : option Z :=
  match fuel with
  | O => None
  | S fuel' =>
      if i <=? j then
        c ← againstPivot data a i neg pivotFirst;
        if c : bool then scanUp fuel' data a (i + 1) j neg pivotFirst else Some i
      else Some i
  end.

(** [for i <= j && cond(j) { j-- }] *)
Fixpoint scanDown (fuel : nat) (data : list A) (a i j : Z) (neg pivotFirst : bool)
    : option Z :=
  match fuel with
  | O => None
  | S fuel' =>
      if i <=? j then
        c ← againstPivot data a j neg pivotFirst;
        if c : bool then scanDown fuel' data a i (j - 1) neg pivotFirst else Some j
      else Some j
  end.

(** The loop of [partitionEqual]: [!Less(a, i)] upwards, [Less(a, j)]
    downwards. *)
Fixpoint partitionEqualLoop (fuel : nat) (data : list A) (a i j : Z)
    : option (list A * Z) :=
  match fuel with
  | O => None
  | S fuel' =>
      let n := S (Z.to_nat (j - i + 1)) in
      i ← scanUp n data a i j true true;
      j ← scanDown n data a i j false true;
      if i >? j then Some (data, i)
      else
        data ← Swap data i j;
        partitionEqualLoop fuel' data a (i + 1) (j - 1)
  end.

Definition partitionEqual (data : list A) (a b pivot : Z) : option (list A * Z) :=
  data ← Swap data a pivot;
  partitionEqualLoop (S (Z.to_nat (b - a))) data a (a + 1) (b - 1).

(** The second loop of [partition]: [Less(i, a)] upwards, [!Less(j, a)]
    downwards. *)
Fixpoint partitionLoop (fuel : nat) (data : list A) (a i j : Z)
    : option (list A * Z) :=
  match fuel with
  | O => None
  | S fuel' =>
      let n := S (Z.to_nat (j - i + 1)) in
      i ← scanUp n data a i j false false;
      j ← scanDown n data a i j true false;
      if i >? j then Some (data, j)
      else
        data ← Swap data i j;
        partitionLoop fuel' data a (i + 1) (j - 1)
  end.

Definition partition (data : list A) (a b pivot : Z)
    : option (list A * Z * bool) :=
  data ← Swap data a pivot;
  let n := S (Z.to_nat (b - a)) in
  i ← scanUp n data a (a + 1) (b - 1) false false;
  j ← scanDown n data a i (b - 1) true false;
  if i >? j then
    data ← Swap data j a; Some (data, j, true)
  else
    data ← Swap data i j;
    '(data, j) ← partitionLoop n data a (i + 1) (j - 1);
    data ← Swap data j a;
    Some (data, j, false).

(** [bits.Len(uint(n))]. *)
Definition bitsLen (n : Z) : Z := if n <=? 0 then 0 else Z.log2 n + 1.

(** [xorshift.Next] on a [uint64]. *)
Definition xorshiftNext (r : Z) : Z :=
  let r := Z.lxor r (Z.shiftl r 13 mod 2 ^ 64) in
  let r := Z.lxor r (Z.shiftr r 7) in
  let r := Z.lxor r (Z.shiftl r 17 mod 2 ^ 64) in
  r.

(** [for i := 0; i < 3; i++ { ... }] of [breakPatterns]. *)
Fixpoint breakLoop (n : nat) (data : list A) (a length idx modulus random i : Z)
    : option (list A) :=
  match n with
  | O => Some data
  | S n' =>
      let random := xorshiftNext random in
      let other := Z.land random (modulus - 1) in
      let other := if other >=? length then other - length else other in
      data ← Swap data (idx - 1 + i) (a + other);
      breakLoop n' data a length idx modulus random (i + 1)
  end.

Definition breakPatterns (data : list A) (a b : Z) : option (list A) :=
  let length := b - a in
  if length >=? 8 then
    let modulus := Z.shiftl 1 (bitsLen length) in
    let idx := a + Z.quot length 4 * 2 - 1 in
    breakLoop 3 data a length idx modulus length 0
  else Some data.

Fixpoint pdqsort (fuel : nat) (data : list A) (a b limit : Z)
    (wasBalanced wasPartitioned : bool) : option (list A) :=
  match fuel with
  | O => None
  | S fuel' =>
      let length := b - a in
      if length <=? 12 then insertionSort data a b
      else if limit =? 0 then heapSort data a b
      else
        '(data, limit) ←
          (if negb wasBalanced
           then data ← breakPatterns data a b; Some (data, limit - 1)
           else Some (data, limit));
        '(pivot, hint) ← choosePivot data a b;
        '(data, pivot, hint) ←
          match hint with
          | decreasingHint =>
              data ← reverseRange data a b;
              Some (data, (b - 1) - (pivot - a), increasingHint)
          | _ => Some (data, pivot, hint)
          end;
        '(data, done) ←
          match hint with
          | increasingHint =>
              if wasBalanced && wasPartitioned
              then partialInsertionSort data a b else Some (data, false)
          | _ => Some (data, false)
          end;
        if done : bool then Some data
        else
          equalRun ← (if a >? 0
                      then c ← Less data (a - 1) pivot; Some (negb c)
                      else Some false);
          if equalRun : bool then
            '(data, mid) ← partitionEqual data a b pivot;
            pdqsort fuel' data mid b limit wasBalanced wasPartitioned
          else
            '(data, mid, alreadyPartitioned) ← partition data a b pivot;
            let leftLen := mid - a in
            let rightLen := b - mid in
            let balanceThreshold := Z.quot length 8 in
            if leftLen <? rightLen then
              data ← pdqsort fuel' data a mid limit true true;
              pdqsort fuel' data (mid + 1) b limit
                      (leftLen >=? balanceThreshold) alreadyPartitioned
            else
              data ← pdqsort fuel' data (mid + 1) b limit true true;
              pdqsort fuel' data a mid limit
                      (rightLen >=? balanceThreshold) alreadyPartitioned
  end.

(** [sort.Slice(x, less)]. *)
Definition Slice (data : list A) : option (list A) :=
  let length := Z.of_nat (List.length data) in
  pdqsort (S (List.length data)) data 0 length (bitsLen length) true true.

End WithLess.

End GoSort.


(* ================================================================= *)
(** ** Instances used to run the model *)

(** A sorting routine that meets [SortContract]: insertion sort. *)
Module InsertionSort.

Section WithLess.

Context {A : Type} (less : A -> A -> bool).

Fixpoint insert (x : A) (l : list A) : list A :=
  match l with
  | [] => [x]
  | y :: l' => if less y x then y :: insert x l' else x :: y :: l'
  end.

Definition sort (l : list A) : list A := fold_right insert [] l.

End WithLess.

End InsertionSort.

Module Ascii7.

Definition lower (c : ascii) : ascii :=
  let n := N_of_ascii c in
  if ((65 <=? n) && (n <=? 90))%N then ascii_of_N (n + 32) else c.

Fixpoint ToLower (s : string) : string :=
  match s with
  | EmptyString => EmptyString
  | String c s' => String (lower c) (ToLower s')
  end.

Definition EqualFold (s t : string) : bool := String.eqb (ToLower s) (ToLower t).

Definition is_space (c : ascii) : bool :=
  let n := N_of_ascii c in
  ((n =? 32) || ((9 <=? n) && (n <=? 13)))%N.

(** Splitting around runs of white space; [cur] is the word being
    read, in reverse. *)
Fixpoint fields_aux (s : string) (cur : list ascii) : list string :=
  let flush (rest : list string) :=
    match cur with
    | [] => rest
    | _ => string_of_list_ascii (rev cur) :: rest
    end in
  match s with
  | EmptyString => flush []
  | String c s' =>
      if is_space c then flush (fields_aux s' [])
      else fields_aux s' (c :: cur)
  end.

Definition Fields (s : string) : list string := fields_aux s [].

End Ascii7.

(** Stand-ins for the library on 7-bit text, with [sort.Slice] read as
    insertion sort.  No run below reaches [math.Log] (the text matching of
    the primed average provider) or [Sscanf] (a number given as a string
    in the text payload); they answer zero. *)
Definition testRuntime : GoRuntime :=
  {| sort_Slice := fun A less l => InsertionSort.sort less l;
     strings_EqualFold := Ascii7.EqualFold;
     strings_ToLower := Ascii7.ToLower;
     strings_Fields := Ascii7.Fields;
     math_Log := fun _ => F64.zero;
     fmt_Sscan_int := fun _ => 0;
     map_range := fun V m => map_to_list m |}.

(** The same with the library's own sorting algorithm; a run that does
    not come to its end would leave the slice as it was, and the examples
    state that theirs does. *)
Definition goRuntime : GoRuntime :=
  {| sort_Slice := fun A less l => default l (GoSort.Slice less l);
     strings_EqualFold := Ascii7.EqualFold;
     strings_ToLower := Ascii7.ToLower;
     strings_Fields := Ascii7.Fields;
     math_Log := fun _ => F64.zero;
     fmt_Sscan_int := fun _ => 0;
     map_range := fun V m => map_to_list m |}.

(** A third reading of [sort.Slice]: insertion sort of the reversed
    slice.  It meets [SortContract] as well and puts entries that compare
    equal in the reverse of their order. *)
Definition reversingRuntime : GoRuntime :=
  {| sort_Slice := fun A less l => InsertionSort.sort less (rev l);
     strings_EqualFold := Ascii7.EqualFold;
     strings_ToLower := Ascii7.ToLower;
     strings_Fields := Ascii7.Fields;
     math_Log := fun _ => F64.zero;
     fmt_Sscan_int := fun _ => 0;
     map_range := fun V m => map_to_list m |}.

(** What a [range] over a map promises: every entry once, in some
    order. *)
Class RangeContract (R : GoRuntime) : Prop := {
  map_range_perm :
    forall (V : Type) (m : gmap string V), Permutation (map_range V m) (map_to_list m)
}.

Module Fixtures.

Import search.

Definition f (n : Z) : F32.t := F32.of_Z n.

(** Two verses and their embeddings, as the two payloads of the verse
    granularity. *)
Definition verseJSON (ref book : string) (chapter verse : Z) (text : string)
    : value :=
  VMap (list_to_map
          [("ref", VString ref); ("book", VString book);
           ("chapter", VFloat64 (F64.of_Z chapter));
           ("verseNum", VFloat64 (F64.of_Z verse));
           ("text", VString text)]).

Definition textPayload : value :=
  VSlice [verseJSON "John 3:16" "John" 3 16 "For God so loved the world";
          verseJSON "Matthew 5:3" "Matthew" 5 3 "Blessed are the poor in spirit"].

Definition embeddingJSON (id : string) (vec : list Z) : value :=
  VMap (list_to_map
          [("id", VString id);
           ("embedding", VSlice (List.map (fun n => VFloat64 (F64.of_Z n)) vec))]).

Definition embeddingPayload : value :=
  VMap (list_to_map
          [("embeddings",
            VSlice [embeddingJSON "John 3:16" [1; 0; 2];
                    embeddingJSON "Matthew 5:3" [0; 1; 3]])]).

(** A payload without the ["embeddings"] list. *)
Definition emptyPayload : value := VMap ∅.

Definition netOf (embs texts : value) : Environment :=
  {| tokenizer_Encode := fun _ => [];
     session_Run := fun _ _ => inr "no model";
     http_fetch := fun _ url _ =>
       if String.eqb url config.VerseText then inl texts
       else if String.eqb url config.Verses then inl embs
       else if String.eqb url config.Chapters then inl embs
       else inr "HTTP 404" |}.

Definition net : Environment := netOf embeddingPayload textPayload.
Definition emptyNet : Environment := netOf emptyPayload textPayload.

Definition service0 : SearchService :=
  NewSearchService
    {| embeddings.modelLoaded := false;
       embeddings.realOnnxService := Some embeddings.NewRealONNXEmbeddingService;
       embeddings.simpleService := Some embeddings.NewSimpleEmbeddingService;
       embeddings.usePrecomputed := false |}
    {| Port := "8080"; ModelPath := ""; DataDir := "./data"; Debug := false |}.

Definition bookOptions (book : string) : SearchOptions :=
  {| opt_Book := book; opt_Chapter := ""; opt_Verse := "";
     opt_Granularity := "chapter"; opt_K := 0 |}.

(** Thirteen entries; only the one at position 6 points along the
    query. *)
Definition ids13 : list string :=
  ["e00"; "e01"; "e02"; "e03"; "e04"; "e05"; "e06"; "e07"; "e08"; "e09";
   "e10"; "e11"; "e12"].

Definition index13 : VectorIndex :=
  fold_left
    (fun vi id => Add vi id (if String.eqb id "e06" then [f 1; f 0] else [f 0; f 1]))
    ids13 NewVectorIndex.

Definition query13 : list F32.t := [f 1; f 0].

(** Three entries, the middle one large enough for the dot product
    with the query to overflow. *)
Definition indexOverflow : VectorIndex :=
  Add (Add (Add NewVectorIndex "a" [f 0; f 1])
           "b" [F32.of_dyadic 1 127; f 0])
      "c" [f 1; f 0].

Definition queryOverflow : list F32.t := [f 2; f 0].

(** The scenario of the design document: three entries in two
    dimensions. *)
Definition indexABC : VectorIndex :=
  Add (Add (Add NewVectorIndex "A" [f 1; f 0])
           "B" [f 0; f 1])
      "C" [F32.div (f 9) (f 10); F32.div (f 1) (f 10)].

Definition queryABC : list F32.t := [f 1; f 0].

(** The first load of the verse granularity from the two-verse corpus,
    and the one from a corpus without embeddings. *)
Definition firstLoad : SearchService * outcome unit :=
  PreloadGranularity (R := testRuntime) (E := net) service0 "verse".

Definition emptyLoad : SearchService * outcome unit :=
  PreloadGranularity (R := testRuntime) (E := emptyNet) service0 "verse".

(** The load of the chapter granularity: the average provider is not
    primed by it, so that a query is embedded by the placeholder. *)
Definition chapterLoad : SearchService * outcome unit :=
  PreloadGranularity (R := testRuntime) (E := net) service0 "chapter".

End Fixtures.

(* ================================================================= *)
(** ** Further examples *)

Module Examples.

Import search.

(** A stored vector with a value of every class: 1, 0.1, -2, NaN, minus
    infinity, minus zero and the least subnormal. *)
Definition stored : list F32.t :=
  [F32.of_Z 1; F32.div (F32.of_Z 1) (F32.of_Z 10); F32.of_Z (-2); S754_nan;
   S754_infinity true; S754_zero true; F32.of_dyadic 1 (-149)].

(** One fetch of the verse embeddings, and a load from two addresses
    that the network does not serve. *)
Definition firstFetch : SearchService * outcome value :=
  loadFromURL (E := Fixtures.net) Fixtures.service0 config.Verses true.

Definition failedFetch : SearchService * outcome value :=
  loadWithFallback (E := Fixtures.net) Fixtures.service0
    "https://example.org/a.json.gz" "https://example.org/a.json".

(** A network that answers no request, and the load attempted on it. *)
Definition offline : Environment :=
  {| tokenizer_Encode := fun _ => [];
     session_Run := fun _ _ => inr "no model";
     http_fetch := fun _ _ _ => inr "failed to fetch" |}.

Definition offlineLoad : SearchService * outcome unit :=
  PreloadGranularity (R := testRuntime) (E := offline) Fixtures.service0 "verse".

(** A request for three chapters of John about love. *)
Definition loveRequest : api.SearchRequest :=
  {| api.req_Query := "love book:john";
     api.req_Options := api.noFilters;
     api.req_Granularity := "chapter";
     api.req_K := 3;
     api.req_Book := "";
     api.req_Chapter := "";
     api.req_Verse := "" |}.

(** An embedding payload whose second item has a number for its id. *)
Definition badPayload : value :=
  VMap (list_to_map
          [("embeddings",
            VSlice [Fixtures.embeddingJSON "John 3:16" [1; 0; 2];
                    VMap (list_to_map
                            [("id", VFloat64 (F64.of_Z 7));
                             ("embedding", VSlice [VFloat64 (F64.of_Z 1)])])])]).

(** The average provider primed with two texts, of which only the first
    has an embedding. *)
Definition primed : embeddings.SimpleEmbeddingService :=
  embeddings.Simple_Initialize embeddings.NewSimpleEmbeddingService
    (list_to_map [("a", [F32.of_Z 1; F32.of_Z 0])])
    (list_to_map [("a", "in the beginning"); ("b", "the word was")]).

End Examples.

(* ================================================================= *)
(** ** Vocabulary of the statements *)

(** Where a value that is not NaN stands in the order of [SFcompare]:
    a class (the infinities, the negative and positive finite values,
    zero) and, within the finite classes, exponent and mantissa. *)
Definition fkey (x : spec_float) : Z * Z * Z :=
  match x with
  | S754_infinity true => (-2, 0, 0)
  | S754_finite true m e => (-1, - e, - Zpos m)
  | S754_zero _ => (0, 0, 0)
  | S754_nan => (0, 0, 0)
  | S754_finite false m e => (1, e, Zpos m)
  | S754_infinity false => (2, 0, 0)
  end.

Definition lex_lt (a b : Z * Z * Z) : Prop :=
  let '(a1, a2, a3) := a in
  let '(b1, b2, b3) := b in
  a1 < b1 \/ (a1 = b1 /\ (a2 < b2 \/ (a2 = b2 /\ a3 < b3))).

(** An index as [Add] builds it: one id per vector. *)
Definition wf_index (vi : search.VectorIndex) : Prop :=
  List.length (search.IDs vi) = List.length (search.Vectors vi).

(** The entries that pass the filter, scored against the query, in
    insertion order: the slice handed to [sort.Slice]. *)
Definition eligible (vi : search.VectorIndex) (query : list F32.t)
    (filter : string -> bool) : list search.SearchResult :=
  omap (fun iv : string * list F32.t =>
          if filter (fst iv)
          then Some (search.mkResult (fst iv) (search.cosineSimilarity query (snd iv)))
          else None)
       (combine (search.IDs vi) (search.Vectors vi)).

(** No later result is more similar than an earlier one. *)
Definition descending (rs : list search.SearchResult) : Prop :=
  forall (i j : nat) (ri rj : search.SearchResult),
    (i < j)%nat -> rs !! i = Some ri -> rs !! j = Some rj ->
    SFleb (search.Similarity rj) (search.Similarity ri) = true.

Definition no_nan (rs : list search.SearchResult) : Prop :=
  Forall (fun r => F32.is_nan (search.Similarity r) = false) rs.

(** The position of an id in the insertion order. *)
Fixpoint position (ids : list string) (id : string) : nat :=
  match ids with
  | [] => O
  | id' :: rest => if String.eqb id' id then O else S (position rest id)
  end.

(** Results of equal similarity stand in insertion order. *)
Fixpoint tiesInInsertionOrder (ids : list string) (rs : list search.SearchResult)
    : bool :=
  match rs with
  | [] => true
  | r :: rest =>
      forallb
        (fun r' =>
           negb (SFeqb (search.Similarity r) (search.Similarity r'))
           || (position ids (search.ID r) <? position ids (search.ID r'))%nat)
        rest
      && tiesInInsertionOrder ids rest
  end.

(** Quantization followed by dequantization. *)
Definition roundTrip (vec : list F32.t) : outcome (list F32.t) :=
  let* qs := search.quantizeVector vec in
  search.dequantizeVector (fst qs) (snd qs).

(** [|x - y| <= bound] on floats. *)
Definition withinF32 (bound x y : F32.t) : bool :=
  SFleb (SFabs (F32.sub x y)) bound.

(** Every vector of the index has [config.Dimensions] components. *)
Definition allDimensioned (vi : search.VectorIndex) : Prop :=
  Forall (fun v => GoInt.len v = config.Dimensions) (search.Vectors vi).

(** Two states of the service that differ at most in the cache and in
    the effects performed. *)
Definition sameData (s s1 : search.SearchService) : Prop :=
  search.svc_embeddings s1 = search.svc_embeddings s
  /\ search.svc_config s1 = search.svc_config s
  /\ search.indices s1 = search.indices s
  /\ search.textLookup s1 = search.textLookup s
  /\ search.loadedGranularities s1 = search.loadedGranularities s.

(** The later state has every entry of the cache of the earlier one,
    and its effects continue those of the earlier one. *)
Definition keepsCache (s s1 : search.SearchService) : Prop :=
  (forall u v, search.cache s !! u = Some v -> search.cache s1 !! u = Some v)
  /\ exists evs, search.trace s1 = search.trace s ++ evs.

Section ServiceStates.

Context {R : GoRuntime} {E : Environment}.

(** The states of the service that the program reaches: the service as
    [NewSearchService] returns it, and what a call of
    [PreloadGranularity], whatever its outcome, makes of a state reached
    before. *)
Inductive reachable : search.SearchService -> Prop :=
  | reachable_new (embeddingService : embeddings.EmbeddingService)
      (cfg : search.Config) :
      reachable (search.NewSearchService embeddingService cfg)
  | reachable_preload (s : search.SearchService) (granularity : string) :
      reachable s ->
      reachable (fst (search.PreloadGranularity s granularity)).

(** A token of the query that [parseQuery] reads as a filter. *)
Definition isFilterToken (part : string) : bool :=
  strings_Contains part ":"
  && match api.cutColon part with
     | Some (k, _) =>
         let key := strings_ToLower k in
         String.eqb key "book" || String.eqb key "chapter" || String.eqb key "verse"
     | None => false
     end.

End ServiceStates.

(** [r] is the first of [a], [b] and [c] that is not empty, and empty
    when all three are. *)
Definition firstNonEmpty (a b c r : string) : Prop :=
  (a <> "" /\ r = a)
  \/ (a = "" /\ b <> "" /\ r = b)
  \/ (a = "" /\ b = "" /\ r = c).

(** Every granularity marked as loaded has an index, and every index of
    the service is well formed and belongs to a loaded granularity. *)
Definition indexed (s : search.SearchService) : Prop :=
  (forall g, search.isLoaded s g = true ->
     exists idx, search.indices s !! g = Some idx)
  /\ (forall g idx, search.indices s !! g = Some idx ->
        wf_index idx /\ search.isLoaded s g = true
        /\ (g = "verse" \/ g = "chapter")).

(** The ["embeddings"] list of a payload, empty when the payload has
    none. *)
Definition embeddingItems (embeddingData : value) : list value :=
  match embeddingData with
  | VMap m =>
      match m !! "embeddings" with
      | Some (VSlice embeddingsList) => embeddingsList
      | _ => []
      end
  | _ => []
  end.

(** An item of the ["embeddings"] list that is an object without a
    string under ["id"]. *)
Definition lacksStringID (item : value) : bool :=
  match item with
  | VMap embedding =>
      match embedding !! "id" with
      | Some (VString _) => false
      | _ => true
      end
  | _ => false
  end.

(* ================================================================= *)
(** * Properties *)

(** ** The order of floating-point comparison *)

Section FloatOrder.

Lemma SFltb_key (x y : spec_float) :
  F32.is_nan x = false -> F32.is_nan y = false ->
  (SFltb x y = true <-> lex_lt (fkey x) (fkey y)).
Proof.
  intros Hx Hy.
  destruct x as [sx | sx | | sx mx ex], y as [sy | sy | | sy my ey];
    try discriminate; unfold SFltb, lex_lt; simpl;
    try (destruct sx; simpl; split; intros; try discriminate; try reflexivity; lia);
    try (destruct sy; simpl; split; intros; try discriminate; try reflexivity; lia);
    try (destruct sx, sy; simpl; split; intros; try discriminate; try reflexivity; lia).
  destruct sx, sy; simpl;
    try (split; intros; try discriminate; try reflexivity; lia).
  - destruct (Z.compare_spec ex ey) as [He | He | He]; simpl.
    + change (Pos.compare_cont Eq mx my) with (Pos.compare mx my).
      destruct (Pos.compare_spec mx my) as [Hm | Hm | Hm]; simpl;
        split; intros; try discriminate; try reflexivity; lia.
    + split; intros; try discriminate; lia.
    + split; intros; try reflexivity; lia.
  - destruct (Z.compare_spec ex ey) as [He | He | He]; simpl.
    + change (Pos.compare_cont Eq mx my) with (Pos.compare mx my).
      destruct (Pos.compare_spec mx my) as [Hm | Hm | Hm]; simpl;
        split; intros; try discriminate; try reflexivity; lia.
    + split; intros; try reflexivity; lia.
    + split; intros; try discriminate; lia.
Qed.

Lemma SFltb_not_nan (x y : spec_float) :
  SFltb x y = true -> F32.is_nan x = false /\ F32.is_nan y = false.
Proof.
  unfold SFltb. destruct x, y; simpl; try discriminate; auto.
Qed.

Lemma SFltb_irrefl (x : spec_float) : SFltb x x = false.
Proof.
  destruct (F32.is_nan x) eqn:Hx.
  - destruct x; try discriminate. reflexivity.
  - destruct (SFltb x x) eqn:Hlt; [| reflexivity].
    apply SFltb_key in Hlt; [| assumption | assumption].
    unfold lex_lt in Hlt. destruct (fkey x) as [[a b] c]. lia.
Qed.

Lemma SFltb_trans (x y z : spec_float) :
  SFltb x y = true -> SFltb y z = true -> SFltb x z = true.
Proof.
  intros Hxy Hyz.
  destruct (SFltb_not_nan _ _ Hxy) as [Hx Hy].
  destruct (SFltb_not_nan _ _ Hyz) as [_ Hz].
  apply SFltb_key in Hxy; [| assumption | assumption].
  apply SFltb_key in Hyz; [| assumption | assumption].
  apply SFltb_key; [assumption | assumption |].
  unfold lex_lt in *.
  destruct (fkey x) as [[a1 a2] a3], (fkey y) as [[b1 b2] b3],
           (fkey z) as [[c1 c2] c3]. lia.
Qed.

Lemma SFltb_false_key (x y : spec_float) :
  F32.is_nan x = false -> F32.is_nan y = false ->
  SFltb x y = false -> ~ lex_lt (fkey x) (fkey y).
Proof.
  intros Hx Hy Hf Hlt. apply SFltb_key in Hlt; [congruence | assumption | assumption].
Qed.

Lemma SFltb_negtrans (x y z : spec_float) :
  F32.is_nan x = false -> F32.is_nan y = false -> F32.is_nan z = false ->
  SFltb x y = false -> SFltb y z = false -> SFltb x z = false.
Proof.
  intros Hx Hy Hz Hxy Hyz.
  apply SFltb_false_key in Hxy; [| assumption | assumption].
  apply SFltb_false_key in Hyz; [| assumption | assumption].
  destruct (SFltb x z) eqn:Hxz; [| reflexivity].
  apply SFltb_key in Hxz; [| assumption | assumption].
  unfold lex_lt in *.
  destruct (fkey x) as [[a1 a2] a3], (fkey y) as [[b1 b2] b3],
           (fkey z) as [[c1 c2] c3]. lia.
Qed.

(** Between values that are not NaN, "not smaller" is "greater or
    equal". *)
Lemma SFltb_false_leb (x y : spec_float) :
  F32.is_nan x = false -> F32.is_nan y = false ->
  SFltb x y = false -> SFleb y x = true.
Proof.
  intros Hx Hy.
  destruct x as [sx | sx | | sx mx ex], y as [sy | sy | | sy my ey];
    try discriminate; unfold SFltb, SFleb; simpl;
    try (destruct sx; simpl; congruence);
    try (destruct sy; simpl; congruence);
    try (destruct sx, sy; simpl; congruence).
  destruct sx, sy; simpl; try congruence.
  - rewrite (Z.compare_antisym ex ey).
    destruct (ex ?= ey); simpl; try congruence.
    change (Pos.compare_cont Eq mx my) with (Pos.compare mx my).
    change (Pos.compare_cont Eq my mx) with (Pos.compare my mx).
    rewrite (Pos.compare_antisym mx my).
    destruct (mx ?= my)%positive; simpl; congruence.
  - rewrite (Z.compare_antisym ex ey).
    destruct (ex ?= ey); simpl; try congruence.
    change (Pos.compare_cont Eq mx my) with (Pos.compare mx my).
    change (Pos.compare_cont Eq my mx) with (Pos.compare my mx).
    rewrite (Pos.compare_antisym mx my).
    destruct (mx ?= my)%positive; simpl; congruence.
Qed.

End FloatOrder.


(** ** Decoding of strings *)

Section Decoding.

Lemma decode_consumes (bs : list Z) : (1 <= snd (Utf8.decode bs))%nat.
Proof.
  unfold Utf8.decode.
  repeat match goal with
         | |- context [if ?c then _ else _] => destruct c
         | |- context [match ?l with [] => _ | _ :: _ => _ end] => destruct l
         end; simpl; lia.
Qed.

(** The fuel of [Utf8.runes] is enough: with any larger amount the same
    runes are read, so that the walk ends at the end of the string. *)
Lemma runes_fuel_enough (fuel1 fuel2 : nat) (bs : list Z) :
  (List.length bs <= fuel1)%nat -> (List.length bs <= fuel2)%nat ->
  Utf8.runes_fuel fuel1 bs = Utf8.runes_fuel fuel2 bs.
Proof.
  revert fuel2 bs. induction fuel1 as [| fuel1 IH]; intros fuel2 bs H1 H2.
  - destruct bs; [| simpl in H1; lia]. destruct fuel2; reflexivity.
  - destruct bs as [| b bs]; [destruct fuel2; reflexivity |].
    destruct fuel2 as [| fuel2]; [simpl in H2; lia |].
    cbn [Utf8.runes_fuel].
    pose proof (decode_consumes (b :: bs)) as Hn.
    destruct (Utf8.decode (b :: bs)) as [r n]. cbn [snd] in Hn.
    f_equal.
    assert (Hdrop : (List.length (drop n (b :: bs)) <= List.length bs)%nat)
      by (rewrite length_drop; simpl; lia).
    apply IH; simpl in H1, H2; lia.
Qed.

End Decoding.

(** ** Insertion sort meets the contract of [sort.Slice] *)

Section InsertionSortContract.

Context {A : Type} (less : A -> A -> bool).

Lemma insert_perm (x : A) (l : list A) :
  Permutation (InsertionSort.insert less x l) (x :: l).
Proof.
  induction l as [| y l IH]; simpl.
  - reflexivity.
  - destruct (less y x).
    + rewrite IH. apply perm_swap.
    + reflexivity.
Qed.

Lemma insertion_sort_perm (l : list A) :
  Permutation (InsertionSort.sort less l) l.
Proof.
  induction l as [| x l IH]; simpl.
  - reflexivity.
  - rewrite insert_perm. now rewrite IH.
Qed.

(** [later x y]: [y] may stand after [x]. *)
#[local] Abbreviation later := (fun x y : A => less y x = false).

Lemma insert_sorted (pool : list A) (x : A) (l : list A) :
  strict_weak_on less pool ->
  In x pool -> (forall y, In y l -> In y pool) ->
  StronglySorted later l ->
  StronglySorted later (InsertionSort.insert less x l).
Proof.
  intros (Hirr & Htr & Hneg) Hx Hl Hs.
  induction Hs as [| y l Hs IH Hall]; simpl.
  - repeat constructor.
  - assert (Hy : In y pool) by (apply Hl; now left).
    assert (Hl' : forall z, In z l -> In z pool) by (intros z Hz; apply Hl; now right).
    destruct (less y x) eqn:Hyx.
    + constructor.
      * apply IH. exact Hl'.
      * eapply Permutation_Forall; [symmetry; apply insert_perm |].
        constructor; [| exact Hall].
        simpl. destruct (less x y) eqn:Hxy; [| reflexivity].
        rewrite <- (Hirr x Hx). symmetry. now apply (Htr x y x).
    + constructor.
      * now constructor.
      * constructor; [exact Hyx |].
        rewrite Forall_forall in Hall |- *. intros z Hz.
        simpl. apply (Hneg z y x);
          [apply Hl'; now apply list_elem_of_In | exact Hy | exact Hx
          | now apply Hall | exact Hyx].
Qed.

Lemma insertion_sort_strongly_sorted (pool l : list A) :
  strict_weak_on less pool -> (forall y, In y l -> In y pool) ->
  StronglySorted later (InsertionSort.sort less l).
Proof.
  intros Hsw. induction l as [| x l IH]; intros Hl; simpl.
  - constructor.
  - apply (insert_sorted pool); auto.
    + apply Hl. now left.
    + intros y Hy. apply Hl. right.
      eapply Permutation_in; [apply insertion_sort_perm | exact Hy].
    + apply IH. intros y Hy. apply Hl. now right.
Qed.

Lemma strongly_sorted_by (l : list A) :
  StronglySorted later l -> sorted_by less l.
Proof.
  intros Hs. induction Hs as [| x l Hs IH Hall]; intros i j a b Hij Hi Hj.
  - now rewrite lookup_nil in Hi.
  - destruct j as [| j]; [lia |]. simpl in Hj.
    destruct i as [| i]; simpl in Hi.
    + injection Hi as <-. rewrite Forall_forall in Hall.
      apply Hall. eapply list_elem_of_lookup_2. exact Hj.
    + apply (IH i j); auto. lia.
Qed.

End InsertionSortContract.

#[local] Instance testRuntime_sorts : SortContract testRuntime.
Proof.
  split; intros A less l; simpl.
  - apply insertion_sort_perm.
  - intros Hsw. apply strongly_sorted_by.
    apply (insertion_sort_strongly_sorted less l); auto.
Qed.

#[local] Instance reversingRuntime_sorts : SortContract reversingRuntime.
Proof.
  split; intros A less l; simpl.
  - rewrite insertion_sort_perm. symmetry. apply Permutation_rev.
  - intros (Hirr & Htr & Hneg). apply strongly_sorted_by.
    apply (insertion_sort_strongly_sorted less l); [| intros y Hy].
    + repeat split; assumption.
    + now apply in_rev.
Qed.

#[local] Instance testRuntime_ranges : RangeContract testRuntime.
Proof. split; intros V m; simpl. reflexivity. Qed.

#[local] Instance goRuntime_ranges : RangeContract goRuntime.
Proof. split; intros V m; simpl. reflexivity. Qed.

(** ** Slices and loops *)

Section SliceFacts.

Context {A : Type}.

Lemma len_nonneg (l : list A) : 0 <= GoInt.len l.
Proof. unfold GoInt.len. lia. Qed.

Lemma Slice_get_nat (l : list A) (n : nat) (x : A) :
  l !! n = Some x -> Slice.get l (Z.of_nat n) = Ret x.
Proof.
  intros Hx. unfold Slice.get, GoInt.len.
  pose proof (lookup_lt_Some _ _ _ Hx) as Hlt.
  replace (0 <=? Z.of_nat n) with true by (symmetry; apply Z.leb_le; lia).
  replace (Z.of_nat n <? Z.of_nat (List.length l)) with true
    by (symmetry; apply Z.ltb_lt; lia).
  simpl. rewrite Nat2Z.id. now rewrite Hx.
Qed.

Lemma Slice_get_head (x : A) (l : list A) : Slice.get (x :: l) 0 = Ret x.
Proof. exact (Slice_get_nat (x :: l) 0 x eq_refl). Qed.

Lemma Slice_get_empty (i : Z) : Slice.get (@nil A) i = Panic "index out of range".
Proof.
  unfold Slice.get, GoInt.len. simpl.
  destruct (0 <=? i) eqn:H0; simpl; [| reflexivity].
  destruct (i <? _); reflexivity.
Qed.

Lemma Slice_set_nat (l : list A) (n : nat) (x : A) :
  (n < List.length l)%nat ->
  Slice.set l (Z.of_nat n) x = Ret (<[n := x]> l).
Proof.
  intros Hlt. unfold Slice.set, GoInt.len.
  replace (0 <=? Z.of_nat n) with true by (symmetry; apply Z.leb_le; lia).
  replace (Z.of_nat n <? Z.of_nat (List.length l)) with true
    by (symmetry; apply Z.ltb_lt; lia).
  simpl. now rewrite Nat2Z.id.
Qed.

Lemma Slice_make_ok (zero : A) (n : Z) :
  0 <= n -> Slice.make zero n = Ret (replicate (Z.to_nat n) zero).
Proof.
  intros Hn. unfold Slice.make.
  replace (n <? 0) with false by (symmetry; apply Z.ltb_ge; lia). reflexivity.
Qed.

Lemma Slice_prefix_ok (l : list A) (k : Z) :
  0 <= k <= GoInt.len l -> Slice.prefix l k = Ret (take (Z.to_nat k) l).
Proof.
  intros [H0 Hk]. unfold Slice.prefix.
  replace (0 <=? k) with true by (symmetry; apply Z.leb_le; lia).
  replace (k <=? GoInt.len l) with true by (symmetry; apply Z.leb_le; lia).
  reflexivity.
Qed.

Lemma Slice_prefix_negative (l : list A) (k : Z) :
  k < 0 -> Slice.prefix l k = Panic "slice bounds out of range".
Proof.
  intros Hk. unfold Slice.prefix.
  replace (0 <=? k) with false by (symmetry; apply Z.leb_gt; lia). reflexivity.
Qed.

(** A loop whose body keeps an invariant and never fails while it holds
    runs to the end and keeps the invariant. *)
Lemma range_from_invariant {St : Type} (P : St -> Prop)
    (body : Z -> A -> St -> outcome St) (l : list A) :
  forall (i0 : Z) (s : St),
    P s ->
    (forall (k : nat) (x : A) (st : St),
        l !! k = Some x -> P st ->
        exists st', body (i0 + Z.of_nat k) x st = Ret st' /\ P st') ->
    exists s', Slice.range_from body i0 l s = Ret s' /\ P s'.
Proof.
  induction l as [| x l IH]; intros i0 s Hs Hbody; simpl.
  - eauto.
  - destruct (Hbody O x s) as (s1 & Hs1 & HP1); [reflexivity | exact Hs |].
    replace (i0 + Z.of_nat 0) with i0 in Hs1 by lia.
    rewrite Hs1. simpl. apply IH; [exact HP1 |].
    intros k y st Hk Hst.
    replace (i0 + 1 + Z.of_nat k) with (i0 + Z.of_nat (S k)) by lia.
    apply Hbody; assumption.
Qed.

Lemma range_from_ext {St : Type} (body1 body2 : Z -> A -> St -> outcome St)
    (l : list A) :
  (forall i x s, body1 i x s = body2 i x s) ->
  forall i0 s, Slice.range_from body1 i0 l s = Slice.range_from body2 i0 l s.
Proof.
  intros Hext. induction l as [| x l IH]; intros i0 s; simpl.
  - reflexivity.
  - rewrite Hext. destruct (body2 i0 x s); simpl; auto.
Qed.

End SliceFacts.

(** ** The vector index *)

Section IndexFacts.

Import search.

Context {R : GoRuntime}.

Lemma wf_NewVectorIndex : wf_index NewVectorIndex.
Proof. reflexivity. Qed.

Lemma wf_Add (vi : VectorIndex) (id : string) (v : list F32.t) :
  wf_index vi -> wf_index (Add vi id v).
Proof.
  unfold wf_index. simpl. intros H. rewrite !length_app. simpl. lia.
Qed.

(** The loop of [SearchWithFilter], started in the middle of the
    index. *)
Lemma filter_loop (query : list F32.t) (filter : string -> bool) :
  forall (vecs : list (list F32.t)) (pre ids : list string)
         (acc : list SearchResult),
    List.length ids = List.length vecs ->
    Slice.range_from
      (fun i vec results =>
         let* id := Slice.get (pre ++ ids) i in
         if negb (filter id) then Ret results
         else Ret (results ++ [mkResult id (cosineSimilarity query vec)]))
      (Z.of_nat (List.length pre)) vecs acc
    = Ret (acc ++ omap (fun iv : string * list F32.t =>
                          if filter (fst iv)
                          then Some (mkResult (fst iv) (cosineSimilarity query (snd iv)))
                          else None)
                       (combine ids vecs)).
Proof.
  induction vecs as [| v vecs IH]; intros pre ids acc Hlen.
  - destruct ids; simpl; [| discriminate]. now rewrite app_nil_r.
  - destruct ids as [| id ids]; [discriminate |]. simpl.
    rewrite (Slice_get_nat _ _ id).
    2:{ rewrite lookup_app_r by lia. now rewrite Nat.sub_diag. }
    simpl.
    replace (Z.of_nat (List.length pre) + 1)
      with (Z.of_nat (List.length (pre ++ [id])))
      by (rewrite length_app; simpl; lia).
    replace (pre ++ id :: ids) with ((pre ++ [id]) ++ ids)
      by (now rewrite <- app_assoc).
    destruct (filter id); simpl.
    + rewrite IH by (simpl in Hlen; lia). now rewrite <- app_assoc.
    + rewrite IH by (simpl in Hlen; lia). reflexivity.
Qed.

Lemma topK_ok (rs : list SearchResult) (k : Z) :
  0 <= k -> topK rs k = Ret (take (Z.to_nat k) rs).
Proof.
  intros Hk. unfold topK.
  destruct (k >? GoInt.len rs) eqn:Hgt.
  - rewrite Slice_prefix_ok by (pose proof (len_nonneg rs); lia).
    f_equal. unfold GoInt.len. rewrite Nat2Z.id.
    rewrite take_ge by lia.
    rewrite take_ge; [reflexivity |].
    rewrite Z.gtb_ltb in Hgt. apply Z.ltb_lt in Hgt. unfold GoInt.len in Hgt. lia.
  - rewrite Slice_prefix_ok; [reflexivity |].
    rewrite Z.gtb_ltb in Hgt. apply Z.ltb_ge in Hgt. lia.
Qed.

Lemma topK_negative (rs : list SearchResult) (k : Z) :
  k < 0 -> topK rs k = Panic "slice bounds out of range".
Proof.
  intros Hk. unfold topK.
  replace (k >? GoInt.len rs) with false.
  - now apply Slice_prefix_negative.
  - symmetry. rewrite Z.gtb_ltb. apply Z.ltb_ge.
    pose proof (len_nonneg rs). lia.
Qed.

(** What [SearchWithFilter] computes on a well-formed index. *)
Lemma SearchWithFilter_unfold (vi : VectorIndex) (query : list F32.t) (k : Z)
    (filter : string -> bool) :
  wf_index vi ->
  SearchWithFilter vi query k filter
  = if GoInt.len (Vectors vi) =? 0 then Ret []
    else topK (sort_Slice SearchResult bySimilarity (eligible vi query filter)) k.
Proof.
  intros Hwf. unfold SearchWithFilter.
  destruct (GoInt.len (Vectors vi) =? 0); [reflexivity |].
  unfold Slice.for_range.
  pose proof (filter_loop query filter (Vectors vi) [] (IDs vi) [] Hwf) as Hloop.
  change (Z.of_nat (List.length (@nil string))) with 0 in Hloop.
  change ([] ++ IDs vi) with (IDs vi) in Hloop.
  rewrite Hloop. reflexivity.
Qed.

(** [Search] is [SearchWithFilter] with the filter that accepts every
    id. *)
Lemma Search_as_filter (vi : VectorIndex) (query : list F32.t) (k : Z) :
  Search vi query k = SearchWithFilter vi query k (fun _ => true).
Proof.
  unfold Search, SearchWithFilter.
  destruct (GoInt.len (Vectors vi) =? 0); [reflexivity |].
  unfold Slice.for_range.
  erewrite range_from_ext; [reflexivity |].
  intros i x s. simpl. reflexivity.
Qed.

Lemma eligible_empty (vi : VectorIndex) (query : list F32.t)
    (filter : string -> bool) :
  Vectors vi = [] -> eligible vi query filter = [].
Proof.
  intros H. unfold eligible. rewrite H.
  destruct (IDs vi); reflexivity.
Qed.

End IndexFacts.

(** ** Result counts *)

Section ResultCount.

Import search.

Context {R : GoRuntime}.

Lemma len_zero_nil {A : Type} (l : list A) : (GoInt.len l =? 0) = true -> l = [].
Proof.
  unfold GoInt.len. intros H. apply Z.eqb_eq in H.
  destruct l; [reflexivity | simpl in H; lia].
Qed.

(** For a count that is not negative the filtered search returns, and
    returns as many results as the count and the eligible entries
    allow. *)
Lemma SearchWithFilter_length (HS : SortContract R) (vi : VectorIndex)
    (query : list F32.t) (k : Z) (filter : string -> bool) :
  wf_index vi -> 0 <= k ->
  exists rs,
    SearchWithFilter vi query k filter = Ret rs
    /\ GoInt.len rs = Z.min k (GoInt.len (eligible vi query filter)).
Proof.
  intros Hwf Hk. rewrite SearchWithFilter_unfold by exact Hwf.
  destruct (GoInt.len (Vectors vi) =? 0) eqn:Hlen.
  - exists []. split; [reflexivity |].
    rewrite eligible_empty by (now apply len_zero_nil).
    unfold GoInt.len. simpl. lia.
  - rewrite topK_ok by exact Hk. eexists. split; [reflexivity |].
    unfold GoInt.len. rewrite length_take.
    rewrite (Permutation_length (sort_Slice_perm _ bySimilarity _)). lia.
Qed.

(** On an index that holds a vector, a negative count ends in the
    run-time panic of [results[:k]]. *)
Lemma SearchWithFilter_negative_k (vi : VectorIndex) (query : list F32.t)
    (k : Z) (filter : string -> bool) :
  wf_index vi -> Vectors vi <> [] -> k < 0 ->
  SearchWithFilter vi query k filter = Panic "slice bounds out of range".
Proof.
  intros Hwf Hne Hk. rewrite SearchWithFilter_unfold by exact Hwf.
  destruct (GoInt.len (Vectors vi) =? 0) eqn:Hlen.
  - apply len_zero_nil in Hlen. contradiction.
  - now apply topK_negative.
Qed.

(** C1 (a defect of the code).  The design document promises an empty
    result, never an error, for every [k <= 0].  On the index that holds
    the single entry ["a" -> [1]], with the query [[1]], the filter that
    accepts everything and [k = -1], [SearchWithFilter] does not return:
    whatever [sort.Slice] does, the final [results[:k]] panics. *)
Theorem SearchWithFilter_minus_one_panics :
  SearchWithFilter (Add NewVectorIndex "a" [F32.of_Z 1]) [F32.of_Z 1] (-1)
    (fun _ => true)
  = Panic "slice bounds out of range".
Proof.
  apply SearchWithFilter_negative_k.
  - apply wf_Add, wf_NewVectorIndex.
  - discriminate.
  - lia.
Qed.

End ResultCount.

(** ** Order of the results *)

Section ResultOrder.

Import search.

Context {R : GoRuntime}.

Lemma bySimilarity_strict_weak (rs : list SearchResult) :
  no_nan rs -> strict_weak_on bySimilarity rs.
Proof.
  intros Hnn. unfold no_nan in Hnn. rewrite Forall_forall in Hnn.
  assert (Hn : forall x, In x rs -> F32.is_nan (Similarity x) = false)
    by (intros x Hx; apply Hnn; now apply list_elem_of_In).
  unfold bySimilarity, F32.gtb. repeat split.
  - intros x _. apply SFltb_irrefl.
  - intros x y z _ _ _ Hxy Hyz. eapply SFltb_trans; eassumption.
  - intros x y z Hx Hy Hz Hxy Hyz.
    apply (SFltb_negtrans _ (Similarity y)); auto.
Qed.

Lemma descending_of_sorted (pool rs : list SearchResult) :
  no_nan pool -> (forall r, In r rs -> In r pool) ->
  sorted_by bySimilarity rs -> descending rs.
Proof.
  intros Hnn Hsub Hs i j ri rj Hij Hi Hj.
  unfold no_nan in Hnn. rewrite Forall_forall in Hnn.
  assert (Hri : In ri rs) by (apply list_elem_of_In; eapply list_elem_of_lookup_2; eauto).
  assert (Hrj : In rj rs) by (apply list_elem_of_In; eapply list_elem_of_lookup_2; eauto).
  apply SFltb_false_leb.
  - apply Hnn. apply list_elem_of_In. auto.
  - apply Hnn. apply list_elem_of_In. auto.
  - exact (Hs i j ri rj Hij Hi Hj).
Qed.

Lemma sorted_by_take {A : Type} (less : A -> A -> bool) (n : nat) (l : list A) :
  sorted_by less l -> sorted_by less (take n l).
Proof.
  intros Hs i j x y Hij Hi Hj.
  apply lookup_take_Some in Hi as [Hi _].
  apply lookup_take_Some in Hj as [Hj _].
  exact (Hs i j x y Hij Hi Hj).
Qed.

(** C2 (amended).  When the count is not negative and no eligible entry
    has a NaN similarity, [SearchWithFilter] returns the first [k]
    elements of a rearrangement of the eligible entries, and they stand in
    descending order of similarity; [Search] is the case of the filter
    that accepts every id.  Nothing is said about the order of entries of
    equal similarity. *)
Theorem SearchWithFilter_descending (HS : SortContract R) (vi : VectorIndex)
    (query : list F32.t) (k : Z) (filter : string -> bool) :
  wf_index vi -> 0 <= k -> no_nan (eligible vi query filter) ->
  Search vi query k = SearchWithFilter vi query k (fun _ => true)
  /\ exists rs sorted,
       SearchWithFilter vi query k filter = Ret rs
       /\ Permutation sorted (eligible vi query filter)
       /\ rs = take (Z.to_nat k) sorted
       /\ descending rs.
Proof.
  intros Hwf Hk Hnn. split; [apply Search_as_filter |].
  rewrite SearchWithFilter_unfold by exact Hwf.
  destruct (GoInt.len (Vectors vi) =? 0) eqn:Hlen.
  - exists [], []. rewrite eligible_empty by (now apply len_zero_nil).
    repeat split; try reflexivity.
    + now rewrite take_nil.
    + intros i j ri rj _ Hi. now rewrite lookup_nil in Hi.
  - rewrite topK_ok by exact Hk.
    exists (take (Z.to_nat k) (sort_Slice SearchResult bySimilarity
                                 (eligible vi query filter))),
           (sort_Slice SearchResult bySimilarity (eligible vi query filter)).
    repeat split.
    + apply sort_Slice_perm.
    + apply (descending_of_sorted (eligible vi query filter)); [exact Hnn | |].
      * intros r Hr. apply list_elem_of_In in Hr.
        apply list_elem_of_In.
        apply elem_of_take in Hr as (n & Hn & _).
        eapply elem_of_Permutation_proper; [symmetry; apply sort_Slice_perm |].
        eapply list_elem_of_lookup_2. exact Hn.
      * apply sorted_by_take. apply sort_Slice_sorted.
        now apply bySimilarity_strict_weak.
Qed.

End ResultOrder.

(** ** Dimensions *)

Section Dimensions.

Import search.

(** C5 (amended).  [Add] makes no test of the vector: it always appends
    the pair as given, so the index holds vectors of [config.Dimensions]
    components exactly when every vector handed to [Add] had that many. *)
Theorem Add_appends_unchecked (vi : VectorIndex) (id : string)
    (v : list F32.t) :
  Vectors (Add vi id v) = Vectors vi ++ [v]
  /\ IDs (Add vi id v) = IDs vi ++ [id]
  /\ Size (Add vi id v) = Size vi + 1
  /\ (allDimensioned (Add vi id v)
      <-> allDimensioned vi /\ GoInt.len v = config.Dimensions).
Proof.
  split; [reflexivity |]. split; [reflexivity |]. split.
  - unfold Size, GoInt.len. simpl. rewrite length_app. simpl. lia.
  - unfold allDimensioned. simpl. rewrite Forall_app, Forall_singleton.
    reflexivity.
Qed.

(** A stored vector whose length differs from the query's is not an
    error either: its similarity is zero. *)
Lemma cosineSimilarity_length_mismatch (a b : list F32.t) :
  GoInt.len a <> GoInt.len b -> cosineSimilarity a b = F32.zero.
Proof.
  intros H. unfold cosineSimilarity.
  replace (GoInt.len a =? GoInt.len b) with false
    by (symmetry; now apply Z.eqb_neq).
  reflexivity.
Qed.

End Dimensions.

(** ** The memory estimate *)

Section MemoryEstimate.

Import search.

(** [GetMemoryUsage] reads [Vectors[0]] before anything else: it panics
    exactly on the index without vectors and returns otherwise. *)
Lemma GetMemoryUsage_panics_iff_empty (vi : VectorIndex) :
  is_Panic (GetMemoryUsage vi) = (Size vi =? 0)
  /\ is_Ret (GetMemoryUsage vi) = negb (Size vi =? 0).
Proof.
  unfold GetMemoryUsage, Size. destruct (Vectors vi) as [| v vs].
  - rewrite Slice_get_empty. simpl. split; reflexivity.
  - rewrite Slice_get_head. simpl.
    unfold GoInt.len. simpl. split; reflexivity.
Qed.

Lemma GetMemoryUsage_empty (vi : VectorIndex) :
  Size vi = 0 -> GetMemoryUsage vi = Panic "index out of range".
Proof.
  unfold Size, GetMemoryUsage. intros H.
  rewrite (len_zero_nil (Vectors vi)) by (now apply Z.eqb_eq).
  now rewrite Slice_get_empty.
Qed.

Lemma GetMemoryUsage_Ret_or_Panic (vi : VectorIndex) :
  (exists n, GetMemoryUsage vi = Ret n)
  \/ GetMemoryUsage vi = Panic "index out of range".
Proof.
  unfold GetMemoryUsage. destruct (Vectors vi) as [| v vs].
  - right. now rewrite Slice_get_empty.
  - left. rewrite Slice_get_head. simpl. eauto.
Qed.

Context {R : GoRuntime} {E : Environment}.

Lemma statusEntries_panics (s : SearchService)
    (entries : list (string * VectorIndex)) :
  forall acc,
    (exists g idx, In (g, idx) entries /\ Size idx = 0) ->
    statusEntries s entries acc = Panic "index out of range".
Proof.
  induction entries as [| [g idx] entries IH]; intros acc (g0 & idx0 & Hin & Hsz).
  - destruct Hin.
  - simpl. destruct (GetMemoryUsage_Ret_or_Panic idx) as [[n Hn] | Hp].
    + rewrite Hn. simpl. apply IH.
      destruct Hin as [Heq | Hin].
      * injection Heq as -> ->. rewrite GetMemoryUsage_empty in Hn by exact Hsz.
        discriminate.
      * eauto.
    + rewrite Hp. reflexivity.
Qed.

(** C9.  [GetMemoryUsage] panics on an index of size 0, where a
    return of 0 might be expected, and so does [GetStatus] as soon as
    one of the indices of the service is empty. *)
Theorem GetMemoryUsage_panics_on_empty_index (HR : RangeContract R)
    (s : SearchService) (granularity : string) (idx : VectorIndex) :
  indices s !! granularity = Some idx -> Size idx = 0 ->
  GetMemoryUsage idx = Panic "index out of range"
  /\ GetStatus s = Panic "index out of range".
Proof.
  intros Hidx Hsz. split; [now apply GetMemoryUsage_empty |].
  unfold GetStatus. rewrite (statusEntries_panics s); [reflexivity |].
  exists granularity, idx. split; [| exact Hsz].
  eapply Permutation_in; [symmetry; apply map_range_perm |].
  apply list_elem_of_In. now apply elem_of_map_to_list.
Qed.

End MemoryEstimate.

(** ** The result count chosen by the handler *)

Section HandlerCount.

Import search api.

Lemma maxInt_three (a b c : Z) :
  maxInt [a; b; c] = Z.max (Z.max (Z.max 0 a) b) c.
Proof.
  unfold maxInt. simpl. rewrite !Z.gtb_ltb.
  destruct (Z.ltb_spec 0 a); simpl;
    match goal with |- context [?x <? b] => destruct (Z.ltb_spec x b) end; simpl;
    match goal with |- context [?x <? c] => destruct (Z.ltb_spec x c) end; simpl;
    lia.
Qed.

(** C10.  The count handed to [SearchService.Search] is the largest of
    the request's [k], the options' [k] and 10; it is at least 10, the
    default of the service ([k == 0]) never applies to it, and it is not
    the first non-zero of the three: a request with [k = 3] and options
    with [k = 7] searches with 10. *)
Theorem handler_count_is_max (req : SearchRequest) (filters : SearchOptions) :
  opt_K (mergeOptions req filters)
    = Z.max (Z.max (req_K req) (opt_K (req_Options req))) 10
  /\ 10 <= opt_K (mergeOptions req filters)
  /\ opt_K (withDefaults (mergeOptions req filters))
       = opt_K (mergeOptions req filters)
  /\ maxInt [3; 7; 10] = 10.
Proof.
  assert (Hmax : opt_K (mergeOptions req filters)
                 = Z.max (Z.max (req_K req) (opt_K (req_Options req))) 10).
  { unfold mergeOptions. simpl opt_K. rewrite maxInt_three. lia. }
  split; [exact Hmax |]. split; [lia |]. split; [| reflexivity].
  unfold withDefaults. cbn [opt_K].
  destruct (Z.eqb_spec (opt_K (mergeOptions req filters)) 0) as [H0 | H0];
    [lia | reflexivity].
Qed.

End HandlerCount.

(** ** The embedding providers *)

Section Providers.

Import embeddings.

(** A call that returns a vector of [config.Dimensions] components. *)
#[local] Abbreviation returns_vector o :=
  (exists v : list F32.t, o = Ret v /\ GoInt.len v = config.Dimensions).

(** A call that returns such a vector or an error, and does not panic. *)
#[local] Abbreviation vector_or_error o :=
  (returns_vector o \/ exists e : string, o = @Err (list F32.t) e).

Lemma Slice_get_some {A : Type} (l : list A) (k : nat) :
  (k < List.length l)%nat -> exists x, Slice.get l (Z.of_nat k) = Ret x.
Proof.
  intros Hk. destruct (lookup_lt_is_Some_2 l k Hk) as [x Hx].
  exists x. now apply Slice_get_nat.
Qed.

(** A loop of stores [st[i] = g i x st] over a slice no longer than [st]
    runs to the end and keeps the length. *)
Lemma store_loop {A B : Type} (g : Z -> A -> list B -> B) (l : list A)
    (st : list B) :
  (List.length l <= List.length st)%nat ->
  exists st',
    Slice.for_range (fun i x st => Slice.set st i (g i x st)) l st = Ret st'
    /\ List.length st' = List.length st.
Proof.
  intros Hlen. unfold Slice.for_range.
  apply (range_from_invariant (fun st' => List.length st' = List.length st));
    [reflexivity |].
  intros k x st0 Hk Hst0. rewrite Z.add_0_l.
  rewrite Slice_set_nat.
  - eexists. split; [reflexivity |]. now rewrite length_insert.
  - apply lookup_lt_Some in Hk. lia.
Qed.

Lemma placeholder_fill_total (hash : Z) (embedding : list F32.t) :
  exists filled,
    placeholder_fill hash embedding = Ret filled
    /\ List.length filled = List.length embedding.
Proof.
  unfold placeholder_fill.
  apply (store_loop
           (fun i _ _ =>
              seed_to_float
                (GoInt.wrap_u32
                   (hash + GoInt.wrap_u32 (GoInt.wrap_u32 i * 2654435761))))).
  lia.
Qed.

Lemma normalize_total (vec : list F32.t) :
  exists normalized,
    normalize vec = Ret normalized
    /\ List.length normalized = List.length vec.
Proof.
  unfold normalize.
  destruct (F32.eqb _ F32.zero); [eauto |].
  rewrite Slice_make_ok by apply len_nonneg. cbn [obind].
  set (norm := F32.of_float _).
  destruct (store_loop (fun _ v _ => F32.div v norm) vec
              (replicate (Z.to_nat (GoInt.len vec)) F32.zero))
    as (st & Hst & Hlen).
  - rewrite length_replicate. unfold GoInt.len. lia.
  - exists st. split; [exact Hst |].
    rewrite Hlen, length_replicate. unfold GoInt.len. lia.
Qed.

Lemma len_is_Dimensions {A : Type} (l : list A) :
  List.length l = Z.to_nat config.Dimensions -> GoInt.len l = config.Dimensions.
Proof. unfold GoInt.len. now intros ->. Qed.

Lemma generatePlaceholderEmbedding_total (s : EmbeddingService) (text : string) :
  returns_vector (generatePlaceholderEmbedding s text).
Proof.
  unfold generatePlaceholderEmbedding.
  rewrite Slice_make_ok by (unfold config.Dimensions; lia). cbn [obind].
  destruct (placeholder_fill_total (text_hash text)
              (replicate (Z.to_nat config.Dimensions) F32.zero))
    as (filled & Hfill & Hlen).
  rewrite Hfill. cbn [obind].
  destruct (normalize_total filled) as (v & Hv & Hlenv).
  exists v. split; [exact Hv |].
  apply len_is_Dimensions. now rewrite Hlenv, Hlen, length_replicate.
Qed.

(** The receiver is not read. *)
Lemma generatePlaceholderEmbedding_ignores_service
    (s1 s2 : EmbeddingService) (text : string) :
  generatePlaceholderEmbedding s1 text = generatePlaceholderEmbedding s2 text.
Proof. unfold generatePlaceholderEmbedding. reflexivity. Qed.

(** C8.  The placeholder embedding returns for every text, the empty one
    included; what it returns has [config.Dimensions] components and is
    the same vector, component for component, at every call with that
    text, whatever the state of the service it is called on. *)
Theorem generatePlaceholderEmbedding_deterministic
    (s1 s2 : EmbeddingService) (text : string) :
  exists v : list F32.t,
    generatePlaceholderEmbedding s1 text = Ret v
    /\ generatePlaceholderEmbedding s2 text = Ret v
    /\ GoInt.len v = config.Dimensions.
Proof.
  destruct (generatePlaceholderEmbedding_total s1 text) as (v & Hv & Hlen).
  exists v. split; [exact Hv |]. split; [| exact Hlen].
  rewrite <- (generatePlaceholderEmbedding_ignores_service s1 s2 text).
  exact Hv.
Qed.

Context {R : GoRuntime} {E : Environment}.

Lemma accumulate_total (embedding result : list F32.t) :
  exists result',
    accumulate embedding result = Ret result'
    /\ List.length result' = List.length result.
Proof.
  unfold accumulate, Slice.for_range.
  apply (range_from_invariant
           (fun st => List.length st = List.length result)); [reflexivity |].
  intros k x st _ Hst. rewrite Z.add_0_l.
  destruct (Z.ltb_spec (Z.of_nat k) (GoInt.len st)) as [Hlt | Hge].
  - unfold GoInt.len in Hlt.
    destruct (Slice_get_some st k) as [cur Hcur]; [lia |].
    rewrite Hcur. cbn [obind]. rewrite Slice_set_nat by lia.
    eexists. split; [reflexivity |]. now rewrite length_insert.
  - eauto.
Qed.

Lemma accumulate_all_total (s : SimpleEmbeddingService) (verseIDs : list string) :
  forall (result : list F32.t) (count : Z),
  exists result' count',
    accumulate_all s verseIDs result count = Ret (result', count')
    /\ List.length result' = List.length result.
Proof.
  induction verseIDs as [| verseID rest IH]; intros result count; simpl.
  - eauto.
  - destruct (verseEmbeddings s !! verseID) as [embedding |].
    + destruct (accumulate_total embedding result) as (r1 & Hr1 & Hlen1).
      rewrite Hr1. cbn [obind].
      destruct (IH r1 (count + 1)) as (r2 & c2 & Hr2 & Hlen2).
      exists r2, c2. split; [exact Hr2 | lia].
    + apply IH.
Qed.

Lemma divide_loop_total (result : list F32.t) (count : Z) :
  exists result',
    Slice.for_range
      (fun i (_ : F32.t) result =>
         let* cur := Slice.get result i in
         Slice.set result i (F32.div cur (F32.of_Z count)))
      result result = Ret result'
    /\ List.length result' = List.length result.
Proof.
  unfold Slice.for_range.
  apply (range_from_invariant
           (fun st => List.length st = List.length result)); [reflexivity |].
  intros k x st Hk Hst. rewrite Z.add_0_l.
  apply lookup_lt_Some in Hk.
  destruct (Slice_get_some st k) as [cur Hcur]; [lia |].
  rewrite Hcur. cbn [obind]. rewrite Slice_set_nat by lia.
  eexists. split; [reflexivity |]. now rewrite length_insert.
Qed.

Lemma averageEmbeddings_total (s : SimpleEmbeddingService)
    (verseIDs : list string) :
  returns_vector (averageEmbeddings s verseIDs).
Proof.
  unfold averageEmbeddings.
  rewrite Slice_make_ok by (unfold config.Dimensions; lia).
  assert (Hzero : List.length (replicate (Z.to_nat config.Dimensions) F32.zero)
                  = Z.to_nat config.Dimensions) by apply length_replicate.
  destruct (GoInt.len verseIDs =? 0).
  - eexists. split; [reflexivity |]. now apply len_is_Dimensions.
  - cbn [obind].
    destruct (accumulate_all_total s verseIDs
                (replicate (Z.to_nat config.Dimensions) F32.zero) 0)
      as (r & c & Hr & Hlen).
    rewrite Hr. simpl. destruct (0 <? c).
    + destruct (divide_loop_total r c) as (r' & Hr' & Hlen').
      exists r'. split; [exact Hr' |].
      apply len_is_Dimensions. rewrite Hlen', Hlen. exact Hzero.
    + exists r. split; [reflexivity |].
      apply len_is_Dimensions. rewrite Hlen. exact Hzero.
Qed.

Lemma Simple_EmbedQuery_soft (s : SimpleEmbeddingService) (text : string) :
  vector_or_error (Simple_EmbedQuery s text).
Proof.
  unfold Simple_EmbedQuery.
  destruct (negb (simple_initialized s)); [right; eauto |].
  destruct (GoInt.len _ =? 0); [right; eauto |].
  left. apply averageEmbeddings_total.
Qed.

Lemma embed_soft (s : RealONNXEmbeddingService) (text : string) :
  vector_or_error (embed s text).
Proof.
  unfold embed.
  destruct (negb (onnx_initialized s)); [right; eauto |].
  destruct (pad_tokens (tokenizer_Encode text)) as [inputIds attentionMask].
  destruct (session_Run inputIds attentionMask) as [embeddingSlice | e]; simpl;
    [| right; eauto].
  destruct (Z.ltb_spec (GoInt.len embeddingSlice) config.Dimensions) as [Hlt | Hge];
    [right; eauto |].
  left. rewrite Slice_prefix_ok by (unfold config.Dimensions in *; lia).
  eexists. split; [reflexivity |].
  unfold GoInt.len in *. rewrite length_take.
  unfold config.Dimensions in *. lia.
Qed.

Lemma or_else_returns (attempt next : outcome (list F32.t)) :
  vector_or_error attempt -> returns_vector next ->
  returns_vector (or_else attempt next).
Proof.
  intros [(v & -> & Hv) | [e ->]] Hnext; simpl; eauto.
Qed.

(** The query embedding is always there. *)
Lemma EmbedQuery_returns (s : EmbeddingService) (text : string) :
  returns_vector (EmbedQuery s text).
Proof.
  unfold EmbedQuery.
  pose proof (generatePlaceholderEmbedding_total s
                (config.QueryPrefix ++ text)%string) as Hfb.
  assert (Hsimple :
    returns_vector
      match simpleService s with
      | Some simple =>
          or_else (Simple_EmbedQuery simple text)
            (generatePlaceholderEmbedding s (config.QueryPrefix ++ text)%string)
      | None => generatePlaceholderEmbedding s (config.QueryPrefix ++ text)%string
      end).
  { destruct (simpleService s) as [simple |]; [| exact Hfb].
    apply or_else_returns; [apply Simple_EmbedQuery_soft | exact Hfb]. }
  destruct (realOnnxService s) as [onnx |]; [| exact Hsimple].
  apply or_else_returns; [apply embed_soft | exact Hsimple].
Qed.

(** C4.  [EmbedQuery] and [EmbedDocument] return a vector for every
    text and every state of the service: an error of the ONNX provider or
    of the precomputed-average provider falls through to the placeholder,
    which always returns; no error reaches the caller. *)
Theorem EmbedQuery_never_fails (s : EmbeddingService) (text : string) :
  (exists v : list F32.t,
      EmbedQuery s text = Ret v /\ GoInt.len v = config.Dimensions)
  /\ (exists v : list F32.t,
         EmbedDocument s text = Ret v /\ GoInt.len v = config.Dimensions).
Proof.
  split.
  - unfold EmbedQuery.
    pose proof (generatePlaceholderEmbedding_total s
                  (config.QueryPrefix ++ text)%string) as Hfb.
    assert (Hsimple :
      returns_vector
        match simpleService s with
        | Some simple =>
            or_else (Simple_EmbedQuery simple text)
              (generatePlaceholderEmbedding s (config.QueryPrefix ++ text)%string)
        | None => generatePlaceholderEmbedding s (config.QueryPrefix ++ text)%string
        end).
    { destruct (simpleService s) as [simple |]; [| exact Hfb].
      apply or_else_returns; [apply Simple_EmbedQuery_soft | exact Hfb]. }
    destruct (realOnnxService s) as [onnx |]; [| exact Hsimple].
    apply or_else_returns; [apply embed_soft | exact Hsimple].
  - unfold EmbedDocument.
    pose proof (generatePlaceholderEmbedding_total s
                  (config.DocumentPrefix ++ text)%string) as Hfb.
    assert (Hsimple :
      returns_vector
        match simpleService s with
        | Some simple =>
            or_else (Simple_EmbedDocument simple text)
              (generatePlaceholderEmbedding s (config.DocumentPrefix ++ text)%string)
        | None => generatePlaceholderEmbedding s (config.DocumentPrefix ++ text)%string
        end).
    { destruct (simpleService s) as [simple |]; [| exact Hfb].
      apply or_else_returns; [apply Simple_EmbedQuery_soft | exact Hfb]. }
    destruct (realOnnxService s) as [onnx |]; [| exact Hsimple].
    apply or_else_returns; [apply embed_soft | exact Hsimple].
Qed.

End Providers.

(** ** Loading *)

Section Loading.

Import search.

Context {R : GoRuntime} {E : Environment}.

Lemma isLoaded_install (s : SearchService) (granularity : string)
    (index : VectorIndex) (embs : gmap string (list F32.t))
    (lookup : gmap string TextData) :
  isLoaded (install s granularity index embs lookup) granularity = true.
Proof.
  unfold isLoaded, install. simpl. now rewrite lookup_insert_eq.
Qed.

(** A call that reports success leaves the granularity loaded. *)
Lemma PreloadGranularity_loads (s s1 : SearchService) (granularity : string) :
  PreloadGranularity s granularity = (s1, Ret tt) ->
  isLoaded s1 granularity = true.
Proof.
  unfold PreloadGranularity.
  destruct (isLoaded s granularity) eqn:Hloaded.
  - intros H. injection H as <-. exact Hloaded.
  - destruct (urlsFor granularity) as [[[embeddingURL fallbackURL] textURL] |];
      [| discriminate].
    destruct (loadWithFallback _ embeddingURL fallbackURL) as [s' [embeddingData | e | p]];
      try discriminate.
    destruct (loadFromURL s' textURL false) as [s'' [textData | e | p]];
      try discriminate.
    destruct (buildIndex embeddingData) as [[index embs] | e | p];
      try discriminate.
    intros H. injection H as <-. apply isLoaded_install.
Qed.

(** C7.  After a call of [PreloadGranularity] for a granularity has
    reported success, a second call for it reports success and returns
    the service as it found it: the same index and lookup table, the same
    cache, and no effect added to the trace, so nothing was fetched,
    parsed or built. *)
Theorem PreloadGranularity_idempotent (s s1 : SearchService)
    (granularity : string) :
  PreloadGranularity s granularity = (s1, Ret tt) ->
  PreloadGranularity s1 granularity = (s1, Ret tt).
Proof.
  intros H. apply PreloadGranularity_loads in H.
  unfold PreloadGranularity. now rewrite H.
Qed.

End Loading.

(** ** Quantization *)

Section Quantization.

Import search.

(** C3 (a defect of the code).  The design document bounds the error of
    the round trip by one [scale].  For the vector [[5]] the code computes
    [scale = 1] and the code [-128], and gives back [[0]]: the minimum 5
    taken off by [quantizeVector] is never added again, and the error 5
    exceeds the scale.  For [[10; 11]] it gives back [[0; 254/255]], both
    components ten off with a scale of [1/255]. *)
Theorem roundTrip_loses_the_minimum :
  quantizeVector [F32.of_Z 5] = Ret ([-128], F32.of_Z 1)
  /\ roundTrip [F32.of_Z 5] = Ret [F32.zero]
  /\ withinF32 (F32.of_Z 1) (F32.of_Z 5) F32.zero = false
  /\ (exists scale back0 back1,
        quantizeVector [F32.of_Z 10; F32.of_Z 11] = Ret ([-128; 126], scale)
        /\ roundTrip [F32.of_Z 10; F32.of_Z 11] = Ret [back0; back1]
        /\ withinF32 scale (F32.of_Z 10) back0 = false
        /\ withinF32 scale (F32.of_Z 11) back1 = false).
Proof.
  split; [vm_compute; reflexivity |].
  split; [vm_compute; reflexivity |].
  split; [vm_compute; reflexivity |].
  eexists _, _, _.
  split; [vm_compute; reflexivity |].
  split; [vm_compute; reflexivity |].
  split; vm_compute; reflexivity.
Qed.

End Quantization.

(** ** Filters *)

Section Filters.

Import search.

Context {R : GoRuntime} {E : Environment}.

(** What a loop returns satisfies every property that its body
    preserves. *)
Lemma range_from_preserves {A St : Type} (P : St -> Prop)
    (body : Z -> A -> St -> outcome St) (l : list A) :
  (forall i x st st', P st -> body i x st = Ret st' -> P st') ->
  forall (i0 : Z) (s s' : St),
    P s -> Slice.range_from body i0 l s = Ret s' -> P s'.
Proof.
  intros Hbody. induction l as [| x l IH]; intros i0 s s' Hs; simpl.
  - intros H. injection H as <-. exact Hs.
  - destruct (body i0 x s) as [s1 | e | p] eqn:Hb; simpl; try discriminate.
    apply IH. eapply Hbody; eauto.
Qed.

Lemma topK_is_prefix (results rs : list SearchResult) (k : Z) :
  topK results k = Ret rs -> exists n, rs = take n results.
Proof.
  unfold topK, Slice.prefix.
  destruct (_ && _); [| discriminate].
  intros H. injection H as <-. eauto.
Qed.

(** Whatever the state of the index, [SearchWithFilter] returns only
    results whose id the filter accepts. *)
Lemma SearchWithFilter_accepted (HS : SortContract R) (vi : VectorIndex)
    (query : list F32.t) (k : Z) (filter : string -> bool)
    (rs : list SearchResult) :
  SearchWithFilter vi query k filter = Ret rs ->
  Forall (fun r => filter (ID r) = true) rs.
Proof.
  unfold SearchWithFilter.
  destruct (GoInt.len (Vectors vi) =? 0).
  - intros H. injection H as <-. constructor.
  - destruct (Slice.for_range _ (Vectors vi) []) as [results | e | p] eqn:Hloop;
      cbn [obind]; try discriminate.
    intros Htop. apply topK_is_prefix in Htop as [n ->].
    apply Forall_take.
    eapply Permutation_Forall; [symmetry; apply sort_Slice_perm |].
    unfold Slice.for_range in Hloop.
    revert Hloop.
    apply (range_from_preserves (Forall (fun r => filter (ID r) = true)));
      [| constructor].
    intros i vec st st' Hst.
    destruct (Slice.get (IDs vi) i) as [id | e | p]; cbn [obind]; try discriminate.
    destruct (filter id) eqn:Hf; simpl; intros H; injection H as <-.
    + apply Forall_app. split; [exact Hst |].
      apply Forall_singleton. exact Hf.
    + exact Hst.
Qed.

(** A filter on the book accepts an id only through its entry of the
    lookup table, and only when the book of that entry folds to the
    requested one. *)
Lemma filterFunc_book (options : SearchOptions) (lookup : gmap string TextData)
    (id : string) :
  opt_Book options <> "" ->
  filterFunc options lookup id = true ->
  exists text,
    lookup !! id = Some text
    /\ strings_EqualFold (Book (Meta text)) (opt_Book options) = true.
Proof.
  intros Hbook. unfold filterFunc.
  destruct (String.eqb_spec (opt_Book options) "") as [Heq | _]; [contradiction |].
  simpl. destruct (lookup !! id) as [text |]; [| discriminate].
  destruct (strings_EqualFold (Book (Meta text)) (opt_Book options)) eqn:Hfold;
    simpl; [eauto | discriminate].
Qed.

Lemma filterFunc_absent (options : SearchOptions) (lookup : gmap string TextData)
    (id : string) :
  opt_Book options = "" -> opt_Chapter options = "" ->
  filterFunc options lookup id = true.
Proof.
  intros Hb Hc. unfold filterFunc. rewrite Hb, Hc. reflexivity.
Qed.

(** C6.  With a book requested, every result that [SearchService.Search]
    returns carries the metadata of a lookup entry whose book equals the
    requested one up to case (as [strings.EqualFold] decides); entries of
    other books are left out whatever their similarity.  Without book and
    chapter the filter accepts every id. *)
Theorem Service_Search_book_filter (HS : SortContract R) (s : SearchService)
    (query : string) (options : SearchOptions) (rs : list SearchResult) :
  Service_Search s query options = Ret rs ->
  (opt_Book options <> "" ->
   Forall (fun r =>
             strings_EqualFold (Book (chunk_Meta (Chunk r))) (opt_Book options)
             = true) rs)
  /\ (opt_Book options = "" -> opt_Chapter options = "" ->
      forall lookup id, filterFunc (withDefaults options) lookup id = true).
Proof.
  intros Hret. split; [| intros Hb Hc lookup id; now apply filterFunc_absent].
  intros Hbook. revert Hret. unfold Service_Search.
  destruct (String.eqb query ""); [intros H; injection H as <-; constructor |].
  destruct (negb (isLoaded s _)); [discriminate |].
  destruct (indices s !! _) as [index |]; [| discriminate].
  destruct (embeddings.EmbedQuery _ query) as [queryEmbedding | e | p];
    try discriminate.
  destruct (SearchWithFilter index queryEmbedding _ _) as [srs | e | p] eqn:Hsearch;
    cbn [obind]; try discriminate.
  intros H. injection H as <-.
  apply SearchWithFilter_accepted in Hsearch; [| exact HS].
  apply Forall_map. eapply Forall_impl; [exact Hsearch |].
  intros sr Hacc.
  apply filterFunc_book in Hacc as (text & Htext & Hfold); [| exact Hbook].
  unfold compose, joinText, withDefaults in *.
  cbn [Chunk chunk_Meta opt_Granularity opt_Book] in *.
  rewrite Htext. exact Hfold.
Qed.

(** [SearchService.Search] does return once the granularity is loaded
    with a well-formed index and the count is not negative. *)
Lemma Service_Search_returns (HS : SortContract R) (s : SearchService)
    (query : string) (options : SearchOptions) (index : VectorIndex) :
  isLoaded s (opt_Granularity (withDefaults options)) = true ->
  indices s !! opt_Granularity (withDefaults options) = Some index ->
  wf_index index -> 0 <= opt_K (withDefaults options) ->
  exists rs, Service_Search s query options = Ret rs.
Proof.
  intros Hloaded Hindex Hwf Hk. unfold Service_Search.
  destruct (String.eqb query ""); [eauto |].
  rewrite Hloaded, Hindex. simpl negb. cbv iota.
  destruct (EmbedQuery_returns (svc_embeddings s) query) as (v & Hv & _).
  rewrite Hv.
  destruct (SearchWithFilter_length HS index v (opt_K (withDefaults options))
              (filterFunc (withDefaults options)
                 (default ∅ (textLookup s !! opt_Granularity (withDefaults options))))
              Hwf Hk) as (srs & Hsrs & _).
  rewrite Hsrs. cbn [obind]. eauto.
Qed.

End Filters.


(* ================================================================= *)
(** * Runs on examples *)

Section Runs.

Import search Fixtures.

(** The three-entry scenario: the two best of [A], [B], [C] for the
    query [[1, 0]] are [A] and [C], in this order. *)
Lemma SearchWithFilter_descending_witness :
  wf_index indexABC
  /\ 0 <= 2
  /\ no_nan (eligible indexABC queryABC (fun _ => true))
  /\ exists rs,
       SearchWithFilter (R := testRuntime) indexABC queryABC 2 (fun _ => true)
       = Ret rs
       /\ List.map ID rs = ["A"; "C"]
       /\ descending rs.
Proof.
  assert (Hwf : wf_index indexABC) by reflexivity.
  assert (Hk : 0 <= 2) by lia.
  assert (Hnn : no_nan (eligible indexABC queryABC (fun _ => true)))
    by (vm_compute; repeat constructor).
  split; [exact Hwf |]. split; [exact Hk |]. split; [exact Hnn |].
  destruct (SearchWithFilter_descending (R := testRuntime) testRuntime_sorts
              indexABC queryABC 2 (fun _ => true) Hwf Hk Hnn)
    as (_ & rs & sorted & Hrs & _ & _ & Hdesc).
  exists rs. split; [exact Hrs |]. split; [| exact Hdesc].
  vm_compute in Hrs. injection Hrs as <-. reflexivity.
Defined.

(** C2 (counterexample).  With the library's own sorting algorithm, a
    search over thirteen entries of which only [e06] is similar to the
    query returns the twelve others, all of similarity 0, in an order that
    is not the order of insertion: [e03] and [e02] come before [e00].
    And over three entries, one of which overflows to a NaN similarity,
    the result [a (0), b (NaN), c (1)] is not in descending order.  In
    both runs the sort comes to its end. *)
Lemma Search_order_counterexample :
  (exists rs,
      Search (R := goRuntime) index13 query13 13 = Ret rs
      /\ GoSort.Slice bySimilarity (eligible index13 query13 (fun _ => true))
         = Some rs
      /\ List.map ID rs
         = ["e06"; "e03"; "e02"; "e00"; "e04"; "e05"; "e01"; "e07"; "e08";
            "e09"; "e10"; "e11"; "e12"]
      /\ tiesInInsertionOrder (IDs index13) rs = false)
  /\ (exists rs,
         Search (R := goRuntime) indexOverflow queryOverflow 3 = Ret rs
         /\ GoSort.Slice bySimilarity
              (eligible indexOverflow queryOverflow (fun _ => true))
            = Some rs
         /\ List.map ID rs = ["a"; "b"; "c"]
         /\ ~ descending rs).
Proof.
  split.
  - eexists. split; [vm_compute; reflexivity |].
    split; [vm_compute; reflexivity |].
    split; vm_compute; reflexivity.
  - eexists. split; [vm_compute; reflexivity |].
    split; [vm_compute; reflexivity |].
    split; [vm_compute; reflexivity |].
    intros Hdesc.
    specialize (Hdesc 0%nat 2%nat _ _ (Nat.lt_0_succ 1) eq_refl eq_refl).
    vm_compute in Hdesc. discriminate.
Qed.

(** The contract of [sort.Slice] by itself leaves the order of ties
    open: a routine that meets it returns two entries of equal similarity
    in the reverse of their insertion order. *)
Lemma ties_not_fixed_by_contract :
  SortContract reversingRuntime
  /\ exists rs,
       Search (R := reversingRuntime)
         (Add (Add NewVectorIndex "first" [f 0; f 1]) "second" [f 0; f 1])
         [f 1; f 0] 2 = Ret rs
       /\ List.map ID rs = ["second"; "first"]
       /\ List.map Similarity rs = [F32.zero; F32.zero].
Proof.
  split; [exact reversingRuntime_sorts |].
  eexists. split; [vm_compute; reflexivity |].
  split; vm_compute; reflexivity.
Qed.

(** C5 (counterexample).  [Add] accepts a vector of one component: the
    index then holds a vector that has not [config.Dimensions]
    components. *)
Lemma Add_accepts_other_dimension :
  Size (Add NewVectorIndex "x" [F32.of_Z 1]) = 1
  /\ ~ allDimensioned (Add NewVectorIndex "x" [F32.of_Z 1]).
Proof.
  split; [reflexivity |].
  intros H. unfold allDimensioned in H. simpl in H.
  apply Forall_inv in H. vm_compute in H. discriminate.
Qed.

(** A load of the verse granularity from a two-verse corpus: the first
    call creates the cache directory and fetches both payloads, the second
    changes nothing. *)
Lemma PreloadGranularity_idempotent_witness :
  firstLoad = (fst firstLoad, Ret tt)
  /\ List.length (trace (fst firstLoad)) = 3%nat
  /\ PreloadGranularity (R := testRuntime) (E := net) (fst firstLoad) "verse"
     = (fst firstLoad, Ret tt).
Proof.
  assert (Hfirst : firstLoad = (fst firstLoad, Ret tt)).
  { rewrite (surjective_pairing firstLoad) at 1.
    replace (snd firstLoad) with (@Ret unit tt) by (vm_compute; reflexivity).
    reflexivity. }
  split; [exact Hfirst |]. split; [vm_compute; reflexivity |].
  exact (PreloadGranularity_idempotent (R := testRuntime) (E := net)
           service0 (fst firstLoad) "verse" Hfirst).
Defined.

(** A load whose embedding payload has no ["embeddings"] list succeeds
    with an empty index; the status request that follows panics. *)
Lemma GetMemoryUsage_panics_on_empty_index_witness :
  snd emptyLoad = Ret tt
  /\ indices (fst emptyLoad) !! "verse" = Some NewVectorIndex
  /\ Size NewVectorIndex = 0
  /\ GetMemoryUsage NewVectorIndex = Panic "index out of range"
  /\ GetStatus (R := testRuntime) (fst emptyLoad) = Panic "index out of range".
Proof.
  assert (Hidx : indices (fst emptyLoad) !! "verse" = Some NewVectorIndex)
    by (vm_compute; reflexivity).
  assert (Hsz : Size NewVectorIndex = 0) by reflexivity.
  split; [vm_compute; reflexivity |].
  split; [exact Hidx |]. split; [exact Hsz |].
  exact (GetMemoryUsage_panics_on_empty_index (R := testRuntime)
           testRuntime_ranges (fst emptyLoad) "verse" NewVectorIndex Hidx Hsz).
Defined.

(** The corpus of John 3:16 and Matthew 5:3, loaded as chapters and
    searched with the book ["john"]: the only result is the entry of
    John. *)
Lemma Service_Search_book_filter_witness :
  exists rs,
    Service_Search (R := testRuntime) (E := net) (fst chapterLoad) "love"
      (bookOptions "john")
    = Ret rs
    /\ opt_Book (bookOptions "john") <> ""
    /\ List.map ID rs = ["John 3:16"]
    /\ Forall (fun r =>
                 strings_EqualFold (GoRuntime := testRuntime)
                   (Book (chunk_Meta (Chunk r))) "john" = true) rs.
Proof.
  assert (Hbook : opt_Book (bookOptions "john") <> "") by discriminate.
  destruct (Service_Search (R := testRuntime) (E := net) (fst chapterLoad) "love"
              (bookOptions "john")) as [rs | e | p] eqn:Hrs.
  - exists rs. split; [reflexivity |]. split; [exact Hbook |].
    split.
    + vm_compute in Hrs. injection Hrs as <-. reflexivity.
    + exact (proj1 (Service_Search_book_filter (R := testRuntime) (E := net)
                      testRuntime_sorts (fst chapterLoad) "love"
                      (bookOptions "john") rs Hrs) Hbook).
  - vm_compute in Hrs. discriminate.
  - vm_compute in Hrs. discriminate.
Defined.

End Runs.

(* ================================================================= *)
(** * Further properties *)

(** ** The storage format of embeddings *)

Section StorageFormat.

Import embeddings.

Lemma digits2_bounds (m : positive) :
  2 ^ (Zpos (digits2_pos m) - 1) <= Zpos m < 2 ^ Zpos (digits2_pos m).
Proof.
  induction m as [m IH | m IH |]; simpl digits2_pos.
  - rewrite Pos2Z.inj_succ.
    replace (Z.succ (Zpos (digits2_pos m)) - 1) with (Z.succ (Zpos (digits2_pos m) - 1)) by lia.
    rewrite !Z.pow_succ_r by lia. lia.
  - rewrite Pos2Z.inj_succ.
    replace (Z.succ (Zpos (digits2_pos m)) - 1) with (Z.succ (Zpos (digits2_pos m) - 1)) by lia.
    rewrite !Z.pow_succ_r by lia. lia.
  - simpl. lia.
Qed.

(** A finite value of the format is normal, with a mantissa of 24 bits,
    or subnormal, with the least exponent. *)
Lemma bounded_cases (m : positive) (e : Z) :
  bounded 24 128 m e = true ->
  (8388608 <= Zpos m < 16777216 /\ -149 <= e <= 104)
  \/ (Zpos m < 8388608 /\ e = -149).
Proof.
  unfold bounded, canonical_mantissa, fexp, emin. intros H.
  apply andb_true_iff in H as [Hc He].
  apply Z.eqb_eq in Hc. apply Z.leb_le in He.
  pose proof (digits2_bounds m) as Hd.
  set (d := Zpos (digits2_pos m)) in *.
  assert (Hdpos : 1 <= d) by (unfold d; lia).
  destruct (Z.max_spec (d + e - 24) (3 - 128 - 24)) as [[Hlt Hmax] | [Hge Hmax]];
    rewrite Hmax in Hc.
  - right. split; [| lia].
    assert (d <= 23) by lia.
    assert (2 ^ d <= 2 ^ 23) by (apply Z.pow_le_mono_r; lia).
    change (2 ^ 23) with 8388608 in *. lia.
  - left. assert (d = 24) by lia.
    replace d with 24 in Hd by lia.
    change (2 ^ (24 - 1)) with 8388608 in Hd.
    change (2 ^ 24) with 16777216 in Hd. lia.
Qed.

Lemma frombits_fields (s : bool) (E f : Z) :
  0 <= E < 256 -> 0 <= f < 8388608 ->
  let b := (if s then 2 ^ 31 else 0) + (E * 2 ^ 23 + f) in
  Z.odd (Z.shiftr b 31) = s
  /\ Z.shiftr b 23 mod 256 = E
  /\ b mod 2 ^ 23 = f.
Proof.
  intros HE Hf b. unfold b.
  rewrite !Z.shiftr_div_pow2 by lia.
  change (2 ^ 31) with 2147483648. change (2 ^ 23) with 8388608.
  destruct s.
  - replace ((2147483648 + (E * 8388608 + f)) / 2147483648) with 1
      by (apply Z.div_unique with (r := E * 8388608 + f); lia).
    repeat split.
    + replace ((2147483648 + (E * 8388608 + f)) / 8388608) with (256 + E)
        by (apply Z.div_unique with (r := f); lia).
      symmetry. apply Z.mod_unique with (q := 1); lia.
    + symmetry. apply Z.mod_unique with (q := 256 + E); lia.
  - replace ((0 + (E * 8388608 + f)) / 2147483648) with 0
      by (apply Z.div_unique with (r := E * 8388608 + f); lia).
    repeat split.
    + replace ((0 + (E * 8388608 + f)) / 8388608) with E
        by (apply Z.div_unique with (r := f); lia).
      apply Z.mod_small. lia.
    + symmetry. apply Z.mod_unique with (q := E); lia.
Qed.

Lemma Float32bits_range (x : F32.t) :
  valid_binary 24 128 x = true -> 0 <= Bits.Float32bits x < 2 ^ 32.
Proof.
  change (2 ^ 32) with 4294967296. unfold Bits.Float32bits.
  change (2 ^ 31) with 2147483648. change (2 ^ 23) with 8388608.
  destruct x as [s | s | | s m e]; intros Hv.
  - destruct s; lia.
  - destruct s; lia.
  - lia.
  - simpl in Hv. apply bounded_cases in Hv as [[Hm He] | [Hm He]].
    + replace (Zpos m <? 8388608) with false by (symmetry; apply Z.ltb_ge; lia).
      destruct s; lia.
    + replace (Zpos m <? 8388608) with true by (symmetry; apply Z.ltb_lt; lia).
      destruct s; lia.
Qed.

Lemma Float32frombits_bits (x : F32.t) :
  valid_binary 24 128 x = true ->
  Bits.Float32frombits (Bits.Float32bits x) = x.
Proof.
  destruct x as [s | s | | s m e]; intros Hv.
  - destruct s; reflexivity.
  - destruct s; reflexivity.
  - reflexivity.
  - simpl in Hv. apply bounded_cases in Hv as [[Hm He] | [Hm He]].
    + unfold Bits.Float32bits.
      change (2 ^ 23) with 8388608.
      replace (Zpos m <? 8388608) with false by (symmetry; apply Z.ltb_ge; lia).
      destruct (frombits_fields s (e + 150) (Zpos m - 8388608))
        as (Hs & HE & Hf); [lia | lia |].
      change (2 ^ 23) with 8388608 in *.
      unfold Bits.Float32frombits. cbv zeta.
      change (2 ^ 23) with 8388608.
      rewrite Hs, HE, Hf.
      replace (e + 150 =? 0) with false by (symmetry; apply Z.eqb_neq; lia).
      replace (e + 150 =? 255) with false by (symmetry; apply Z.eqb_neq; lia).
      f_equal; [| lia].
      replace (Zpos m - 8388608 + 8388608) with (Zpos m) by lia. reflexivity.
    + subst e. unfold Bits.Float32bits.
      change (2 ^ 23) with 8388608.
      replace (Zpos m <? 8388608) with true by (symmetry; apply Z.ltb_lt; lia).
      destruct (frombits_fields s 0 (Zpos m)) as (Hs & HE & Hf); [lia | lia |].
      change (2 ^ 23) with 8388608 in *.
      replace (0 * 8388608 + Zpos m) with (Zpos m) in * by lia.
      unfold Bits.Float32frombits. cbv zeta.
      change (2 ^ 23) with 8388608.
      rewrite Hs, HE, Hf.
      change (0 =? 0) with true. cbv iota.
      replace (Zpos m =? 0) with false by (symmetry; apply Z.eqb_neq; lia).
      reflexivity.
Qed.

Lemma lor_shiftl_add (a b k : Z) :
  0 <= k -> 0 <= a < 2 ^ k -> 0 <= b ->
  Z.lor a (Z.shiftl b k) = a + b * 2 ^ k.
Proof.
  intros Hk Ha Hb.
  rewrite <- Z.lxor_lor.
  - rewrite <- Z.add_nocarry_lxor; [now rewrite Z.shiftl_mul_pow2 |].
    apply Z.bits_inj'. intros n Hn. rewrite Z.land_spec, Z.bits_0.
    destruct (Z.lt_ge_cases n k) as [Hlt | Hge].
    + rewrite (Z.shiftl_spec_low b k n) by lia. apply andb_false_r.
    + rewrite <- (Z.mod_small a (2 ^ k)) by lia.
      rewrite Z.mod_pow2_bits_high by lia. reflexivity.
  - apply Z.bits_inj'. intros n Hn. rewrite Z.land_spec, Z.bits_0.
    destruct (Z.lt_ge_cases n k) as [Hlt | Hge].
    + rewrite (Z.shiftl_spec_low b k n) by lia. apply andb_false_r.
    + rewrite <- (Z.mod_small a (2 ^ k)) by lia.
      rewrite Z.mod_pow2_bits_high by lia. reflexivity.
Qed.

Lemma uint32_putUint32 (v : Z) :
  0 <= v < 2 ^ 32 ->
  Bits.uint32 (v mod 256) (Z.shiftr v 8 mod 256) (Z.shiftr v 16 mod 256)
              (Z.shiftr v 24 mod 256) = v.
Proof.
  change (2 ^ 32) with 4294967296. intros Hv. unfold Bits.uint32.
  rewrite !Z.shiftr_div_pow2 by lia.
  change (2 ^ 8) with 256. change (2 ^ 16) with 65536. change (2 ^ 24) with 16777216.
  replace (v / 65536) with (v / 256 / 256) by (rewrite Z.div_div; [reflexivity | lia | lia]).
  replace (v / 16777216) with (v / 256 / 256 / 256)
    by (rewrite !Z.div_div; [reflexivity | lia | lia | lia | lia]).
  pose proof (Z.mod_pos_bound v 256 eq_refl) as H0.
  pose proof (Z.mod_pos_bound (v / 256) 256 eq_refl) as H1.
  pose proof (Z.mod_pos_bound (v / 256 / 256) 256 eq_refl) as H2.
  pose proof (Z.mod_pos_bound (v / 256 / 256 / 256) 256 eq_refl) as H3.
  rewrite (lor_shiftl_add (v mod 256)); [| lia | exact H0 | lia].
  change (2 ^ 8) with 256.
  rewrite (lor_shiftl_add _ _ 16); [| lia | change (2 ^ 16) with 65536; lia | lia].
  change (2 ^ 16) with 65536.
  rewrite (lor_shiftl_add _ _ 24); [| lia | change (2 ^ 24) with 16777216; lia | lia].
  change (2 ^ 24) with 16777216.
  clear H0 H1 H2 H3. Z.div_mod_to_equations. lia.
Qed.

Lemma wrap64_small (z : Z) :
  - 2 ^ 63 <= z < 2 ^ 63 -> GoInt.wrap64 z = z.
Proof.
  intros Hz. unfold GoInt.wrap64.
  rewrite Z.mod_small; lia.
Qed.

Lemma SerializeEmbedding_concat (embedding : list F32.t) :
  SerializeEmbedding embedding
  = concat (List.map (fun v => Bits.putUint32 (Bits.Float32bits v)) embedding).
Proof.
  unfold SerializeEmbedding.
  assert (H : forall acc,
             fold_left (fun buf val => buf ++ Bits.putUint32 (Bits.Float32bits val))
                       embedding acc
             = acc ++ concat (List.map (fun v => Bits.putUint32 (Bits.Float32bits v))
                                       embedding)).
  { induction embedding as [| v embedding IH]; intros acc; simpl.
    - now rewrite app_nil_r.
    - rewrite IH. now rewrite <- app_assoc. }
  apply (H []).
Qed.

Lemma SerializeEmbedding_len (embedding : list F32.t) :
  GoInt.len (SerializeEmbedding embedding) = 4 * GoInt.len embedding.
Proof.
  rewrite SerializeEmbedding_concat. unfold GoInt.len.
  induction embedding as [| v embedding IH]; [reflexivity |].
  cbn [List.map concat Bits.putUint32 app List.length]. lia.
Qed.

(** Reading back what was written, value after value. *)
Lemma readFloats_written (rest : list F32.t) :
  forall (done junk : list F32.t),
    Forall (fun v => valid_binary 24 128 v = true) rest ->
    List.length junk = List.length rest ->
    readFloats (List.length rest)
      (concat (List.map (fun v => Bits.putUint32 (Bits.Float32bits v)) rest))
      (Z.of_nat (List.length done)) (done ++ junk)
    = Ret (done ++ rest).
Proof.
  induction rest as [| v rest IH]; intros done junk Hvalid Hlen.
  - destruct junk; [reflexivity | discriminate].
  - destruct junk as [| j junk]; [discriminate |].
    apply Forall_cons in Hvalid as [Hv Hvalid].
    cbn [List.length List.map concat readFloats Bits.putUint32 app].
    rewrite uint32_putUint32 by (now apply Float32bits_range).
    rewrite Float32frombits_bits by exact Hv.
    rewrite Slice_set_nat by (rewrite length_app; simpl; lia).
    cbn [obind].
    rewrite insert_app_r_alt by lia.
    rewrite Nat.sub_diag. cbn [insert list_insert].
    replace (Z.of_nat (List.length done) + 1)
      with (Z.of_nat (List.length (done ++ [v])))
      by (rewrite length_app; simpl; lia).
    replace (done ++ v :: junk) with ((done ++ [v]) ++ junk)
      by (now rewrite <- app_assoc).
    rewrite IH by (auto; simpl in Hlen; lia).
    now rewrite <- app_assoc.
Qed.

(** X1.  What [SerializeEmbedding] writes, [DeserializeEmbedding] reads
    back: four bytes per component, and for a vector of values of the
    binary32 format, asked for with its own length, the very same
    vector. *)
Theorem DeserializeEmbedding_SerializeEmbedding (embedding : list F32.t) :
  Forall (fun v => valid_binary 24 128 v = true) embedding ->
  GoInt.len embedding <= maxFloat32s ->
  GoInt.len (SerializeEmbedding embedding) = 4 * GoInt.len embedding
  /\ DeserializeEmbedding (SerializeEmbedding embedding) (GoInt.len embedding)
     = Ret embedding.
Proof.
  intros Hvalid Hmax. split; [apply SerializeEmbedding_len |].
  unfold DeserializeEmbedding. unfold maxFloat32s in *.
  pose proof (len_nonneg embedding) as Hnn.
  rewrite SerializeEmbedding_len.
  unfold GoInt.mul. rewrite wrap64_small by lia.
  replace (4 * GoInt.len embedding =? GoInt.len embedding * 4) with true
    by (symmetry; apply Z.eqb_eq; lia).
  replace (GoInt.len embedding <? 0) with false by (symmetry; apply Z.ltb_ge; lia).
  replace (GoInt.len embedding >? 2 ^ 46) with false
    by (symmetry; rewrite Z.gtb_ltb; apply Z.ltb_ge; lia).
  cbn [negb orb]. rewrite Slice_make_ok by lia. cbn [obind].
  rewrite length_replicate. unfold GoInt.len at 1 2. rewrite Nat2Z.id.
  rewrite SerializeEmbedding_concat.
  apply (readFloats_written embedding []); [exact Hvalid |].
  now rewrite length_replicate.
Qed.

Lemma DeserializeEmbedding_SerializeEmbedding_witness :
  Forall (fun v => valid_binary 24 128 v = true) Examples.stored
  /\ GoInt.len Examples.stored <= maxFloat32s
  /\ GoInt.len (SerializeEmbedding Examples.stored) = 28
  /\ DeserializeEmbedding (SerializeEmbedding Examples.stored) 7
     = Ret Examples.stored.
Proof.
  assert (Hvalid : Forall (fun v => valid_binary 24 128 v = true) Examples.stored)
    by (repeat (constructor; [vm_compute; reflexivity |]); constructor).
  assert (Hmax : GoInt.len Examples.stored <= maxFloat32s)
    by (vm_compute; discriminate).
  split; [exact Hvalid |]. split; [exact Hmax |].
  exact (DeserializeEmbedding_SerializeEmbedding Examples.stored Hvalid Hmax).
Defined.

Lemma readFloats_enough (n : nat) :
  forall (buf : list Z) (i : nat) (embedding : list F32.t),
    List.length buf = (4 * n)%nat -> (i + n <= List.length embedding)%nat ->
    exists v, readFloats n buf (Z.of_nat i) embedding = Ret v
              /\ List.length v = List.length embedding.
Proof.
  induction n as [| n IH]; intros buf i embedding Hbuf Hi.
  - simpl. eauto.
  - destruct buf as [| b0 [| b1 [| b2 [| b3 rest]]]]; try (simpl in Hbuf; lia).
    cbn [readFloats]. rewrite Slice_set_nat by lia. cbn [obind].
    replace (Z.of_nat i + 1) with (Z.of_nat (S i)) by lia.
    destruct (IH rest (S i) (<[i := Bits.Float32frombits (Bits.uint32 b0 b1 b2 b3)]> embedding))
      as (v & Hv & Hlen).
    + simpl in Hbuf. lia.
    + rewrite length_insert. lia.
    + exists v. split; [exact Hv |]. now rewrite Hlen, length_insert.
Qed.

(** X2.  The size test is the only way [DeserializeEmbedding] fails: data
    of any other length than four bytes per dimension is refused, data of
    that length always gives a vector of [dimensions] components. *)
Theorem DeserializeEmbedding_size (data : list Z) (dimensions : Z) :
  0 <= dimensions <= maxFloat32s ->
  (GoInt.len data <> 4 * dimensions ->
   DeserializeEmbedding data dimensions = Err "invalid embedding data size")
  /\ (GoInt.len data = 4 * dimensions ->
      exists v, DeserializeEmbedding data dimensions = Ret v
                /\ GoInt.len v = dimensions).
Proof.
  unfold maxFloat32s. intros Hd. unfold DeserializeEmbedding.
  unfold GoInt.mul. rewrite wrap64_small by lia.
  split; intros Hlen.
  - replace (GoInt.len data =? dimensions * 4) with false
      by (symmetry; apply Z.eqb_neq; lia).
    reflexivity.
  - replace (GoInt.len data =? dimensions * 4) with true
      by (symmetry; apply Z.eqb_eq; lia).
    replace (dimensions <? 0) with false by (symmetry; apply Z.ltb_ge; lia).
    replace (dimensions >? maxFloat32s) with false
      by (symmetry; rewrite Z.gtb_ltb; apply Z.ltb_ge; unfold maxFloat32s; lia).
    cbn [negb orb]. rewrite Slice_make_ok by lia. cbn [obind].
    rewrite length_replicate.
    destruct (readFloats_enough (Z.to_nat dimensions) data 0
                (replicate (Z.to_nat dimensions) F32.zero)) as (v & Hv & Hlenv).
    + unfold GoInt.len in Hlen. lia.
    + rewrite length_replicate. lia.
    + exists v. split; [exact Hv |].
      unfold GoInt.len. rewrite Hlenv, length_replicate. lia.
Qed.

Lemma DeserializeEmbedding_size_witness :
  0 <= 2 <= maxFloat32s
  /\ DeserializeEmbedding [0; 0; 128; 63; 0; 0; 0] 2
     = Err "invalid embedding data size"
  /\ exists v, DeserializeEmbedding [0; 0; 128; 63; 0; 0; 0; 192] 2 = Ret v
               /\ GoInt.len v = 2.
Proof.
  assert (Hd : 0 <= 2 <= maxFloat32s) by (vm_compute; split; discriminate).
  split; [exact Hd |]. split.
  - apply (proj1 (DeserializeEmbedding_size [0; 0; 128; 63; 0; 0; 0] 2 Hd)).
    vm_compute. discriminate.
  - apply (proj2 (DeserializeEmbedding_size [0; 0; 128; 63; 0; 0; 0; 192] 2 Hd)).
    reflexivity.
Defined.

End StorageFormat.

(** ** The similarity measure *)

Section Similarity.

Import search.

Lemma SFmul_comm (prec emax : Z) (x y : spec_float) :
  SFmul prec emax x y = SFmul prec emax y x.
Proof.
  destruct x as [sx | sx | | sx mx ex], y as [sy | sy | | sy my ey]; simpl;
    try reflexivity; try (now rewrite xorb_comm).
  now rewrite xorb_comm, Pos.mul_comm, Z.add_comm.
Qed.

(** The three sums of [cosineSimilarity], with the roles of the two
    vectors exchanged. *)
Lemma cosine_sums_swap (a : list F32.t) :
  forall (b : list F32.t) (dot normA normB : F32.t),
    fold_left
      (fun (acc : F32.t * F32.t * F32.t) (ab : F32.t * F32.t) =>
         let '(dotProduct, normA, normB) := acc in
         let '(ai, bi) := ab in
         (F32.add dotProduct (F32.mul ai bi),
          F32.add normA (F32.mul ai ai),
          F32.add normB (F32.mul bi bi)))
      (combine b a) (dot, normB, normA)
    = let '(dotProduct, normA, normB) :=
        fold_left
          (fun (acc : F32.t * F32.t * F32.t) (ab : F32.t * F32.t) =>
             let '(dotProduct, normA, normB) := acc in
             let '(ai, bi) := ab in
             (F32.add dotProduct (F32.mul ai bi),
              F32.add normA (F32.mul ai ai),
              F32.add normB (F32.mul bi bi)))
          (combine a b) (dot, normA, normB) in
      (dotProduct, normB, normA).
Proof.
  induction a as [| ai a IH]; intros b dot normA normB.
  - destruct b; reflexivity.
  - destruct b as [| bi b]; [reflexivity |].
    cbn [combine fold_left].
    replace (F32.mul bi ai) with (F32.mul ai bi) by apply SFmul_comm.
    apply IH.
Qed.

(** X3.  [cosineSimilarity] is symmetric, bit for bit: the products
    commute and the sums are taken in the same order. *)
Theorem cosineSimilarity_symmetric (a b : list F32.t) :
  cosineSimilarity a b = cosineSimilarity b a.
Proof.
  unfold cosineSimilarity. rewrite (Z.eqb_sym (GoInt.len b)).
  destruct (GoInt.len a =? GoInt.len b); [| reflexivity]. cbn [negb].
  rewrite (cosine_sums_swap a b F32.zero F32.zero F32.zero).
  destruct (fold_left _ (combine a b) _) as [[dot normA] normB].
  unfold F64.mul. rewrite (SFmul_comm F64.prec F64.emax (F64.sqrt (F64.of_f32 normB))).
  reflexivity.
Qed.

End Similarity.

(** ** What a search returns *)

Section SearchResults.

Import search.

Context {R : GoRuntime}.

Lemma eligible_length (query : list F32.t) (filter : string -> bool)
    (ids : list string) :
  forall vecs : list (list F32.t),
    List.length ids = List.length vecs ->
    List.length
      (omap (fun iv : string * list F32.t =>
               if filter (fst iv)
               then Some (mkResult (fst iv) (cosineSimilarity query (snd iv)))
               else None)
            (combine ids vecs))
    = List.length (List.filter filter ids).
Proof.
  induction ids as [| id ids IH]; intros vecs Hlen; [reflexivity |].
  destruct vecs as [| v vecs]; [discriminate |].
  cbn [combine omap list_omap List.filter fst snd].
  destruct (filter id); simpl; rewrite IH by (simpl in Hlen; lia); reflexivity.
Qed.

Lemma filter_all {A : Type} (l : list A) : List.filter (fun _ => true) l = l.
Proof. induction l as [| x l IH]; simpl; congruence. Qed.

(** X4.  For a count that is not negative, the filtered search returns as
    many results as the count and the number of accepted ids allow, and
    the plain search as many as the count and the size of the index
    allow. *)
Theorem search_result_count (HS : SortContract R) (vi : VectorIndex)
    (query : list F32.t) (k : Z) (filter : string -> bool) :
  wf_index vi -> 0 <= k ->
  (exists rs,
      SearchWithFilter vi query k filter = Ret rs
      /\ GoInt.len rs = Z.min k (GoInt.len (List.filter filter (IDs vi))))
  /\ (exists rs,
         Search vi query k = Ret rs /\ GoInt.len rs = Z.min k (Size vi)).
Proof.
  intros Hwf Hk.
  assert (Hcount : forall flt,
    exists rs,
      SearchWithFilter vi query k flt = Ret rs
      /\ GoInt.len rs = Z.min k (GoInt.len (List.filter flt (IDs vi)))).
  { intros flt. rewrite SearchWithFilter_unfold by exact Hwf.
    destruct (GoInt.len (Vectors vi) =? 0) eqn:Hlen.
    - exists []. split; [reflexivity |].
      apply len_zero_nil in Hlen. unfold wf_index in Hwf. rewrite Hlen in Hwf.
      destruct (IDs vi); [| discriminate]. simpl. unfold GoInt.len. simpl. lia.
    - rewrite topK_ok by exact Hk. eexists. split; [reflexivity |].
      unfold GoInt.len. rewrite length_take.
      rewrite (Permutation_length (sort_Slice_perm _ bySimilarity _)).
      unfold eligible. rewrite eligible_length by exact Hwf. lia. }
  split; [apply Hcount |].
  rewrite Search_as_filter.
  destruct (Hcount (fun _ => true)) as (rs & Hrs & Hlen).
  exists rs. split; [exact Hrs |]. rewrite Hlen.
  rewrite filter_all. unfold Size, GoInt.len. now rewrite <- Hwf.
Qed.


Lemma combine_lookup {A B : Type} (l1 : list A) :
  forall (l2 : list B) (x : A) (y : B),
    In (x, y) (combine l1 l2) ->
    exists i : nat, l1 !! i = Some x /\ l2 !! i = Some y.
Proof.
  induction l1 as [| a l1 IH]; intros l2 x y Hin; [destruct Hin |].
  destruct l2 as [| b l2]; [destruct Hin |].
  destruct Hin as [Heq | Hin].
  - injection Heq as -> ->. exists 0%nat. split; reflexivity.
  - destruct (IH l2 x y Hin) as (i & H1 & H2). exists (S i). split; assumption.
Qed.

(** What an eligible entry is: an accepted id of the index with the
    similarity of its vector. *)
Lemma eligible_entries (vi : VectorIndex) (query : list F32.t)
    (filter : string -> bool) (r : SearchResult) :
  In r (eligible vi query filter) ->
  filter (ID r) = true /\ Score r = Similarity r /\ Chunk r = zero_ChunkData
  /\ exists (i : nat) (v : list F32.t),
       IDs vi !! i = Some (ID r) /\ Vectors vi !! i = Some v
       /\ Similarity r = cosineSimilarity query v.
Proof.
  unfold eligible. intros Hin. apply list_elem_of_In in Hin.
  apply list_elem_of_omap in Hin as ([id v] & Hiv & Hr).
  cbn [fst snd] in Hr. destruct (filter id) eqn:Hf; [| discriminate].
  injection Hr as <-. cbn [ID Score Similarity Chunk mkResult].
  split; [exact Hf |]. split; [reflexivity |]. split; [reflexivity |].
  apply list_elem_of_In in Hiv.
  destruct (combine_lookup _ _ _ _ Hiv) as (i & Hi & Hv). eauto.
Qed.

(** X6.  Every result of a search is an entry of the index: its id stands
    in the index, the filter accepts it, its similarity is the cosine
    similarity of the query and the vector stored with the id, the score
    repeats the similarity, and no text is attached yet. *)
Theorem SearchWithFilter_sound (HS : SortContract R) (vi : VectorIndex)
    (query : list F32.t) (k : Z) (filter : string -> bool)
    (rs : list SearchResult) :
  wf_index vi ->
  SearchWithFilter vi query k filter = Ret rs ->
  Forall
    (fun r =>
       filter (ID r) = true /\ Score r = Similarity r /\ Chunk r = zero_ChunkData
       /\ exists (i : nat) (v : list F32.t),
            IDs vi !! i = Some (ID r) /\ Vectors vi !! i = Some v
            /\ Similarity r = cosineSimilarity query v)
    rs.
Proof.
  intros Hwf. rewrite SearchWithFilter_unfold by exact Hwf.
  destruct (GoInt.len (Vectors vi) =? 0).
  - intros H. injection H as <-. constructor.
  - intros Htop. apply topK_is_prefix in Htop as [n ->].
    apply Forall_take.
    eapply Permutation_Forall; [symmetry; apply sort_Slice_perm |].
    apply Forall_forall. intros r Hr. apply eligible_entries.
    now apply list_elem_of_In.
Qed.


(** X7.  The results are the best: for a count that is not negative and
    similarities that are not NaN, the eligible entries split into the
    results and the rest, every entry once, and no entry of the rest is
    more similar to the query than a result. *)
Theorem SearchWithFilter_best (HS : SortContract R) (vi : VectorIndex)
    (query : list F32.t) (k : Z) (filter : string -> bool) :
  wf_index vi -> 0 <= k -> no_nan (eligible vi query filter) ->
  exists rs rest,
    SearchWithFilter vi query k filter = Ret rs
    /\ Permutation (rs ++ rest) (eligible vi query filter)
    /\ forall r r', In r rs -> In r' rest ->
         SFleb (Similarity r') (Similarity r) = true.
Proof.
  intros Hwf Hk Hnn. rewrite SearchWithFilter_unfold by exact Hwf.
  destruct (GoInt.len (Vectors vi) =? 0) eqn:Hlen.
  - exists [], []. rewrite eligible_empty by (now apply len_zero_nil).
    split; [reflexivity |]. split; [reflexivity |]. intros r r' [].
  - rewrite topK_ok by exact Hk.
    set (sorted := sort_Slice SearchResult bySimilarity (eligible vi query filter)).
    exists (take (Z.to_nat k) sorted), (drop (Z.to_nat k) sorted).
    split; [reflexivity |]. split.
    + rewrite take_drop. apply sort_Slice_perm.
    + assert (Hdesc : descending sorted).
      { apply (descending_of_sorted (eligible vi query filter)); [exact Hnn | |].
        - intros r Hr. eapply Permutation_in; [apply sort_Slice_perm | exact Hr].
        - apply sort_Slice_sorted. now apply bySimilarity_strict_weak. }
      intros r r' Hr Hr'.
      apply list_elem_of_In, list_elem_of_lookup in Hr as [i Hi].
      apply list_elem_of_In, list_elem_of_lookup in Hr' as [j Hj].
      apply lookup_take_Some in Hi as [Hi Hik].
      rewrite lookup_drop in Hj.
      apply (Hdesc i (Z.to_nat k + j)%nat r r'); [lia | exact Hi | exact Hj].
Qed.


Lemma dequantizeVector_total (quantized : list Z) (scale : F32.t) :
  exists vec, dequantizeVector quantized scale = Ret vec
              /\ List.length vec = List.length quantized.
Proof.
  unfold dequantizeVector.
  rewrite Slice_make_ok by apply len_nonneg. cbn [obind].
  destruct (store_loop
              (fun _ q _ => F32.mul (F32.add (F32.of_Z q) (F32.of_Z 128)) scale)
              quantized (replicate (Z.to_nat (GoInt.len quantized)) F32.zero))
    as (st & Hst & Hlen).
  - rewrite length_replicate. unfold GoInt.len. lia.
  - exists st. split; [exact Hst |].
    rewrite Hlen, length_replicate. unfold GoInt.len. lia.
Qed.

Lemma quantized_loop_total (query : list F32.t) (qvecs : list QuantizedVector) :
  forall acc : list SearchResult,
  exists results,
    Slice.for_range
      (fun (_ : Z) qvec results =>
         let* vec := dequantizeVector (Quantized qvec) (Scale qvec) in
         let similarity := cosineSimilarity query vec in
         Ret (results ++ [mkResult (qv_ID qvec) similarity]))
      qvecs acc = Ret results
    /\ List.length results = (List.length acc + List.length qvecs)%nat.
Proof.
  unfold Slice.for_range. generalize 0.
  induction qvecs as [| qvec qvecs IH]; intros i0 acc; simpl.
  - exists acc. split; [reflexivity | lia].
  - destruct (dequantizeVector_total (Quantized qvec) (Scale qvec)) as (vec & Hvec & _).
    rewrite Hvec. cbn [obind].
    destruct (IH (i0 + 1)
                (acc ++ [mkResult (qv_ID qvec) (cosineSimilarity query vec)]))
      as (results & Hres & Hlen).
    exists results. split; [exact Hres |].
    rewrite Hlen, length_app. simpl. lia.
Qed.

(** X5.  A negative count is not read as "no results": on an index that
    holds an entry each of the three searches panics at [results[:k]],
    and only the empty index answers with the empty list. *)
Theorem negative_count_panics (vi : VectorIndex) (qi : QuantizedIndex)
    (query : list F32.t) (k : Z) (filter : string -> bool) :
  wf_index vi -> k < 0 ->
  Search vi query k
    = (if Size vi =? 0 then Ret [] else Panic "slice bounds out of range")
  /\ SearchWithFilter vi query k filter
     = (if Size vi =? 0 then Ret [] else Panic "slice bounds out of range")
  /\ Quantized_Search qi query k
     = (if GoInt.len (qi_Vectors qi) =? 0 then Ret []
        else Panic "slice bounds out of range").
Proof.
  intros Hwf Hk.
  assert (Hflt : forall flt,
    SearchWithFilter vi query k flt
    = (if Size vi =? 0 then Ret [] else Panic "slice bounds out of range")).
  { intros flt. rewrite SearchWithFilter_unfold by exact Hwf. unfold Size.
    destruct (GoInt.len (Vectors vi) =? 0); [reflexivity |].
    now apply topK_negative. }
  split; [rewrite Search_as_filter; apply Hflt |]. split; [apply Hflt |].
  unfold Quantized_Search.
  destruct (GoInt.len (qi_Vectors qi) =? 0); [reflexivity |].
  destruct (quantized_loop_total query (qi_Vectors qi) []) as (results & Hres & _).
  cbv zeta in Hres. rewrite Hres. cbn [obind]. now apply topK_negative.
Qed.


End SearchResults.

(** Runs of the searches on the three-entry index. *)

Section SearchRuns.

Import search.

Lemma search_result_count_witness :
  wf_index Fixtures.indexABC /\ 0 <= 2
  /\ (exists rs,
        SearchWithFilter (R := testRuntime) Fixtures.indexABC Fixtures.queryABC 2
          (String.eqb "B") = Ret rs
        /\ GoInt.len rs = 1)
  /\ (exists rs,
        Search (R := testRuntime) Fixtures.indexABC Fixtures.queryABC 2 = Ret rs
        /\ GoInt.len rs = 2).
Proof.
  assert (Hwf : wf_index Fixtures.indexABC) by reflexivity.
  assert (Hk : 0 <= 2) by lia.
  split; [exact Hwf |]. split; [exact Hk |].
  exact (search_result_count (R := testRuntime) testRuntime_sorts
           Fixtures.indexABC Fixtures.queryABC 2 (String.eqb "B") Hwf Hk).
Defined.

Lemma SearchWithFilter_sound_witness :
  wf_index Fixtures.indexABC
  /\ exists rs,
       SearchWithFilter (R := testRuntime) Fixtures.indexABC Fixtures.queryABC 2
         (fun id => negb (String.eqb id "A")) = Ret rs
       /\ List.map ID rs = ["C"; "B"]
       /\ Forall
            (fun r =>
               negb (String.eqb (ID r) "A") = true
               /\ Score r = Similarity r /\ Chunk r = zero_ChunkData
               /\ exists (i : nat) (v : list F32.t),
                    IDs Fixtures.indexABC !! i = Some (ID r)
                    /\ Vectors Fixtures.indexABC !! i = Some v
                    /\ Similarity r = cosineSimilarity Fixtures.queryABC v)
            rs.
Proof.
  assert (Hwf : wf_index Fixtures.indexABC) by reflexivity.
  split; [exact Hwf |].
  destruct (SearchWithFilter (R := testRuntime) Fixtures.indexABC Fixtures.queryABC 2
              (fun id => negb (String.eqb id "A"))) as [rs | e | p] eqn:Hrs.
  - exists rs. split; [reflexivity |]. split.
    + vm_compute in Hrs. injection Hrs as <-. reflexivity.
    + exact (SearchWithFilter_sound (R := testRuntime) testRuntime_sorts
               Fixtures.indexABC Fixtures.queryABC 2
               (fun id => negb (String.eqb id "A")) rs Hwf Hrs).
  - vm_compute in Hrs. discriminate.
  - vm_compute in Hrs. discriminate.
Defined.

Lemma SearchWithFilter_best_witness :
  wf_index Fixtures.indexABC /\ 0 <= 2
  /\ no_nan (eligible Fixtures.indexABC Fixtures.queryABC (fun _ => true))
  /\ exists rs rest,
       SearchWithFilter (R := testRuntime) Fixtures.indexABC Fixtures.queryABC 2
         (fun _ => true) = Ret rs
       /\ Permutation (rs ++ rest)
            (eligible Fixtures.indexABC Fixtures.queryABC (fun _ => true))
       /\ forall r r', In r rs -> In r' rest ->
            SFleb (Similarity r') (Similarity r) = true.
Proof.
  assert (Hwf : wf_index Fixtures.indexABC) by reflexivity.
  assert (Hk : 0 <= 2) by lia.
  assert (Hnn : no_nan (eligible Fixtures.indexABC Fixtures.queryABC (fun _ => true)))
    by (vm_compute; repeat constructor).
  split; [exact Hwf |]. split; [exact Hk |]. split; [exact Hnn |].
  exact (SearchWithFilter_best (R := testRuntime) testRuntime_sorts
           Fixtures.indexABC Fixtures.queryABC 2 (fun _ => true) Hwf Hk Hnn).
Defined.

Lemma negative_count_panics_witness :
  wf_index Fixtures.indexABC /\ -1 < 0
  /\ Search (R := testRuntime) Fixtures.indexABC Fixtures.queryABC (-1)
     = Panic "slice bounds out of range"
  /\ Search (R := testRuntime) NewVectorIndex Fixtures.queryABC (-1) = Ret [].
Proof.
  assert (Hwf : wf_index Fixtures.indexABC) by reflexivity.
  assert (Hwf0 : wf_index NewVectorIndex) by reflexivity.
  assert (Hk : -1 < 0) by lia.
  split; [exact Hwf |]. split; [exact Hk |]. split.
  - exact (proj1 (negative_count_panics (R := testRuntime) Fixtures.indexABC NewQuantizedIndex
                    Fixtures.queryABC (-1) (fun _ => true) Hwf Hk)).
  - exact (proj1 (negative_count_panics (R := testRuntime) NewVectorIndex NewQuantizedIndex
                    Fixtures.queryABC (-1) (fun _ => true) Hwf0 Hk)).
Defined.

End SearchRuns.

(** ** Loading and the cache *)

Section Cache.

Import search.

Context {R : GoRuntime} {E : Environment}.

(** X8.  A payload is fetched once: after a call of [loadFromURL] that
    returned a value, the cache holds the value under the URL and every
    later call for the URL, compressed or not, returns it without a
    request and without a change of the service.  A call that failed
    made one request and left the cache as it was. *)
Theorem loadFromURL_caches (s : SearchService) (url : string) (compressed : bool) :
  (forall s1 v,
      loadFromURL s url compressed = (s1, Ret v) ->
      cache s1 !! url = Some v
      /\ forall c, loadFromURL s1 url c = (s1, Ret v))
  /\ (forall s1 e,
         loadFromURL s url compressed = (s1, Err e) ->
         cache s1 = cache s
         /\ trace s1 = trace s ++ [EvHttpGet url compressed]).
Proof.
  unfold loadFromURL at 1 3.
  destruct (cache s !! url) as [cached |] eqn:Hc.
  - split; [| discriminate].
    intros s1 v H. injection H as <- <-. split; [exact Hc |].
    intros c. unfold loadFromURL. now rewrite Hc.
  - destruct (http_fetch (List.length (trace s)) url compressed) as [result | e'].
    + split; [| discriminate].
      intros s1 v H. injection H as <- <-.
      split; [cbn [cache with_cache with_trace]; apply lookup_insert_eq |].
      intros c. unfold loadFromURL. cbn [cache with_cache with_trace].
      now rewrite lookup_insert_eq.
    + split; [discriminate |].
      intros s1 e H. injection H as <- <-. split; reflexivity.
Qed.

Lemma loadFromURL_sameData (s : SearchService) (url : string) (compressed : bool) :
  sameData s (fst (loadFromURL s url compressed))
  /\ keepsCache s (fst (loadFromURL s url compressed)).
Proof.
  unfold loadFromURL, sameData, keepsCache.
  destruct (cache s !! url) as [cached |] eqn:Hc; cbn [fst].
  - repeat split; auto. exists []. now rewrite app_nil_r.
  - destruct (http_fetch (List.length (trace s)) url compressed) as [result | e'];
      cbn [fst svc_embeddings svc_config indices textLookup loadedGranularities
           cache trace with_cache with_trace].
    + repeat split; eauto.
      intros u v Hu. rewrite lookup_insert_ne; [exact Hu |]. congruence.
    + repeat split; eauto.
Qed.

Lemma sameData_trans (s s1 s2 : SearchService) :
  sameData s s1 -> sameData s1 s2 -> sameData s s2.
Proof.
  unfold sameData. intros (H1 & H2 & H3 & H4 & H5) (G1 & G2 & G3 & G4 & G5).
  repeat split; congruence.
Qed.

Lemma keepsCache_trans (s s1 s2 : SearchService) :
  keepsCache s s1 -> keepsCache s1 s2 -> keepsCache s s2.
Proof.
  unfold keepsCache. intros (Hc & evs & Ht) (Hc' & evs' & Ht').
  split; [auto |]. exists (evs ++ evs'). rewrite Ht', Ht. now rewrite app_assoc.
Qed.

Lemma loadWithFallback_sameData (s : SearchService) (primaryURL fallbackURL : string) :
  sameData s (fst (loadWithFallback s primaryURL fallbackURL))
  /\ keepsCache s (fst (loadWithFallback s primaryURL fallbackURL)).
Proof.
  unfold loadWithFallback.
  destruct (loadFromURL_sameData s primaryURL true) as (Hs & Hk).
  destruct (loadFromURL s primaryURL true) as [s1 [v | e | p]]; cbn [fst] in *;
    try (split; [exact Hs | exact Hk]).
  destruct (loadFromURL_sameData s1 fallbackURL false) as (Hs' & Hk').
  split; [eapply sameData_trans; eauto | eapply keepsCache_trans; eauto].
Qed.

(** X9.  When [loadWithFallback] returns an error, both addresses were
    requested and both requests failed: the compressed one first, the
    plain one after it, and the error is that of the second.  A value
    comes from the first address that answers. *)
Theorem loadWithFallback_errors (s : SearchService)
    (primaryURL fallbackURL : string) (s1 : SearchService) (e : string) :
  loadWithFallback s primaryURL fallbackURL = (s1, Err e) ->
  trace s1 = trace s ++ [EvHttpGet primaryURL true; EvHttpGet fallbackURL false]
  /\ cache s1 = cache s
  /\ (exists e0, http_fetch (List.length (trace s)) primaryURL true = inr e0)
  /\ http_fetch (S (List.length (trace s))) fallbackURL false = inr e.
Proof.
  unfold loadWithFallback, loadFromURL.
  destruct (cache s !! primaryURL) as [cached |]; [discriminate |].
  destruct (http_fetch (List.length (trace s)) primaryURL true) as [v | e0] eqn:H0;
    [discriminate |].
  cbn [cache trace with_trace].
  destruct (cache s !! fallbackURL) as [cached |]; [discriminate |].
  rewrite length_app. cbn [List.length]. rewrite Nat.add_1_r.
  destruct (http_fetch (S (List.length (trace s))) fallbackURL false) as [v | e1] eqn:H1;
    [discriminate |].
  intros H. injection H as <- <-.
  cbn [cache trace with_trace]. rewrite <- app_assoc.
  repeat split; eauto.
Qed.

End Cache.

Section CacheRuns.

Import search.

Lemma loadFromURL_caches_witness :
  Examples.firstFetch = (fst Examples.firstFetch, Ret Fixtures.embeddingPayload)
  /\ cache (fst Examples.firstFetch) !! config.Verses
     = Some Fixtures.embeddingPayload
  /\ loadFromURL (E := Fixtures.net) (fst Examples.firstFetch) config.Verses false
     = (fst Examples.firstFetch, Ret Fixtures.embeddingPayload).
Proof.
  assert (Hfirst : Examples.firstFetch
                   = (fst Examples.firstFetch, Ret Fixtures.embeddingPayload)).
  { rewrite (surjective_pairing Examples.firstFetch) at 1.
    replace (snd Examples.firstFetch) with (Ret Fixtures.embeddingPayload)
      by (vm_compute; reflexivity).
    reflexivity. }
  split; [exact Hfirst |].
  destruct (proj1 (loadFromURL_caches (E := Fixtures.net) Fixtures.service0
                     config.Verses true)
              (fst Examples.firstFetch) Fixtures.embeddingPayload Hfirst)
    as [Hcache Hagain].
  split; [exact Hcache | exact (Hagain false)].
Defined.

Lemma loadWithFallback_errors_witness :
  Examples.failedFetch = (fst Examples.failedFetch, Err "HTTP 404")
  /\ trace (fst Examples.failedFetch)
     = [EvHttpGet "https://example.org/a.json.gz" true;
        EvHttpGet "https://example.org/a.json" false]
  /\ cache (fst Examples.failedFetch) = ∅.
Proof.
  assert (Hfailed : Examples.failedFetch
                    = (fst Examples.failedFetch, Err "HTTP 404")).
  { rewrite (surjective_pairing Examples.failedFetch) at 1.
    replace (snd Examples.failedFetch) with (@Err value "HTTP 404")
      by (vm_compute; reflexivity).
    reflexivity. }
  split; [exact Hfailed |].
  destruct (loadWithFallback_errors (E := Fixtures.net) Fixtures.service0
              "https://example.org/a.json.gz" "https://example.org/a.json"
              (fst Examples.failedFetch) "HTTP 404" Hfailed)
    as (Htrace & Hcache & _).
  split; [exact Htrace | exact Hcache].
Defined.

End CacheRuns.

(** ** States of the service *)

Section Preloading.

Import search.

Context {R : GoRuntime} {E : Environment}.

Lemma parseEmbeddings_wf (items : list value) :
  forall (index : VectorIndex) (embs : gmap string (list F32.t))
         (index' : VectorIndex) (embs' : gmap string (list F32.t)),
    wf_index index ->
    parseEmbeddings items index embs = Ret (index', embs') ->
    wf_index index'.
Proof.
  induction items as [| item items IH]; intros index embs index' embs' Hwf; simpl.
  - intros H. injection H as <- <-. exact Hwf.
  - destruct item as [| b | f | n | str | l | embedding]; try (now apply IH).
    destruct (embedding !! "id") as [[| b | f | n | id | l | m] |]; try discriminate.
    destruct (embedding !! "embedding") as [[| b | f | n | str | vecData | m] |];
      try (now apply IH).
    apply IH. now apply wf_Add.
Qed.

Lemma buildIndex_wf (embeddingData : value) (index : VectorIndex)
    (embs : gmap string (list F32.t)) :
  buildIndex embeddingData = Ret (index, embs) -> wf_index index.
Proof.
  unfold buildIndex.
  assert (Hnew : Ret (NewVectorIndex, (∅ : gmap string (list F32.t))) = Ret (index, embs)
                 -> wf_index index)
    by (intros H; injection H as <- <-; apply wf_NewVectorIndex).
  destruct embeddingData as [| b | f | n | str | l | m]; try exact Hnew.
  destruct (m !! "embeddings") as [[| b | f | n | str | l | m'] |]; try exact Hnew.
  apply parseEmbeddings_wf, wf_NewVectorIndex.
Qed.

Lemma urlsFor_known (granularity : string) :
  urlsFor granularity <> None -> granularity = "verse" \/ granularity = "chapter".
Proof.
  unfold urlsFor.
  destruct (String.eqb_spec granularity "verse"); [auto |].
  destruct (String.eqb_spec granularity "chapter"); [auto |]. congruence.
Qed.

(** The three ways in which a call of [PreloadGranularity] ends. *)
Lemma PreloadGranularity_cases (s : SearchService) (granularity : string) :
  exists s2,
    sameData s s2 /\ keepsCache s s2
    /\ ((isLoaded s granularity = true
         /\ PreloadGranularity s granularity = (s, Ret tt))
        \/ (isLoaded s granularity = false
            /\ snd (PreloadGranularity s granularity) <> Ret tt
            /\ fst (PreloadGranularity s granularity) = s2)
        \/ (isLoaded s granularity = false
            /\ (granularity = "verse" \/ granularity = "chapter")
            /\ exists index embs lookup,
                 wf_index index
                 /\ PreloadGranularity s granularity
                    = (install s2 granularity index embs lookup, Ret tt))).
Proof.
  assert (Hself : sameData s s /\ keepsCache s s).
  { split; [repeat split |]. split; [auto |]. exists []. now rewrite app_nil_r. }
  unfold PreloadGranularity.
  destruct (isLoaded s granularity) eqn:Hloaded.
  { exists s. destruct Hself. auto. }
  destruct (urlsFor granularity) as [[[embeddingURL fallbackURL] textURL] |] eqn:Hurls.
  2:{ exists s. destruct Hself. split; [assumption |]. split; [assumption |].
      right. left. cbn [fst snd]. repeat split. discriminate. }
  assert (Hknown : granularity = "verse" \/ granularity = "chapter")
    by (apply urlsFor_known; congruence).
  set (s0 := with_trace s _).
  assert (H0 : sameData s s0 /\ keepsCache s s0).
  { split; [repeat split |]. split; [auto |]. eexists. reflexivity. }
  destruct H0 as [Hs0 Hk0].
  destruct (loadWithFallback_sameData s0 embeddingURL fallbackURL) as [Hs1 Hk1].
  destruct (loadWithFallback s0 embeddingURL fallbackURL) as [s1 o1].
  cbn [fst] in Hs1, Hk1.
  assert (Hs1' : sameData s s1) by exact (sameData_trans s s0 s1 Hs0 Hs1).
  assert (Hk1' : keepsCache s s1) by exact (keepsCache_trans s s0 s1 Hk0 Hk1).
  destruct o1 as [embeddingData | e | p];
    try (exists s1; split; [exact Hs1' |]; split; [exact Hk1' |];
         right; left; cbn [fst snd]; repeat split; discriminate).
  destruct (loadFromURL_sameData s1 textURL false) as [Hs2 Hk2].
  destruct (loadFromURL s1 textURL false) as [s2 o2].
  cbn [fst] in Hs2, Hk2.
  assert (Hs2' : sameData s s2) by exact (sameData_trans s s1 s2 Hs1' Hs2).
  assert (Hk2' : keepsCache s s2) by exact (keepsCache_trans s s1 s2 Hk1' Hk2).
  exists s2. split; [exact Hs2' |]. split; [exact Hk2' |].
  destruct o2 as [textData | e | p];
    try (right; left; cbn [fst snd]; repeat split; discriminate).
  destruct (buildIndex embeddingData) as [[index embs] | e | p] eqn:Hbuild;
    try (right; left; cbn [fst snd]; repeat split; discriminate).
  right. right. split; [reflexivity |]. split; [exact Hknown |].
  exists index, embs, (processTextData textData granularity).
  split; [eapply buildIndex_wf; exact Hbuild | reflexivity].
Qed.

(** X10.  A load that does not succeed leaves no part of a granularity
    behind: the indices, the lookup tables, the set of loaded
    granularities and the embedding service are those of before, and the
    granularity is still not loaded.  Only the cache and the list of
    effects may have grown. *)
Theorem PreloadGranularity_failure_keeps_data (s : SearchService)
    (granularity : string) :
  snd (PreloadGranularity s granularity) <> Ret tt ->
  sameData s (fst (PreloadGranularity s granularity))
  /\ keepsCache s (fst (PreloadGranularity s granularity))
  /\ isLoaded (fst (PreloadGranularity s granularity)) granularity = false.
Proof.
  intros Hfail.
  destruct (PreloadGranularity_cases s granularity)
    as (s2 & Hs & Hk & [[_ Heq] | [(Hl & _ & Heq) | (_ & _ & index & embs & lookup & _ & Heq)]]).
  - rewrite Heq in Hfail. now contradiction Hfail.
  - rewrite Heq. split; [exact Hs |]. split; [exact Hk |].
    destruct Hs as (_ & _ & _ & _ & Hlg). unfold isLoaded in *. now rewrite Hlg.
  - rewrite Heq in Hfail. now contradiction Hfail.
Qed.

(** X11.  A load touches its own granularity only: whatever its outcome,
    the index, the lookup table and the loaded mark of every other
    granularity stay as they were, no entry leaves the cache and no
    effect is taken back. *)
Theorem PreloadGranularity_frame (s : SearchService) (granularity other : string) :
  other <> granularity ->
  indices (fst (PreloadGranularity s granularity)) !! other = indices s !! other
  /\ textLookup (fst (PreloadGranularity s granularity)) !! other
     = textLookup s !! other
  /\ isLoaded (fst (PreloadGranularity s granularity)) other = isLoaded s other
  /\ keepsCache s (fst (PreloadGranularity s granularity)).
Proof.
  intros Hother.
  destruct (PreloadGranularity_cases s granularity)
    as (s2 & Hs & Hk & [[_ Heq] | [(Hl & _ & Heq) | (_ & _ & index & embs & lookup & _ & Heq)]]).
  - rewrite Heq. cbn [fst]. repeat split; auto. exists []. now rewrite app_nil_r.
  - rewrite Heq. destruct Hs as (_ & _ & Hi & Ht & Hlg).
    unfold isLoaded. rewrite Hi, Ht, Hlg. repeat split; apply Hk.
  - rewrite Heq. cbn [fst]. destruct Hs as (_ & _ & Hi & Ht & Hlg).
    unfold isLoaded, install.
    cbn [indices textLookup loadedGranularities cache trace].
    rewrite !lookup_insert_ne by congruence.
    rewrite Hi, Ht, Hlg. repeat split; apply Hk.
Qed.

Lemma indexed_sameData (s s1 : SearchService) :
  sameData s s1 -> indexed s -> indexed s1.
Proof.
  unfold sameData, indexed, isLoaded.
  intros (_ & _ & Hi & _ & Hlg) [H1 H2]. rewrite Hi, Hlg. auto.
Qed.

(** In every state that the program reaches the loaded granularities are
    those that have an index, the indices are well formed, and only
    ["verse"] and ["chapter"] are ever loaded. *)
Lemma reachable_indexed (s : SearchService) : reachable s -> indexed s.
Proof.
  induction 1 as [es cfg | s granularity Hreach IH].
  - split.
    + unfold isLoaded. cbn [NewSearchService loadedGranularities].
      intros g. rewrite lookup_empty. discriminate.
    + cbn [NewSearchService indices]. intros g idx. rewrite lookup_empty. discriminate.
  - destruct (PreloadGranularity_cases s granularity)
      as (s2 & Hs & Hk & [[_ Heq] | [(Hl & _ & Heq) | (_ & Hg & index & embs & lookup & Hwf & Heq)]]).
    + rewrite Heq. exact IH.
    + rewrite Heq. eapply indexed_sameData; eauto.
    + rewrite Heq. cbn [fst].
      apply (indexed_sameData s s2 Hs) in IH. destruct IH as [H1 H2].
      unfold indexed, isLoaded, install in *.
      cbn [indices loadedGranularities]. split.
      * intros g. destruct (String.eqb_spec g granularity) as [-> | Hne].
        -- rewrite !lookup_insert_eq. eauto.
        -- rewrite !lookup_insert_ne by congruence. apply H1.
      * intros g idx. destruct (String.eqb_spec g granularity) as [-> | Hne].
        -- rewrite !lookup_insert_eq. intros H. injection H as <-. auto.
        -- rewrite !lookup_insert_ne by congruence. apply H2.
Qed.

(** X12.  The service knows two granularities.  In a state that the
    program reaches, a load of any other fails with "unknown
    granularity" and changes nothing, not even the cache. *)
Theorem PreloadGranularity_unknown (s : SearchService) (granularity : string) :
  reachable s -> granularity <> "verse" -> granularity <> "chapter" ->
  PreloadGranularity s granularity
  = (s, Err ("unknown granularity: " +:+ granularity)).
Proof.
  intros Hreach Hv Hc. apply reachable_indexed in Hreach as [H1 H2].
  unfold PreloadGranularity.
  destruct (isLoaded s granularity) eqn:Hloaded.
  - destruct (H1 granularity Hloaded) as [idx Hidx].
    destruct (H2 granularity idx Hidx) as (_ & _ & [-> | ->]); contradiction.
  - unfold urlsFor.
    destruct (String.eqb_spec granularity "verse"); [contradiction |].
    destruct (String.eqb_spec granularity "chapter"); [contradiction |].
    reflexivity.
Qed.

End Preloading.

(** ** What a search of the service answers *)

Section ServiceSearch.

Import search api.

Context {R : GoRuntime} {E : Environment}.

Lemma range_from_not_Err {A St : Type} (body : Z -> A -> St -> outcome St)
    (l : list A) :
  (forall i x st e, body i x st <> Err e) ->
  forall i0 s e, Slice.range_from body i0 l s <> Err e.
Proof.
  intros Hbody. induction l as [| x l IH]; intros i0 s e; simpl.
  - discriminate.
  - destruct (body i0 x s) as [s1 | e1 | p] eqn:Hb; cbn [obind].
    + apply IH.
    + now apply Hbody in Hb.
    + discriminate.
Qed.

Lemma Slice_get_not_Err {A : Type} (l : list A) (i : Z) (e : string) :
  Slice.get l i <> Err e.
Proof.
  unfold Slice.get. destruct (_ && _); [| discriminate].
  destruct (l !! Z.to_nat i); discriminate.
Qed.

(** The index reports no error: a search returns or panics. *)
Lemma SearchWithFilter_not_Err (vi : VectorIndex) (query : list F32.t) (k : Z)
    (filter : string -> bool) (e : string) :
  SearchWithFilter vi query k filter <> Err e.
Proof.
  unfold SearchWithFilter.
  destruct (GoInt.len (Vectors vi) =? 0); [discriminate |].
  destruct (Slice.for_range _ (Vectors vi) []) as [results | e1 | p] eqn:Hloop;
    cbn [obind].
  - unfold topK, Slice.prefix. destruct (_ && _); discriminate.
  - exfalso. revert Hloop. unfold Slice.for_range. apply range_from_not_Err.
    intros i vec st e2.
    destruct (Slice.get (IDs vi) i) as [id | e3 | p] eqn:Hget; cbn [obind].
    + destruct (negb (filter id)); discriminate.
    + now apply Slice_get_not_Err in Hget.
    + discriminate.
  - discriminate.
Qed.

(** X13.  The one error of [SearchService.Search] is the granularity
    that is not loaded.  The empty query is answered with the empty list
    before anything is looked at; any other query on a granularity that
    is not loaded gets "granularity ... not loaded"; and no other error
    is ever returned: "failed to generate query embedding" cannot
    occur. *)
Theorem Service_Search_errors (s : SearchService) (query : string)
    (options : SearchOptions) :
  Service_Search s "" options = Ret []
  /\ (query <> "" ->
      isLoaded s (opt_Granularity (withDefaults options)) = false ->
      Service_Search s query options
      = Err ("granularity " +:+ opt_Granularity (withDefaults options)
             +:+ " not loaded"))
  /\ (forall e,
         Service_Search s query options = Err e ->
         e = "granularity " +:+ opt_Granularity (withDefaults options)
             +:+ " not loaded"
         /\ isLoaded s (opt_Granularity (withDefaults options)) = false).
Proof.
  split; [reflexivity |]. split.
  - intros Hq Hl. unfold Service_Search.
    destruct (String.eqb_spec query ""); [contradiction |].
    now rewrite Hl.
  - intros e. unfold Service_Search.
    destruct (String.eqb query ""); [discriminate |].
    destruct (isLoaded s (opt_Granularity (withDefaults options))); cbn [negb].
    2:{ intros H. injection H as <-. split; reflexivity. }
    destruct (indices s !! _) as [index |]; [| discriminate].
    destruct (EmbedQuery_returns (svc_embeddings s) query) as (v & Hv & _).
    rewrite Hv.
    destruct (SearchWithFilter index v _ _) as [srs | e1 | p] eqn:Hsearch;
      cbn [obind]; try discriminate.
    now apply SearchWithFilter_not_Err in Hsearch.
Qed.

(** On a loaded granularity whose index is well formed, a search with a
    count that is not negative returns at most that many results. *)
Lemma Service_Search_loaded (HS : SortContract R) (s : SearchService)
    (query : string) (options : SearchOptions) :
  indexed s -> 0 <= opt_K (withDefaults options) ->
  isLoaded s (opt_Granularity (withDefaults options)) = true ->
  exists rs,
    Service_Search s query options = Ret rs
    /\ GoInt.len rs <= opt_K (withDefaults options).
Proof.
  intros [H1 H2] Hk Hloaded. unfold Service_Search.
  destruct (String.eqb query "").
  { exists []. split; [reflexivity |].
    change (GoInt.len (@nil SearchResult)) with 0. exact Hk. }
  rewrite Hloaded. cbn [negb].
  destruct (H1 _ Hloaded) as [index Hindex]. rewrite Hindex.
  destruct (H2 _ _ Hindex) as (Hwf & _).
  destruct (EmbedQuery_returns (svc_embeddings s) query) as (v & Hv & _).
  rewrite Hv.
  destruct (SearchWithFilter_length HS index v (opt_K (withDefaults options))
              (filterFunc (withDefaults options)
                 (default ∅ (textLookup s !! opt_Granularity (withDefaults options))))
              Hwf Hk) as (srs & Hsrs & Hlen).
  rewrite Hsrs. cbn [obind]. eexists. split; [reflexivity |].
  unfold GoInt.len in *. rewrite length_map. lia.
Qed.

Lemma withDefaults_K (options : SearchOptions) :
  0 <= opt_K options -> 0 < opt_K (withDefaults options).
Proof.
  intros Hk. unfold withDefaults. cbn [opt_K].
  destruct (Z.eqb_spec (opt_K options) 0); lia.
Qed.

(** X14.  In every state that the program reaches, a search on a loaded
    granularity with a count that is not negative returns: no panic, no
    error, and at most [K] results, ten when [K] is zero. *)
Theorem Service_Search_reachable (HS : SortContract R) (s : SearchService)
    (query : string) (options : SearchOptions) :
  reachable s -> 0 <= opt_K options ->
  isLoaded s (opt_Granularity (withDefaults options)) = true ->
  exists rs,
    Service_Search s query options = Ret rs
    /\ GoInt.len rs <= (if opt_K options =? 0 then 10 else opt_K options).
Proof.
  intros Hreach Hk Hloaded.
  apply (Service_Search_loaded HS s query options); [| | exact Hloaded].
  - now apply reachable_indexed.
  - pose proof (withDefaults_K options Hk). lia.
Qed.

(** X15.  The handler cannot make the service panic.  In every state
    that the program reaches, and for every request, [Handler.Search]
    either returns at most as many results as the largest of the two
    counts of the request and ten, or reports a granularity that is not
    loaded. *)
Theorem Handler_Search_never_panics (HS : SortContract R) (h : SearchService)
    (req : SearchRequest) :
  reachable h ->
  (exists rs,
      Handler_Search h req = Ret rs
      /\ GoInt.len rs <= Z.max (Z.max (req_K req) (opt_K (req_Options req))) 10)
  \/ (exists g,
         Handler_Search h req = Err ("granularity " +:+ g +:+ " not loaded")
         /\ isLoaded h g = false).
Proof.
  intros Hreach. unfold Handler_Search.
  destruct (parseQuery (req_Query req)) as [query filters].
  set (options := mergeOptions req filters).
  assert (HK : opt_K options = Z.max (Z.max (req_K req) (opt_K (req_Options req))) 10).
  { unfold options, mergeOptions. cbn [opt_K]. rewrite maxInt_three. lia. }
  assert (HK' : opt_K (withDefaults options) = opt_K options).
  { unfold withDefaults. cbn [opt_K].
    destruct (Z.eqb_spec (opt_K options) 0); [lia | reflexivity]. }
  destruct (isLoaded h (opt_Granularity (withDefaults options))) eqn:Hloaded.
  - left.
    destruct (Service_Search_loaded HS h query options) as (rs & Hrs & Hlen);
      [now apply reachable_indexed | lia | exact Hloaded |].
    exists rs. split; [exact Hrs | lia].
  - destruct (String.eqb_spec query "") as [-> | Hq].
    + left. exists []. split; [reflexivity |].
      change (GoInt.len (@nil SearchResult)) with 0. lia.
    + right. exists (opt_Granularity (withDefaults options)).
      split; [| exact Hloaded].
      unfold Service_Search.
      destruct (String.eqb_spec query ""); [contradiction |].
      now rewrite Hloaded.
Qed.

(** X16.  Every result carries its text: the chunk repeats the id, and
    its text and metadata are those of the lookup table of the
    granularity; an id that the table does not know is kept, with a
    text that says so and empty metadata. *)
Theorem Service_Search_join (s : SearchService) (query : string)
    (options : SearchOptions) (rs : list SearchResult) :
  Service_Search s query options = Ret rs ->
  Forall
    (fun r =>
       chunk_ID (Chunk r) = ID r
       /\ match default ∅ (textLookup s !! opt_Granularity (withDefaults options))
                !! ID r with
          | Some textData =>
              chunk_Text (Chunk r) = Text textData
              /\ chunk_Meta (Chunk r) = Meta textData
          | None =>
              chunk_Text (Chunk r) = "[Text not found for ID: " +:+ ID r +:+ "]"
              /\ chunk_Meta (Chunk r) = zero_Metadata
          end)
    rs.
Proof.
  unfold Service_Search. cbv zeta.
  set (g := opt_Granularity (withDefaults options)).
  set (lookup := default ∅ (textLookup s !! g)).
  destruct (String.eqb query ""); [intros H; injection H as <-; constructor |].
  destruct (negb (isLoaded s g)); [discriminate |].
  destruct (indices s !! g) as [index |]; [| discriminate].
  destruct (embeddings.EmbedQuery _ query) as [queryEmbedding | e | p];
    try discriminate.
  destruct (SearchWithFilter index queryEmbedding _ _) as [srs | e | p];
    cbn [obind]; try discriminate.
  intros H. injection H as <-.
  apply Forall_map, Forall_forall. intros sr _.
  unfold joinText. cbn [Chunk chunk_ID chunk_Text chunk_Meta ID].
  split; [reflexivity |].
  destruct (lookup !! ID sr); split; reflexivity.
Qed.

End ServiceSearch.

(** Runs of the service on the two-verse corpus. *)

Section ServiceRuns.

Import search api.

Lemma PreloadGranularity_failure_keeps_data_witness :
  snd Examples.offlineLoad <> Ret tt
  /\ sameData Fixtures.service0 (fst Examples.offlineLoad)
  /\ keepsCache Fixtures.service0 (fst Examples.offlineLoad)
  /\ isLoaded (fst Examples.offlineLoad) "verse" = false.
Proof.
  assert (Hfail : snd Examples.offlineLoad <> Ret tt)
    by (vm_compute; discriminate).
  split; [exact Hfail |].
  exact (PreloadGranularity_failure_keeps_data (R := testRuntime)
           (E := Examples.offline) Fixtures.service0 "verse" Hfail).
Defined.

Lemma PreloadGranularity_frame_witness :
  "verse" <> "chapter"
  /\ indices (fst (PreloadGranularity (R := testRuntime) (E := Fixtures.net)
                     (fst Fixtures.firstLoad) "chapter")) !! "verse"
     = indices (fst Fixtures.firstLoad) !! "verse"
  /\ isLoaded (fst (PreloadGranularity (R := testRuntime) (E := Fixtures.net)
                      (fst Fixtures.firstLoad) "chapter")) "verse"
     = isLoaded (fst Fixtures.firstLoad) "verse".
Proof.
  assert (Hne : "verse" <> "chapter") by discriminate.
  split; [exact Hne |].
  destruct (PreloadGranularity_frame (R := testRuntime) (E := Fixtures.net)
              (fst Fixtures.firstLoad) "chapter" "verse" Hne)
    as (Hi & _ & Hl & _).
  split; [exact Hi | exact Hl].
Defined.

Lemma reachable_service0 :
  reachable (R := testRuntime) (E := Fixtures.net) Fixtures.service0.
Proof. unfold Fixtures.service0. apply reachable_new. Qed.

Lemma reachable_chapterLoad :
  reachable (R := testRuntime) (E := Fixtures.net) (fst Fixtures.chapterLoad).
Proof.
  unfold Fixtures.chapterLoad. apply reachable_preload, reachable_service0.
Qed.

Lemma PreloadGranularity_unknown_witness :
  reachable (R := testRuntime) (E := Fixtures.net) Fixtures.service0
  /\ PreloadGranularity (R := testRuntime) (E := Fixtures.net)
       Fixtures.service0 "book"
     = (Fixtures.service0, Err "unknown granularity: book").
Proof.
  split; [exact reachable_service0 |].
  apply (PreloadGranularity_unknown (R := testRuntime) (E := Fixtures.net)
           Fixtures.service0 "book" reachable_service0); discriminate.
Defined.

Lemma Service_Search_errors_witness :
  "love" <> ""
  /\ isLoaded Fixtures.service0 (opt_Granularity (withDefaults noFilters)) = false
  /\ Service_Search (R := testRuntime) (E := Fixtures.net) Fixtures.service0
       "love" noFilters
     = Err "granularity verse not loaded".
Proof.
  assert (Hq : "love" <> "") by discriminate.
  assert (Hl : isLoaded Fixtures.service0 (opt_Granularity (withDefaults noFilters))
               = false) by reflexivity.
  split; [exact Hq |]. split; [exact Hl |].
  exact (proj1 (proj2 (Service_Search_errors (R := testRuntime) (E := Fixtures.net)
                         Fixtures.service0 "love" noFilters)) Hq Hl).
Defined.

Lemma Service_Search_reachable_witness :
  reachable (R := testRuntime) (E := Fixtures.net) (fst Fixtures.chapterLoad)
  /\ 0 <= opt_K (Fixtures.bookOptions "john")
  /\ isLoaded (fst Fixtures.chapterLoad)
       (opt_Granularity (withDefaults (Fixtures.bookOptions "john"))) = true
  /\ exists rs,
       Service_Search (R := testRuntime) (E := Fixtures.net)
         (fst Fixtures.chapterLoad) "love" (Fixtures.bookOptions "john") = Ret rs
       /\ GoInt.len rs <= 10.
Proof.
  assert (Hk : 0 <= opt_K (Fixtures.bookOptions "john")) by (simpl; lia).
  assert (Hl : isLoaded (fst Fixtures.chapterLoad)
                 (opt_Granularity (withDefaults (Fixtures.bookOptions "john"))) = true)
    by (vm_compute; reflexivity).
  split; [exact reachable_chapterLoad |]. split; [exact Hk |]. split; [exact Hl |].
  exact (Service_Search_reachable (R := testRuntime) (E := Fixtures.net)
           testRuntime_sorts (fst Fixtures.chapterLoad) "love"
           (Fixtures.bookOptions "john") reachable_chapterLoad Hk Hl).
Defined.

Lemma Handler_Search_never_panics_witness :
  reachable (R := testRuntime) (E := Fixtures.net) (fst Fixtures.chapterLoad)
  /\ ((exists rs,
         Handler_Search (R := testRuntime) (E := Fixtures.net)
           (fst Fixtures.chapterLoad) Examples.loveRequest = Ret rs
         /\ GoInt.len rs <= 10)
      \/ (exists g,
            Handler_Search (R := testRuntime) (E := Fixtures.net)
              (fst Fixtures.chapterLoad) Examples.loveRequest
            = Err ("granularity " +:+ g +:+ " not loaded")
            /\ isLoaded (fst Fixtures.chapterLoad) g = false)).
Proof.
  split; [exact reachable_chapterLoad |].
  exact (Handler_Search_never_panics (R := testRuntime) (E := Fixtures.net)
           testRuntime_sorts (fst Fixtures.chapterLoad) Examples.loveRequest
           reachable_chapterLoad).
Defined.

Lemma Service_Search_join_witness :
  exists rs,
    Service_Search (R := testRuntime) (E := Fixtures.net)
      (fst Fixtures.chapterLoad) "love" (Fixtures.bookOptions "john") = Ret rs
    /\ List.map (fun r => chunk_Text (Chunk r)) rs = ["For God so loved the world"]
    /\ Forall
         (fun r =>
            chunk_ID (Chunk r) = ID r
            /\ match default ∅ (textLookup (fst Fixtures.chapterLoad)
                                 !! opt_Granularity
                                      (withDefaults (Fixtures.bookOptions "john")))
                     !! ID r with
               | Some textData =>
                   chunk_Text (Chunk r) = Text textData
                   /\ chunk_Meta (Chunk r) = Meta textData
               | None =>
                   chunk_Text (Chunk r)
                   = "[Text not found for ID: " +:+ ID r +:+ "]"
                   /\ chunk_Meta (Chunk r) = zero_Metadata
               end)
         rs.
Proof.
  destruct (Service_Search (R := testRuntime) (E := Fixtures.net)
              (fst Fixtures.chapterLoad) "love" (Fixtures.bookOptions "john"))
    as [rs | e | p] eqn:Hrs.
  - exists rs. split; [reflexivity |]. split.
    + vm_compute in Hrs. injection Hrs as <-. reflexivity.
    + exact (Service_Search_join (R := testRuntime) (E := Fixtures.net)
               (fst Fixtures.chapterLoad) "love" (Fixtures.bookOptions "john")
               rs Hrs).
  - vm_compute in Hrs. discriminate.
  - vm_compute in Hrs. discriminate.
Defined.

End ServiceRuns.

(** ** Reading the payloads *)

Section Payloads.

Import search.

Context {R : GoRuntime} {E : Environment}.

Lemma parseEmbeddings_outcome (items : list value) :
  forall (index : VectorIndex) (embs : gmap string (list F32.t)),
    is_Panic (parseEmbeddings items index embs) = existsb lacksStringID items
    /\ is_Err (parseEmbeddings items index embs) = false.
Proof.
  induction items as [| item items IH]; intros index embs; [split; reflexivity |].
  cbn [parseEmbeddings existsb].
  destruct item as [| b | f | n | str | l | embedding]; cbn [lacksStringID orb];
    try apply IH.
  destruct (embedding !! "id") as [[| b | f | n | id | l | m] |]; cbn [orb];
    try (split; reflexivity).
  destruct (embedding !! "embedding") as [[| b | f | n | str | vecData | m] |];
    apply IH.
Qed.

Lemma parseEmbeddings_ids (items : list value) :
  forall (index : VectorIndex) (embs : gmap string (list F32.t))
         (index' : VectorIndex) (embs' : gmap string (list F32.t)),
    (forall id, In id (IDs index) <-> is_Some (embs !! id)) ->
    parseEmbeddings items index embs = Ret (index', embs') ->
    (forall id, In id (IDs index') <-> is_Some (embs' !! id))
    /\ (List.length (Vectors index') <= List.length (Vectors index) + List.length items)%nat.
Proof.
  induction items as [| item items IH]; intros index embs index' embs' Hids.
  - intros H. injection H as <- <-. split; [exact Hids | simpl; lia].
  - cbn [parseEmbeddings List.length].
    assert (Hskip : parseEmbeddings items index embs = Ret (index', embs') ->
                    (forall id, In id (IDs index') <-> is_Some (embs' !! id))
                    /\ (List.length (Vectors index')
                        <= List.length (Vectors index) + S (List.length items))%nat).
    { intros H. destruct (IH _ _ _ _ Hids H) as [H1 H2]. split; [exact H1 | lia]. }
    destruct item as [| b | f | n | str | l | embedding]; try exact Hskip.
    destruct (embedding !! "id") as [[| b | f | n | id | l | m] |]; try discriminate.
    destruct (embedding !! "embedding") as [[| b | f | n | str | vecData | m] |];
      try exact Hskip.
    intros H. apply IH in H.
    + destruct H as [H1 H2]. split; [exact H1 |].
      cbn [Add Vectors] in H2. rewrite length_app in H2. simpl in H2. lia.
    + intros id'. cbn [Add IDs]. rewrite in_app_iff. cbn [In].
      destruct (String.eqb_spec id id') as [-> | Hne].
      * rewrite lookup_insert_eq. split; [eauto | auto].
      * rewrite lookup_insert_ne by exact Hne. rewrite <- Hids.
        split; [intros [Hi | [Hi | []]]; [exact Hi | contradiction] | auto].
Qed.

(** X17.  One item without a string id brings the whole load down: the
    reading of an embedding payload panics exactly when some object of
    the ["embeddings"] list has no string under ["id"], and never reports
    an error.  Otherwise the index it builds has one id per vector, at
    most one entry per item, and holds exactly the ids of the table
    handed to the embedding service. *)
Theorem buildIndex_outcome (embeddingData : value) :
  is_Panic (buildIndex embeddingData)
  = existsb lacksStringID (embeddingItems embeddingData)
  /\ is_Err (buildIndex embeddingData) = false
  /\ forall index embs,
       buildIndex embeddingData = Ret (index, embs) ->
       wf_index index
       /\ Size index <= GoInt.len (embeddingItems embeddingData)
       /\ forall id, In id (IDs index) <-> is_Some (embs !! id).
Proof.
  assert (Hempty : forall id : string,
             In id (IDs NewVectorIndex)
             <-> is_Some ((∅ : gmap string (list F32.t)) !! id)).
  { intros id. cbn [NewVectorIndex IDs In]. rewrite lookup_empty.
    split; [intros [] | intros [x Hx]; discriminate]. }
  assert (Hnew : forall items index embs,
             Ret (NewVectorIndex, (∅ : gmap string (list F32.t))) = Ret (index, embs) ->
             wf_index index /\ Size index <= GoInt.len (A := value) items
             /\ forall id, In id (IDs index) <-> is_Some (embs !! id)).
  { intros items index embs H. injection H as <- <-.
    split; [apply wf_NewVectorIndex |]. split; [| exact Hempty].
    unfold Size, GoInt.len. simpl. lia. }
  unfold buildIndex, embeddingItems.
  destruct embeddingData as [| b | f | n | str | l | m];
    try (split; [reflexivity |]; split; [reflexivity |]; apply Hnew).
  destruct (m !! "embeddings") as [[| b | f | n | str | items | m'] |];
    try (split; [reflexivity |]; split; [reflexivity |]; apply Hnew).
  destruct (parseEmbeddings_outcome items NewVectorIndex ∅) as [Hp He].
  split; [exact Hp |]. split; [exact He |].
  intros index embs Hret.
  split; [eapply parseEmbeddings_wf; [apply wf_NewVectorIndex | exact Hret] |].
  destruct (parseEmbeddings_ids items _ _ _ _ Hempty Hret) as [Hids Hlen].
  split; [| exact Hids].
  unfold Size, GoInt.len. simpl in Hlen. lia.
Qed.

(** One verse registered under its ids. *)
Lemma register_lookup (textData : TextData) (ids : list string) :
  forall (lookup : gmap string TextData) (id : string),
    fold_left
      (fun lookup id =>
         if negb (String.eqb id "") then <[id := textData]> lookup else lookup)
      ids lookup !! id
    = if bool_decide (id ∈ ids) && negb (String.eqb id "")
      then Some textData else lookup !! id.
Proof.
  induction ids as [| a ids IH]; intros lookup id; [reflexivity |].
  cbn [fold_left]. rewrite IH.
  destruct (bool_decide (id ∈ ids)) eqn:Hin.
  - apply bool_decide_eq_true in Hin.
    rewrite (bool_decide_eq_true_2 (id ∈ a :: ids)) by (now right).
    cbn [andb]. destruct (negb (String.eqb id "")) eqn:He; [reflexivity |].
    destruct (String.eqb_spec a ""); cbn [negb]; [reflexivity |].
    rewrite lookup_insert_ne; [reflexivity |].
    intros ->. apply negb_false_iff, String.eqb_eq in He. contradiction.
  - apply bool_decide_eq_false in Hin. cbn [andb].
    destruct (String.eqb_spec a id) as [-> | Hne].
    + rewrite (bool_decide_eq_true_2 (id ∈ id :: ids)) by (now left).
      cbn [andb]. destruct (negb (String.eqb id "")); [apply lookup_insert_eq | reflexivity].
    + rewrite (bool_decide_eq_false_2 (id ∈ a :: ids))
        by (intros H; apply elem_of_cons in H as [H | H]; [congruence | contradiction]).
      cbn [andb]. destruct (negb (String.eqb a "")); [| reflexivity].
      now rewrite lookup_insert_ne.
Qed.

Lemma processVerses_lookup (granularity : string) (verses : list value) :
  forall (i : nat) (lookup : gmap string TextData),
    (forall id, processVerses granularity (Z.of_nat i) verses lookup !! id = None ->
       lookup !! id = None)
    /\ (forall id td,
          processVerses granularity (Z.of_nat i) verses lookup !! id = Some td ->
          lookup !! id = Some td
          \/ (id <> ""
              /\ exists verse, In (VMap verse) verses /\ td = textDataOf verse))
    /\ (forall k verse id,
          verses !! k = Some (VMap verse) ->
          In id (possibleIDs granularity (Z.of_nat (i + k)) (Meta (textDataOf verse))) ->
          id <> "" ->
          is_Some (processVerses granularity (Z.of_nat i) verses lookup !! id)).
Proof.
  induction verses as [| item verses IH]; intros i lookup.
  - split; [auto |]. split; [auto |]. intros k verse id Hk. now rewrite lookup_nil in Hk.
  - cbn [processVerses].
    replace (Z.of_nat i + 1) with (Z.of_nat (S i)) by lia.
    assert (Hskip :
      (forall id, processVerses granularity (Z.of_nat (S i)) verses lookup !! id = None ->
         lookup !! id = None)
      /\ (forall id td,
            processVerses granularity (Z.of_nat (S i)) verses lookup !! id = Some td ->
            lookup !! id = Some td
            \/ (id <> ""
                /\ exists verse, In (VMap verse) (item :: verses) /\ td = textDataOf verse))).
    { destruct (IH (S i) lookup) as (H1 & H2 & _). split; [exact H1 |].
      intros id td H. destruct (H2 id td H) as [Hl | (Hne & verse & Hin & Htd)];
        [now left | right]. split; [exact Hne |]. exists verse. split; [now right | exact Htd]. }
    assert (Hlater : forall lookup' k verse id,
      (item :: verses) !! S k = Some (VMap verse) ->
      In id (possibleIDs granularity (Z.of_nat (i + S k)) (Meta (textDataOf verse))) ->
      id <> "" ->
      is_Some (processVerses granularity (Z.of_nat (S i)) verses lookup' !! id)).
    { intros lookup' k verse id Hk Hin Hne.
      destruct (IH (S i) lookup') as (_ & _ & H3).
      apply (H3 k verse id); [exact Hk | | exact Hne].
      now replace (S i + k)%nat with (i + S k)%nat by lia. }
    destruct item as [| b | f | n | str | l | verse0];
      try (destruct Hskip as [H1 H2]; split; [exact H1 |]; split; [exact H2 |];
           intros [| k] verse id Hk; [discriminate | now apply Hlater]).
    clear Hskip.
    set (lookup' := fold_left _ (possibleIDs granularity (Z.of_nat i)
                                   (Meta (textDataOf verse0))) lookup).
    assert (Hreg : forall id,
      lookup' !! id
      = if bool_decide (id ∈ possibleIDs granularity (Z.of_nat i)
                                   (Meta (textDataOf verse0)))
           && negb (String.eqb id "")
        then Some (textDataOf verse0) else lookup !! id)
      by (intros id; apply register_lookup).
    destruct (IH (S i) lookup') as (H1 & H2 & H3).
    split; [| split].
    + intros id Hnone. apply H1 in Hnone. rewrite Hreg in Hnone.
      destruct (_ && _); [discriminate | exact Hnone].
    + intros id td Hsome. destruct (H2 id td Hsome) as [Hl | (Hne & verse & Hin & Htd)].
      * rewrite Hreg in Hl.
        destruct (bool_decide _) eqn:Hd; cbn [andb] in Hl; [| now left].
        destruct (String.eqb_spec id ""); cbn [negb] in Hl; [now left |].
        injection Hl as <-. right. split; [assumption |].
        exists verse0. split; [now left | reflexivity].
      * right. split; [exact Hne |]. exists verse. split; [now right | exact Htd].
    + intros [| k] verse id Hk Hin Hne; [| now apply (Hlater lookup' k verse id)].
      injection Hk as <-. rewrite Nat.add_0_r in Hin.
      destruct (processVerses granularity (Z.of_nat (S i)) verses lookup' !! id) eqn:Hp;
        [eauto |].
      apply H1 in Hp. rewrite Hreg in Hp.
      apply list_elem_of_In in Hin. rewrite (bool_decide_eq_true_2 _ Hin) in Hp.
      destruct (String.eqb_spec id ""); [contradiction | discriminate].
Qed.

(** X18.  What the lookup table of a granularity holds.  The empty id is
    never a key; every entry is the text and metadata of some object of
    the payload; and every object of the payload can be found under each
    of its eight ids that is not empty: its reference, its position and
    the six composed forms (possibly hidden there by a later object that
    claims the same id).  A payload that is not an array gives the empty
    table. *)
Theorem processTextData_lookup (data : value) (granularity : string) :
  processTextData data granularity !! "" = None
  /\ (forall id td,
        processTextData data granularity !! id = Some td ->
        exists verses verse,
          data = VSlice verses /\ In (VMap verse) verses /\ td = textDataOf verse)
  /\ (forall verses (k : nat) verse id,
        data = VSlice verses -> verses !! k = Some (VMap verse) ->
        In id (possibleIDs granularity (Z.of_nat k) (Meta (textDataOf verse))) ->
        id <> "" ->
        is_Some (processTextData data granularity !! id)).
Proof.
  unfold processTextData.
  destruct data as [| b | f | n | str | verses | m];
    try (split; [apply lookup_empty |]; split;
         [intros id td H; rewrite lookup_empty in H; discriminate
         | intros verses k verse id H; discriminate]).
  destruct (processVerses_lookup granularity verses 0 ∅) as (H1 & H2 & H3).
  change (Z.of_nat 0) with 0 in *.
  split; [| split].
  - destruct (processVerses granularity 0 verses ∅ !! "") as [td |] eqn:Hp;
      [| reflexivity].
    destruct (H2 "" td Hp) as [Hl | (Hne & _)].
    + rewrite lookup_empty in Hl. discriminate.
    + contradiction.
  - intros id td Hp. destruct (H2 id td Hp) as [Hl | (_ & verse & Hin & Htd)].
    + rewrite lookup_empty in Hl. discriminate.
    + eauto.
  - intros verses' k verse id Heq Hk Hin Hne. injection Heq as <-.
    now apply (H3 k verse id).
Qed.

End Payloads.

Section PayloadRuns.

Import search.

Lemma buildIndex_outcome_witness :
  is_Panic (buildIndex Examples.badPayload) = true
  /\ exists index embs,
       buildIndex Fixtures.embeddingPayload = Ret (index, embs)
       /\ wf_index index
       /\ Size index <= 2
       /\ forall id, In id (IDs index) <-> is_Some (embs !! id).
Proof.
  split.
  - rewrite (proj1 (buildIndex_outcome Examples.badPayload)).
    vm_compute. reflexivity.
  - assert (Hret : is_Ret (buildIndex Fixtures.embeddingPayload) = true)
      by (vm_compute; reflexivity).
    destruct (buildIndex Fixtures.embeddingPayload) as [[index embs] | e | p] eqn:Hb;
      [| discriminate Hret | discriminate Hret].
    exists index, embs. split; [reflexivity |].
    exact (proj2 (proj2 (buildIndex_outcome Fixtures.embeddingPayload))
             index embs Hb).
Defined.

Lemma processTextData_lookup_witness :
  "v1" <> ""
  /\ is_Some (processTextData (R := testRuntime) Fixtures.textPayload "verse" !! "v1")
  /\ processTextData (R := testRuntime) Fixtures.textPayload "verse" !! "" = None.
Proof.
  assert (Hne : "v1" <> "") by discriminate.
  split; [exact Hne |].
  destruct (processTextData_lookup (R := testRuntime) Fixtures.textPayload "verse")
    as (Hempty & _ & Hkeys).
  split; [| exact Hempty].
  apply (Hkeys
           [Fixtures.verseJSON "John 3:16" "John" 3 16 "For God so loved the world";
            Fixtures.verseJSON "Matthew 5:3" "Matthew" 5 3
              "Blessed are the poor in spirit"]
           1%nat
           (list_to_map
              [("ref", VString "Matthew 5:3"); ("book", VString "Matthew");
               ("chapter", VFloat64 (F64.of_Z 5));
               ("verseNum", VFloat64 (F64.of_Z 3));
               ("text", VString "Blessed are the poor in spirit")])
           "v1"); [reflexivity | reflexivity | | exact Hne].
  do 7 right. left. reflexivity.
Defined.

End PayloadRuns.

(** ** A successful load and the status *)

Section Installed.

Import search.

Context {R : GoRuntime} {E : Environment}.

Lemma loadFromURL_Ret (s s1 : SearchService) (url : string) (compressed : bool)
    (v : value) :
  loadFromURL s url compressed = (s1, Ret v) -> cache s1 !! url = Some v.
Proof.
  unfold loadFromURL.
  destruct (cache s !! url) as [cached |] eqn:Hc.
  - intros H. injection H as <- <-. exact Hc.
  - destruct (http_fetch (List.length (trace s)) url compressed) as [result | e];
      [| discriminate].
    intros H. injection H as <- <-.
    cbn [cache with_cache with_trace]. apply lookup_insert_eq.
Qed.

Lemma loadWithFallback_Ret (s s1 : SearchService) (primaryURL fallbackURL : string)
    (v : value) :
  loadWithFallback s primaryURL fallbackURL = (s1, Ret v) ->
  cache s1 !! primaryURL = Some v \/ cache s1 !! fallbackURL = Some v.
Proof.
  unfold loadWithFallback.
  destruct (loadFromURL s primaryURL true) as [s' [v' | e | p]] eqn:Hp.
  - intros H. injection H as <- <-. left. eapply loadFromURL_Ret. exact Hp.
  - intros H. right. eapply loadFromURL_Ret. exact H.
  - discriminate.
Qed.

(** X19.  What a successful first load installs.  The two payloads are in
    the cache: the embeddings under the compressed or under the plain
    address, the texts under the text address.  The index of the
    granularity is the one read from the embedding payload, its lookup
    table the one read from the text payload, and the granularity is
    marked as loaded.  The precomputed-average provider is handed the
    embeddings and the texts when the granularity is ["verse"], and is
    left alone otherwise. *)
Theorem PreloadGranularity_installs (s s1 : SearchService) (granularity : string) :
  isLoaded s granularity = false ->
  PreloadGranularity s granularity = (s1, Ret tt) ->
  exists embeddingURL fallbackURL textURL embeddingData textData index embs,
    urlsFor granularity = Some (embeddingURL, fallbackURL, textURL)
    /\ (cache s1 !! embeddingURL = Some embeddingData
        \/ cache s1 !! fallbackURL = Some embeddingData)
    /\ cache s1 !! textURL = Some textData
    /\ buildIndex embeddingData = Ret (index, embs)
    /\ indices s1 !! granularity = Some index
    /\ textLookup s1 !! granularity = Some (processTextData textData granularity)
    /\ isLoaded s1 granularity = true
    /\ svc_embeddings s1
       = if String.eqb granularity "verse"
         then embeddings.InitializeWithPrecomputedData (svc_embeddings s) embs
                (Text <$> processTextData textData granularity)
         else svc_embeddings s.
Proof.
  intros Hloaded. unfold PreloadGranularity. rewrite Hloaded.
  destruct (urlsFor granularity) as [[[embeddingURL fallbackURL] textURL] |];
    [| discriminate].
  set (s0 := with_trace s _).
  assert (Hs0 : sameData s s0) by (repeat split).
  destruct (loadWithFallback_sameData s0 embeddingURL fallbackURL) as [Hs1 _].
  destruct (loadWithFallback s0 embeddingURL fallbackURL)
    as [s' [embeddingData | e | p]] eqn:Hload; try discriminate.
  cbn [fst] in Hs1. apply loadWithFallback_Ret in Hload.
  destruct (loadFromURL_sameData s' textURL false) as [Hs2 [Hk2 _]].
  destruct (loadFromURL s' textURL false) as [s'' [textData | e | p]] eqn:Htext;
    try discriminate.
  cbn [fst] in Hs2, Hk2. apply loadFromURL_Ret in Htext.
  destruct (buildIndex embeddingData) as [[index embs] | e | p] eqn:Hbuild;
    try discriminate.
  intros H. injection H as <-.
  exists embeddingURL, fallbackURL, textURL, embeddingData, textData, index, embs.
  split; [reflexivity |].
  split; [cbn [install cache]; destruct Hload as [Hc | Hc]; [left | right]; now apply Hk2 |].
  split; [exact Htext |]. split; [exact Hbuild |].
  split; [cbn [install indices]; apply lookup_insert_eq |].
  split; [cbn [install textLookup]; apply lookup_insert_eq |].
  split; [apply isLoaded_install |].
  cbn [install svc_embeddings].
  destruct Hs2 as (He2 & _). destruct Hs1 as (He1 & _). destruct Hs0 as (He0 & _).
  rewrite He2, He1, He0. reflexivity.
Qed.

Lemma GetMemoryUsage_returns (vi : VectorIndex) :
  Size vi <> 0 -> exists memoryBytes, GetMemoryUsage vi = Ret memoryBytes.
Proof.
  intros Hsz. destruct (GetMemoryUsage_Ret_or_Panic vi) as [H | H]; [exact H |].
  pose proof (proj1 (GetMemoryUsage_panics_iff_empty vi)) as Hp.
  rewrite H in Hp. cbn [is_Panic] in Hp. symmetry in Hp.
  apply Z.eqb_eq in Hp. contradiction.
Qed.

(** The loop of [GetStatus] over entries that agree on the index of a
    granularity and hold no empty index. *)
Lemma statusEntries_returns (s : SearchService)
    (entries : list (string * VectorIndex)) :
  (forall g idx, (g, idx) ∈ entries -> Size idx <> 0) ->
  (forall g idx idx', (g, idx) ∈ entries -> (g, idx') ∈ entries -> idx = idx') ->
  forall acc,
  exists m,
    statusEntries s entries acc = Ret m
    /\ forall g,
         (forall idx, (g, idx) ∈ entries ->
            exists memoryBytes,
              GetMemoryUsage idx = Ret memoryBytes
              /\ m !! g = Some {| st_loaded := isLoaded s g;
                                  st_count := Size idx;
                                  st_memoryBytes := memoryBytes |})
         /\ ((forall idx, (g, idx) ∉ entries) -> m !! g = acc !! g).
Proof.
  induction entries as [| [g0 idx0] entries IH]; intros Hsize Hfun acc.
  - exists acc. split; [reflexivity |]. intros g. split; [| reflexivity].
    intros idx Hin. now apply elem_of_nil in Hin.
  - cbn [statusEntries].
    destruct (GetMemoryUsage_returns idx0) as [mem0 Hmem0];
      [apply (Hsize g0); left |].
    rewrite Hmem0. cbn [obind].
    destruct (IH (fun g idx Hin => Hsize g idx (list_elem_of_further _ _ _ Hin))
                 (fun g idx idx' H1 H2 =>
                    Hfun g idx idx' (list_elem_of_further _ _ _ H1)
                      (list_elem_of_further _ _ _ H2))
                 (<[g0 := {| st_loaded := isLoaded s g0;
                             st_count := Size idx0;
                             st_memoryBytes := mem0 |}]> acc))
      as (m & Hm & Hspec).
    exists m. split; [exact Hm |]. intros g. destruct (Hspec g) as [Hin Hout].
    split.
    + intros idx Hidx. apply elem_of_cons in Hidx as [Heq | Hidx]; [| now apply Hin].
      injection Heq as -> ->.
      destruct (decide (g0 ∈ entries.*1)) as [Hk | Hk].
      * apply list_elem_of_fmap in Hk as ([g1 idx1] & Hg & Hin1). cbn in Hg. subst g1.
        assert (idx1 = idx0)
          by (apply (Hfun g0); [now right | now left]).
        subst idx1. now apply Hin.
      * exists mem0. split; [exact Hmem0 |]. rewrite Hout.
        -- apply lookup_insert_eq.
        -- intros idx Hidx. apply Hk. apply list_elem_of_fmap.
           exists (g0, idx). split; [reflexivity | exact Hidx].
    + intros Hnone.
      assert (Hne : g0 <> g) by (intros ->; apply (Hnone idx0); now left).
      rewrite Hout by (intros idx Hidx; apply (Hnone idx); now right).
      now apply lookup_insert_ne.
Qed.

(** X20.  The status request answers as long as no index of the service
    is empty: it then reports, for every granularity that has an index
    and for no other, the loaded mark, the number of vectors and the
    memory estimate of the index. *)
Theorem GetStatus_returns (HR : RangeContract R) (s : SearchService) :
  (forall g idx, indices s !! g = Some idx -> Size idx <> 0) ->
  exists st,
    GetStatus s = Ret st
    /\ st_initialized st = true
    /\ forall g,
         match indices s !! g with
         | Some idx =>
             exists memoryBytes,
               GetMemoryUsage idx = Ret memoryBytes
               /\ st_indices st !! g
                  = Some {| st_loaded := isLoaded s g;
                            st_count := Size idx;
                            st_memoryBytes := memoryBytes |}
         | None => st_indices st !! g = None
         end.
Proof.
  intros Hsize. unfold GetStatus.
  assert (Hin : forall g idx,
             (g, idx) ∈ map_range VectorIndex (indices s) <-> indices s !! g = Some idx).
  { intros g idx. rewrite (map_range_perm VectorIndex (indices s)).
    apply elem_of_map_to_list. }
  destruct (statusEntries_returns s (map_range VectorIndex (indices s))) with (acc := (∅ : gmap string IndexStatus))
    as (m & Hm & Hspec).
  - intros g idx H. apply Hin in H. now apply (Hsize g).
  - intros g idx idx' H1 H2. apply Hin in H1, H2. congruence.
  - rewrite Hm. cbn [obind]. eexists. split; [reflexivity |].
    split; [reflexivity |]. cbn [st_indices].
    intros g. destruct (Hspec g) as [Hsome Hnone].
    destruct (indices s !! g) as [idx |] eqn:Hg.
    + apply Hsome. now apply Hin.
    + rewrite Hnone; [apply lookup_empty |].
      intros idx Hidx. apply Hin in Hidx. congruence.
Qed.

End Installed.

Section InstalledRuns.

Import search.

Lemma PreloadGranularity_installs_witness :
  isLoaded Fixtures.service0 "verse" = false
  /\ Fixtures.firstLoad = (fst Fixtures.firstLoad, Ret tt)
  /\ exists index embs,
       buildIndex Fixtures.embeddingPayload = Ret (index, embs)
       /\ indices (fst Fixtures.firstLoad) !! "verse" = Some index
       /\ Size index = 2.
Proof.
  assert (Hl : isLoaded Fixtures.service0 "verse" = false) by reflexivity.
  assert (Hfirst : Fixtures.firstLoad = (fst Fixtures.firstLoad, Ret tt)).
  { rewrite (surjective_pairing Fixtures.firstLoad) at 1.
    replace (snd Fixtures.firstLoad) with (@Ret unit tt) by (vm_compute; reflexivity).
    reflexivity. }
  split; [exact Hl |]. split; [exact Hfirst |].
  destruct (PreloadGranularity_installs (R := testRuntime) (E := Fixtures.net)
              Fixtures.service0 (fst Fixtures.firstLoad) "verse" Hl Hfirst)
    as (embeddingURL & fallbackURL & textURL & embeddingData & textData & index
        & embs & Hurls & Hcache & _ & Hbuild & Hidx & _).
  injection Hurls as <- <- <-.
  assert (Hdata : embeddingData = Fixtures.embeddingPayload).
  { assert (H1 : cache (fst Fixtures.firstLoad) !! config.Verses
                 = Some Fixtures.embeddingPayload) by (vm_compute; reflexivity).
    assert (H2 : cache (fst Fixtures.firstLoad) !! config.VersesUncompressed = None)
      by (vm_compute; reflexivity).
    destruct Hcache as [Hc | Hc]; congruence. }
  subst embeddingData.
  exists index, embs. split; [exact Hbuild |]. split; [exact Hidx |].
  assert (Hsz : (Size <$> indices (fst Fixtures.firstLoad) !! "verse") = Some 2)
    by (vm_compute; reflexivity).
  rewrite Hidx in Hsz. now injection Hsz.
Defined.

Lemma GetStatus_returns_witness :
  (forall g idx, indices (fst Fixtures.firstLoad) !! g = Some idx -> Size idx <> 0)
  /\ exists st,
       GetStatus (R := testRuntime) (fst Fixtures.firstLoad) = Ret st
       /\ st_initialized st = true
       /\ (st_count <$> st_indices st !! "verse") = Some 2.
Proof.
  assert (Hsize : forall g idx,
             indices (fst Fixtures.firstLoad) !! g = Some idx -> Size idx <> 0).
  { assert (Hb : forallb (fun gi : string * VectorIndex => negb (Size (snd gi) =? 0))
                   (map_to_list (indices (fst Fixtures.firstLoad))) = true)
      by (vm_compute; reflexivity).
    intros g idx H. apply elem_of_map_to_list, list_elem_of_In in H.
    rewrite forallb_forall in Hb. specialize (Hb _ H). cbn [snd] in Hb.
    apply negb_true_iff, Z.eqb_neq in Hb. exact Hb. }
  split; [exact Hsize |].
  destruct (GetStatus_returns (R := testRuntime) testRuntime_ranges
              (fst Fixtures.firstLoad) Hsize) as (st & Hst & Hinit & Hspec).
  exists st. split; [exact Hst |]. split; [exact Hinit |].
  specialize (Hspec "verse").
  destruct (indices (fst Fixtures.firstLoad) !! "verse") as [idx |] eqn:Hidx.
  - destruct Hspec as (mem & _ & Hentry). rewrite Hentry. cbn [fmap option_fmap option_map st_count].
    assert (Hsz : (Size <$> indices (fst Fixtures.firstLoad) !! "verse") = Some 2)
      by (vm_compute; reflexivity).
    rewrite Hidx in Hsz. exact Hsz.
  - vm_compute in Hidx. discriminate.
Defined.

End InstalledRuns.

(** ** More on the embedding providers *)

Section MoreProviders.

Import embeddings.

Context {R : GoRuntime} {E : Environment}.

Lemma accumulate_all_unknown (s : SimpleEmbeddingService) (verseIDs : list string) :
  forall (result : list F32.t) (count : Z),
    (forall id, In id verseIDs -> verseEmbeddings s !! id = None) ->
    accumulate_all s verseIDs result count = Ret (result, count).
Proof.
  induction verseIDs as [| verseID rest IH]; intros result count Hnone; [reflexivity |].
  cbn [accumulate_all]. rewrite (Hnone verseID) by (now left).
  apply IH. intros id Hid. apply Hnone. now right.
Qed.

(** X21.  The average of verses of which none has a stored embedding is
    the zero vector of [config.Dimensions] components: nothing was summed
    and nothing is divided by the count of zero. *)
Theorem averageEmbeddings_unknown (s : SimpleEmbeddingService)
    (verseIDs : list string) :
  (forall id, In id verseIDs -> verseEmbeddings s !! id = None) ->
  averageEmbeddings s verseIDs
  = Ret (replicate (Z.to_nat config.Dimensions) F32.zero).
Proof.
  intros Hnone. unfold averageEmbeddings.
  rewrite Slice_make_ok by (unfold config.Dimensions; lia).
  destruct (GoInt.len verseIDs =? 0); [reflexivity |].
  cbn [obind]. rewrite accumulate_all_unknown by exact Hnone.
  cbn [obind]. reflexivity.
Qed.

Lemma matches_loop (queryWords : list string) (entries : list (string * string)) :
  forall acc : list match_,
    fold_left
      (fun matches (kv : string * string) =>
         let score :=
           calculateTextSimilarity queryWords (strings_ToLower (snd kv)) in
         if F64.gtb score F64.zero
         then matches ++ [{| match_id := fst kv; match_score := score |}]
         else matches)
      entries acc
    = acc ++ omap (fun kv : string * string =>
                     let score :=
                       calculateTextSimilarity queryWords (strings_ToLower (snd kv)) in
                     if F64.gtb score F64.zero
                     then Some {| match_id := fst kv; match_score := score |}
                     else None)
                  entries.
Proof.
  induction entries as [| kv entries IH]; intros acc.
  - cbn. now rewrite app_nil_r.
  - cbn [fold_left omap list_omap]. rewrite IH. cbv zeta.
    destruct (F64.gtb _ F64.zero); [now rewrite <- app_assoc | reflexivity].
Qed.

Lemma omap_ids_sublist (queryWords : list string) (entries : list (string * string)) :
  sublist
    (match_id <$>
       omap (fun kv : string * string =>
               let score :=
                 calculateTextSimilarity queryWords (strings_ToLower (snd kv)) in
               if F64.gtb score F64.zero
               then Some {| match_id := fst kv; match_score := score |}
               else None)
            entries)
    (entries.*1).
Proof.
  induction entries as [| kv entries IH]; [constructor |].
  cbn [omap list_omap fmap list_fmap]. cbv zeta.
  destruct (F64.gtb _ F64.zero); cbn [fmap list_fmap match_id].
  - now apply sublist_skip.
  - now apply sublist_cons.
Qed.

(** X22.  The verses chosen for a query are at most [topK], each is a key
    of the table of texts, and none is chosen twice. *)
Theorem findBestTextMatches_ids (HS : SortContract R) (HR : RangeContract R)
    (s : SimpleEmbeddingService) (query : string) (topK : Z) :
  GoInt.len (findBestTextMatches s query topK) <= Z.max 0 topK
  /\ NoDup (findBestTextMatches s query topK)
  /\ forall id, In id (findBestTextMatches s query topK) ->
       is_Some (verseTexts s !! id).
Proof.
  unfold findBestTextMatches. rewrite matches_loop. cbn [app].
  set (queryWords := strings_Fields (strings_ToLower query)).
  set (matches := omap _ (map_range string (verseTexts s))).
  set (sorted := sort_Slice match_ _ matches).
  assert (Hperm : Permutation (match_id <$> sorted) (match_id <$> matches))
    by (apply fmap_Permutation, sort_Slice_perm).
  assert (Hsub : sublist (match_id <$> matches) ((map_range string (verseTexts s)).*1))
    by apply omap_ids_sublist.
  assert (Hkeys : NoDup ((map_range string (verseTexts s)).*1)).
  { rewrite (map_range_perm string (verseTexts s)). apply NoDup_fst_map_to_list. }
  assert (Htake : sublist (List.map match_id (take (Z.to_nat topK) sorted))
                          (match_id <$> sorted)).
  { change (List.map match_id (take (Z.to_nat topK) sorted))
      with (match_id <$> take (Z.to_nat topK) sorted).
    apply fmap_sublist, sublist_take. }
  split; [| split].
  - unfold GoInt.len. rewrite length_map, length_take. lia.
  - eapply sublist_NoDup; [| exact Htake].
    rewrite Hperm. eapply sublist_NoDup; eassumption.
  - intros id Hid. apply list_elem_of_In in Hid.
    eapply elem_of_sublist in Hid; [| exact Htake].
    rewrite Hperm in Hid.
    eapply elem_of_sublist in Hid; [| exact Hsub].
    rewrite (map_range_perm string (verseTexts s)) in Hid.
    apply list_elem_of_fmap in Hid as ([k v] & -> & Hkv).
    apply elem_of_map_to_list in Hkv. cbn. eauto.
Qed.

(** X23.  The simulated model load changes no embedding: it sets the
    flag and reports success, a second call does nothing, and queries and
    documents are embedded after it exactly as before. *)
Theorem LoadONNXModel_changes_no_embedding (s : EmbeddingService)
    (modelPath text : string) :
  snd (LoadONNXModel s modelPath) = Ret tt
  /\ modelLoaded (fst (LoadONNXModel s modelPath)) = true
  /\ LoadONNXModel (fst (LoadONNXModel s modelPath)) modelPath
     = (fst (LoadONNXModel s modelPath), Ret tt)
  /\ EmbedQuery (fst (LoadONNXModel s modelPath)) text = EmbedQuery s text
  /\ EmbedDocument (fst (LoadONNXModel s modelPath)) text = EmbedDocument s text.
Proof.
  unfold LoadONNXModel. destruct (modelLoaded s) eqn:Hloaded; cbn [fst snd].
  - rewrite Hloaded. repeat split; reflexivity.
  - cbn [modelLoaded]. split; [reflexivity |]. split; [reflexivity |].
    split; [reflexivity |].
    unfold EmbedQuery, EmbedDocument. cbn [realOnnxService simpleService].
    split.
    + rewrite (generatePlaceholderEmbedding_ignores_service _ s). reflexivity.
    + rewrite (generatePlaceholderEmbedding_ignores_service _ s). reflexivity.
Qed.

(** X24.  As long as neither provider is initialised, the embedding of a
    query is the placeholder of the text behind the query prefix, and
    that of a document the placeholder of the text behind the document
    prefix: the failures of the two providers are never seen. *)
Theorem EmbedQuery_uninitialised (s : EmbeddingService) (text : string) :
  (forall onnx, realOnnxService s = Some onnx -> onnx_initialized onnx = false) ->
  (forall simple, simpleService s = Some simple -> simple_initialized simple = false) ->
  EmbedQuery s text
  = generatePlaceholderEmbedding s (config.QueryPrefix ++ text)%string
  /\ EmbedDocument s text
     = generatePlaceholderEmbedding s (config.DocumentPrefix ++ text)%string.
Proof.
  intros Honnx Hsimple. unfold EmbedQuery, EmbedDocument.
  destruct (simpleService s) as [simple |].
  - unfold Simple_EmbedDocument, Simple_EmbedQuery.
    rewrite (Hsimple simple eq_refl). cbn [negb or_else].
    destruct (realOnnxService s) as [onnx |]; [| split; reflexivity].
    unfold ONNX_EmbedQuery, ONNX_EmbedDocument, embed.
    rewrite (Honnx onnx eq_refl). cbn [negb or_else]. split; reflexivity.
  - destruct (realOnnxService s) as [onnx |]; [| split; reflexivity].
    unfold ONNX_EmbedQuery, ONNX_EmbedDocument, embed.
    rewrite (Honnx onnx eq_refl). cbn [negb or_else]. split; reflexivity.
Qed.

Lemma pad_general (n : nat) (tokens : list Z) :
  take (List.length tokens `min` n) tokens
    ++ replicate (n - List.length tokens `min` n) 0
  = take n (tokens ++ replicate n 0)
  /\ replicate (List.length tokens `min` n) 1
       ++ replicate (n - List.length tokens `min` n) 0
     = take n (replicate (List.length tokens) 1 ++ replicate n 0).
Proof.
  destruct (Nat.le_gt_cases (List.length tokens) n) as [Hle | Hgt].
  - rewrite Nat.min_l by exact Hle.
    rewrite take_ge by lia.
    rewrite take_app_ge by lia.
    rewrite (take_app_ge (replicate (List.length tokens) 1))
      by (rewrite length_replicate; lia).
    rewrite length_replicate, !take_replicate.
    rewrite Nat.min_l by lia. split; reflexivity.
  - rewrite Nat.min_r by lia. rewrite Nat.sub_diag. cbn [replicate].
    rewrite !app_nil_r.
    rewrite take_app_le by lia.
    rewrite (take_app_le (replicate (List.length tokens) 1))
      by (rewrite length_replicate; lia).
    rewrite take_replicate. rewrite Nat.min_l by lia. split; reflexivity.
Qed.

(** X25.  The two inputs of the model always have 512 positions: the
    token ids are the tokens cut or filled with zeros to that length, and
    the attention mask has a one for every token kept and zeros after
    them. *)
Theorem pad_tokens_shape (tokens : list Z) :
  GoInt.len (fst (pad_tokens tokens)) = maxLength
  /\ GoInt.len (snd (pad_tokens tokens)) = maxLength
  /\ fst (pad_tokens tokens)
     = take (Z.to_nat maxLength) (tokens ++ replicate (Z.to_nat maxLength) 0)
  /\ snd (pad_tokens tokens)
     = take (Z.to_nat maxLength)
         (replicate (List.length tokens) 1 ++ replicate (Z.to_nat maxLength) 0).
Proof.
  unfold pad_tokens. cbn [fst snd].
  assert (Hn : Z.of_nat (Z.to_nat maxLength) = maxLength) by reflexivity.
  set (n := Z.to_nat maxLength) in *.
  assert (Hc : Z.to_nat (if GoInt.len tokens >? maxLength then maxLength
                         else GoInt.len tokens)
               = (List.length tokens `min` n)%nat).
  { unfold GoInt.len. rewrite Z.gtb_ltb.
    destruct (Z.ltb_spec maxLength (Z.of_nat (List.length tokens))); lia. }
  rewrite Hc. clearbody n.
  destruct (pad_general n tokens) as [Hids Hmask].
  split; [| split; [| split; [exact Hids | exact Hmask]]].
  - unfold GoInt.len. rewrite length_app, length_take, length_replicate. lia.
  - unfold GoInt.len. rewrite length_app, !length_replicate. lia.
Qed.

End MoreProviders.

Section ProviderRuns.

Import embeddings.

Lemma averageEmbeddings_unknown_witness :
  (forall id, In id ["b"; "c"] -> verseEmbeddings Examples.primed !! id = None)
  /\ averageEmbeddings Examples.primed ["b"; "c"]
     = Ret (replicate (Z.to_nat config.Dimensions) F32.zero).
Proof.
  assert (Hnone : forall id, In id ["b"; "c"] ->
                    verseEmbeddings Examples.primed !! id = None)
    by (intros id [<- | [<- | []]]; reflexivity).
  split; [exact Hnone |].
  exact (averageEmbeddings_unknown Examples.primed ["b"; "c"] Hnone).
Defined.

Lemma findBestTextMatches_ids_witness :
  GoInt.len (findBestTextMatches (R := testRuntime) Examples.primed "the word" 1) <= 1
  /\ NoDup (findBestTextMatches (R := testRuntime) Examples.primed "the word" 1)
  /\ forall id,
       In id (findBestTextMatches (R := testRuntime) Examples.primed "the word" 1) ->
       is_Some (verseTexts Examples.primed !! id).
Proof.
  exact (findBestTextMatches_ids (R := testRuntime) testRuntime_sorts
           testRuntime_ranges Examples.primed "the word" 1).
Defined.

Lemma EmbedQuery_uninitialised_witness :
  (forall onnx,
      realOnnxService (search.svc_embeddings Fixtures.service0) = Some onnx ->
      onnx_initialized onnx = false)
  /\ (forall simple,
         simpleService (search.svc_embeddings Fixtures.service0) = Some simple ->
         simple_initialized simple = false)
  /\ EmbedQuery (R := testRuntime) (E := Fixtures.net)
       (search.svc_embeddings Fixtures.service0) "love"
     = generatePlaceholderEmbedding (search.svc_embeddings Fixtures.service0)
         "task: search result | query: love".
Proof.
  assert (Honnx : forall onnx,
             realOnnxService (search.svc_embeddings Fixtures.service0) = Some onnx ->
             onnx_initialized onnx = false)
    by (intros onnx H; injection H as <-; reflexivity).
  assert (Hsimple : forall simple,
             simpleService (search.svc_embeddings Fixtures.service0) = Some simple ->
             simple_initialized simple = false)
    by (intros simple H; injection H as <-; reflexivity).
  split; [exact Honnx |]. split; [exact Hsimple |].
  exact (proj1 (EmbedQuery_uninitialised (R := testRuntime) (E := Fixtures.net)
                  (search.svc_embeddings Fixtures.service0) "love" Honnx Hsimple)).
Defined.

End ProviderRuns.

(** ** Quantized vectors *)

Section Quantized.

Import search.

Lemma int8_of_int_range (n : Z) : -128 <= int8_of_int n <= 127.
Proof.
  unfold int8_of_int. pose proof (Z.mod_pos_bound (n + 128) 256). lia.
Qed.

(** X26.  [quantizeVector] reads [vec[0]] first and panics on the empty
    vector, and so does [QuantizedIndex.Add].  On any other vector it
    returns one code per component, every code within the range of
    [int8], and a scale that is not zero; [Add] then appends exactly one
    entry. *)
Theorem quantizeVector_outcome (qi : QuantizedIndex) (id : string)
    (vec : list F32.t) :
  (vec = [] ->
   quantizeVector vec = Panic "index out of range"
   /\ Quantized_Add qi id vec = Panic "index out of range")
  /\ (vec <> [] ->
      exists codes scale,
        quantizeVector vec = Ret (codes, scale)
        /\ List.length codes = List.length vec
        /\ Forall (fun c => -128 <= c <= 127) codes
        /\ F32.eqb scale F32.zero = false
        /\ Quantized_Add qi id vec
           = Ret {| qi_Vectors :=
                      qi_Vectors qi
                      ++ [{| qv_ID := id; Quantized := codes; Scale := scale |}] |}).
Proof.
  split.
  - intros ->. unfold Quantized_Add, quantizeVector.
    rewrite Slice_get_empty. split; reflexivity.
  - intros Hne. destruct vec as [| v0 vs]; [contradiction |].
    unfold Quantized_Add, quantizeVector. rewrite Slice_get_head. cbn [obind].
    destruct (min_max (v0 :: vs) v0) as [minVal maxVal].
    set (scale0 := F32.div (F32.sub maxVal minVal) (F32.of_Z 255)).
    set (scale := if F32.eqb scale0 F32.zero then F32.of_Z 1 else scale0).
    assert (Hscale : F32.eqb scale F32.zero = false).
    { unfold scale. destruct (F32.eqb scale0 F32.zero) eqn:H0; [| exact H0].
      vm_compute. reflexivity. }
    rewrite Slice_make_ok by apply len_nonneg. cbn [obind].
    destruct (range_from_invariant
                (fun st : list Z =>
                   List.length st = List.length (v0 :: vs)
                   /\ Forall (fun c => -128 <= c <= 127) st)
                (fun i v quantized =>
                   Slice.set quantized i
                     (int8_of_int
                        (clamp_int8
                           (GoInt.sub (float_to_int (F32.div (F32.sub v minVal) scale))
                              128))))
                (v0 :: vs) 0
                (replicate (Z.to_nat (GoInt.len (v0 :: vs))) 0))
      as (codes & Hcodes & Hlen & Hrange).
    + split.
      * rewrite length_replicate. unfold GoInt.len. lia.
      * apply Forall_replicate. lia.
    + intros k x st Hk [Hst Hall]. rewrite Z.add_0_l.
      apply lookup_lt_Some in Hk.
      rewrite Slice_set_nat by lia.
      eexists. split; [reflexivity |]. split.
      * now rewrite length_insert.
      * apply Forall_insert; [exact Hall | apply int8_of_int_range].
    + unfold Slice.for_range. cbv zeta. rewrite Hcodes. cbn [obind fst snd].
      exists codes, scale. repeat split; assumption.
Qed.

End Quantized.

Section QuantizedRuns.

Import search.

Lemma quantizeVector_outcome_witness :
  [F32.of_Z 10; F32.of_Z 11] <> []
  /\ exists codes scale,
       quantizeVector [F32.of_Z 10; F32.of_Z 11] = Ret (codes, scale)
       /\ List.length codes = 2%nat
       /\ Forall (fun c => -128 <= c <= 127) codes
       /\ F32.eqb scale F32.zero = false.
Proof.
  assert (Hne : [F32.of_Z 10; F32.of_Z 11] <> []) by discriminate.
  split; [exact Hne |].
  destruct (proj2 (quantizeVector_outcome NewQuantizedIndex "x"
                     [F32.of_Z 10; F32.of_Z 11]) Hne)
    as (codes & scale & Hq & Hlen & Hrange & Hscale & _).
  exists codes, scale. repeat split; assumption.
Defined.

End QuantizedRuns.

(** ** The request handler *)

Section Handler.

Import search api.

Context {R : GoRuntime} {E : Environment}.

Lemma maxInt_fold (values : list Z) :
  forall acc,
    acc <= fold_left (fun max v => if v >? max then v else max) values acc
    /\ Forall (fun v => v <= fold_left (fun max v => if v >? max then v else max)
                              values acc) values
    /\ (fold_left (fun max v => if v >? max then v else max) values acc = acc
        \/ In (fold_left (fun max v => if v >? max then v else max) values acc) values).
Proof.
  induction values as [| v values IH]; intros acc.
  - cbn. split; [lia |]. split; [constructor | now left].
  - cbn [fold_left]. destruct (IH (if v >? acc then v else acc)) as (H1 & H2 & H3).
    rewrite Z.gtb_ltb in *.
    destruct (Z.ltb_spec acc v) as [Hlt | Hge].
    + split; [lia |]. split; [constructor; [lia | exact H2] |].
      destruct H3 as [-> | H3]; right; [now left | now right].
    + split; [lia |]. split; [constructor; [lia | exact H2] |].
      destruct H3 as [-> | H3]; [now left | right; now right].
Qed.

(** X27.  [maxInt] is the largest of its arguments and of zero: it is
    never negative, no argument exceeds it, and it is zero or one of the
    arguments.  A negative count therefore never passes through it. *)
Theorem maxInt_bounds (values : list Z) :
  0 <= maxInt values
  /\ Forall (fun v => v <= maxInt values) values
  /\ (maxInt values = 0 \/ In (maxInt values) values).
Proof. unfold maxInt. apply maxInt_fold. Qed.

Lemma coalesce_three (a b c : string) :
  firstNonEmpty a b c (coalesce [a; b; c]).
Proof.
  unfold firstNonEmpty. cbn [coalesce].
  destruct (String.eqb_spec a "") as [-> | Ha]; cbn [negb]; [| now left].
  right. destruct (String.eqb_spec b "") as [-> | Hb]; cbn [negb]; [| now left].
  right. destruct (String.eqb_spec c "") as [-> | Hc]; cbn [negb]; auto.
Qed.

(** X28.  How the handler merges the three sources of a filter: the
    field of the request comes first, the filter written in the query
    second, the options of the request last.  The granularity is the
    request's, else the options', else ["verse"]: it is never empty and
    what the query says has no part in it. *)
Theorem mergeOptions_precedence (req : SearchRequest) (filters : SearchOptions) :
  firstNonEmpty (req_Book req) (opt_Book filters) (opt_Book (req_Options req))
    (opt_Book (mergeOptions req filters))
  /\ firstNonEmpty (req_Chapter req) (opt_Chapter filters)
       (opt_Chapter (req_Options req)) (opt_Chapter (mergeOptions req filters))
  /\ firstNonEmpty (req_Verse req) (opt_Verse filters) (opt_Verse (req_Options req))
       (opt_Verse (mergeOptions req filters))
  /\ firstNonEmpty (req_Granularity req) (opt_Granularity (req_Options req)) "verse"
       (opt_Granularity (mergeOptions req filters))
  /\ opt_Granularity (mergeOptions req filters) <> ""
  /\ opt_Granularity (withDefaults (mergeOptions req filters))
     = opt_Granularity (mergeOptions req filters).
Proof.
  unfold mergeOptions. cbn [opt_Book opt_Chapter opt_Verse opt_Granularity].
  split; [apply coalesce_three |]. split; [apply coalesce_three |].
  split; [apply coalesce_three |]. split; [apply coalesce_three |].
  assert (Hne : coalesce [req_Granularity req; opt_Granularity (req_Options req); "verse"]
                <> "").
  { destruct (coalesce_three (req_Granularity req)
                (opt_Granularity (req_Options req)) "verse")
      as [(H & ->) | [(_ & H & ->) | (_ & _ & ->)]];
      [exact H | exact H | discriminate]. }
  split; [exact Hne |].
  unfold withDefaults. cbn [opt_Granularity].
  destruct (String.eqb_spec
              (coalesce [req_Granularity req; opt_Granularity (req_Options req); "verse"])
              ""); [contradiction | reflexivity].
Qed.

Lemma cutColon_Some (part k v : string) :
  cutColon part = Some (k, v) -> part = (k +:+ ":" +:+ v)%string.
Proof.
  revert k v. induction part as [| c rest IH]; intros k v; [discriminate |].
  cbn [cutColon]. destruct (Ascii.eqb_spec c ":"%char) as [-> | Hc].
  - intros H. injection H as <- <-. reflexivity.
  - destruct (cutColon rest) as [[k' v'] |]; [| discriminate].
    intros H. injection H as <- <-.
    change (String c rest = String c (k' +:+ ":" +:+ v')).
    f_equal. now apply IH.
Qed.

(** One step of [parseQuery]: the count and the granularity of the
    filters are not written, a filter takes its value from the token,
    and the semantic parts grow by the token or not at all. *)
Lemma parsePart_step (semanticParts : list string) (filters : SearchOptions)
    (part : string) :
  opt_K (snd (parsePart (semanticParts, filters) part)) = opt_K filters
  /\ opt_Granularity (snd (parsePart (semanticParts, filters) part))
     = opt_Granularity filters
  /\ (fst (parsePart (semanticParts, filters) part)
      = if isFilterToken part then semanticParts else semanticParts ++ [part])
  /\ (opt_Book (snd (parsePart (semanticParts, filters) part)) = opt_Book filters
      \/ exists k,
           strings_ToLower k = "book"
           /\ part = (k +:+ ":" +:+ opt_Book (snd (parsePart (semanticParts, filters) part)))%string).
Proof.
  unfold parsePart, isFilterToken.
  destruct (strings_Contains part ":"); cbn [andb];
    [| repeat split; auto].
  destruct (cutColon part) as [[k value] |] eqn:Hcut; [| repeat split; auto].
  apply cutColon_Some in Hcut. cbv zeta.
  destruct (String.eqb_spec (strings_ToLower k) "book") as [Hb | Hb]; cbn [orb].
  { cbn [fst snd opt_K opt_Granularity opt_Book].
    split; [reflexivity |]. split; [reflexivity |]. split; [reflexivity |].
    right. exists k. split; assumption. }
  destruct (String.eqb (strings_ToLower k) "chapter"); cbn [orb];
    [repeat split; auto |].
  destruct (String.eqb (strings_ToLower k) "verse"); cbn [orb]; repeat split; auto.
Qed.

Lemma parseQuery_loop (parts : list string) :
  forall (semanticParts : list string) (filters : SearchOptions),
    opt_K (snd (fold_left parsePart parts (semanticParts, filters))) = opt_K filters
    /\ opt_Granularity (snd (fold_left parsePart parts (semanticParts, filters)))
       = opt_Granularity filters
    /\ fst (fold_left parsePart parts (semanticParts, filters))
       = semanticParts ++ List.filter (fun part => negb (isFilterToken part)) parts
    /\ (opt_Book (snd (fold_left parsePart parts (semanticParts, filters)))
        = opt_Book filters
        \/ exists part k,
             In part parts /\ strings_ToLower k = "book"
             /\ part = (k +:+ ":"
                        +:+ opt_Book (snd (fold_left parsePart parts
                                             (semanticParts, filters))))%string).
Proof.
  induction parts as [| part parts IH]; intros semanticParts filters.
  - cbn. rewrite app_nil_r. auto.
  - cbn [fold_left List.filter].
    destruct (parsePart_step semanticParts filters part) as (HK & HG & Hsem & HB).
    destruct (parsePart (semanticParts, filters) part) as [semanticParts' filters'].
    cbn [fst snd] in *.
    destruct (IH semanticParts' filters') as (HK' & HG' & Hsem' & HB').
    split; [congruence |]. split; [congruence |]. split.
    + rewrite Hsem', Hsem. destruct (isFilterToken part); cbn [negb];
        [reflexivity | now rewrite <- app_assoc].
    + destruct HB' as [HB' | (part' & k & Hin & Hk & Hpart)].
      * destruct HB as [HB | (k & Hk & Hpart)].
        -- left. congruence.
        -- right. exists part, k. split; [now left |]. split; [exact Hk |].
           rewrite HB'. exact Hpart.
      * right. exists part', k. split; [now right |]. split; assumption.
Qed.

(** X29.  What [parseQuery] makes of a query.  The semantic query is
    made of the tokens that are not filters, in their order, joined by
    single spaces; the filters it returns never carry a count or a
    granularity; and a book filter that is set is the text behind the
    colon of a token of the query whose key reads "book" in lower
    case. *)
Theorem parseQuery_filters (query : string) :
  fst (parseQuery query)
  = strings_Join
      (List.filter (fun part => negb (isFilterToken part)) (strings_Fields query)) " "
  /\ opt_K (snd (parseQuery query)) = 0
  /\ opt_Granularity (snd (parseQuery query)) = ""
  /\ (opt_Book (snd (parseQuery query)) = ""
      \/ exists part k,
           In part (strings_Fields query) /\ strings_ToLower k = "book"
           /\ part = (k +:+ ":" +:+ opt_Book (snd (parseQuery query)))%string).
Proof.
  unfold parseQuery.
  destruct (parseQuery_loop (strings_Fields query) [] noFilters)
    as (HK & HG & Hsem & HB).
  destruct (fold_left parsePart (strings_Fields query) ([], noFilters))
    as [semanticParts filters].
  cbn [fst snd] in *. cbn [app] in Hsem. subst semanticParts.
  split; [reflexivity |]. split; [exact HK |]. split; [exact HG |]. exact HB.
Qed.

(** X30.  A request whose query holds filters only finds nothing: the
    semantic query is empty, and the service answers the empty query
    with the empty list, whatever was asked for and whether or not the
    granularity is loaded. *)
Theorem Handler_Search_filters_only (h : SearchService) (req : SearchRequest) :
  forallb isFilterToken (strings_Fields (req_Query req)) = true ->
  Handler_Search h req = Ret [].
Proof.
  intros Hall. unfold Handler_Search, parseQuery.
  destruct (parseQuery_loop (strings_Fields (req_Query req)) [] noFilters)
    as (_ & _ & Hsem & _).
  destruct (fold_left parsePart (strings_Fields (req_Query req)) ([], noFilters))
    as [semanticParts filters].
  cbn [fst app] in Hsem. subst semanticParts.
  replace (List.filter (fun part => negb (isFilterToken part))
             (strings_Fields (req_Query req))) with (@nil string).
  - reflexivity.
  - symmetry. induction (strings_Fields (req_Query req)) as [| part parts IH];
      [reflexivity |].
    cbn [forallb] in Hall. apply andb_true_iff in Hall as [Hp Hall].
    cbn [List.filter]. rewrite Hp. cbn [negb]. now apply IH.
Qed.

End Handler.

Section HandlerRuns.

Import search api.

Lemma Handler_Search_filters_only_witness :
  forallb (isFilterToken (R := testRuntime))
    (strings_Fields (GoRuntime := testRuntime) "book:John chapter:3") = true
  /\ Handler_Search (R := testRuntime) (E := Fixtures.net) Fixtures.service0
       {| req_Query := "book:John chapter:3";
          req_Options := noFilters;
          req_Granularity := "";
          req_K := 5;
          req_Book := "";
          req_Chapter := "";
          req_Verse := "" |}
     = Ret [].
Proof.
  assert (Hall : forallb (isFilterToken (R := testRuntime))
                   (strings_Fields (GoRuntime := testRuntime) "book:John chapter:3")
                 = true) by (vm_compute; reflexivity).
  split; [exact Hall |].
  exact (Handler_Search_filters_only (R := testRuntime) (E := Fixtures.net)
           Fixtures.service0
           {| req_Query := "book:John chapter:3";
              req_Options := noFilters;
              req_Granularity := "";
              req_K := 5;
              req_Book := "";
              req_Chapter := "";
              req_Verse := "" |} Hall).
Defined.

End HandlerRuns.
